(** * Hurricane forecasting pipeline: feature derivation, descaling, orchestration

    A shallow embedding of the parts of the repository that carry logic:

    - [ingest.py]: [past_track] and [nhc] (how a storm's entry list is put
      together from the feed) and [prep_hurricane_data] (the pandas
      feature derivation);
    - [hurricane_ai/plotting_utils.py]: [_generate_sparse_feature_vector]
      and the forecast-point loop of [process_results];
    - [hurricane_ai/ml/bd_lstm_td.py]: the parameters of the constructor
      and the layers of [_build_model];
    - [deploy.py]: [run_live_inference] and its storm loop;
    - [test.py]: the all-timesteps table comprehension and [create_table].

    Python values are modelled as follows.  Integers are [Z].  A Python
    float is a [pyfloat]: an exact rational, one of the two infinities, or
    NaN.  Rounding of finite results is abstracted away; what pandas does
    with a zero divisor and with missing values is kept, because [dropna]
    decides on it.  A timestamp is a number of seconds since the Unix epoch
    (UTC).  Exceptions are values of [exn]. *)

From Stdlib Require Import ZArith QArith Lia.
From stdpp Require Import base list sorting strings gmap.

Local Open Scope Z_scope.

(** ** Python exceptions and results *)

Inductive exn : Type :=
| KeyError
| IndexError
| TypeError
| ValueError
| AttributeError
| UnboundLocalError
| NameError.

(** [UnboundLocalError] is a subclass of [NameError]; this is
    [issubclass exc NameError]. *)
Definition is_NameError (e : exn) : bool :=
  match e with
  | UnboundLocalError | NameError => true
  | _ => false
  end.

Inductive pyresult (A : Type) : Type :=
| Ok (a : A)
| Raise (e : exn).
Arguments Ok {A} a.
Arguments Raise {A} e.

Definition rbind {A B} (r : pyresult A) (k : A -> pyresult B) : pyresult B :=
  match r with
  | Ok a => k a
  | Raise e => Raise e
  end.

Declare Scope result_scope.
Delimit Scope result_scope with res.
Notation "'let?' x ':=' r 'in' k" := (rbind r (fun x => k))
  (at level 10, x name, r at level 100, k at level 200) : result_scope.

(** ** Floats *)

Inductive pyfloat : Type :=
| Fin (q : Q)
| PInf
| NInf
| NaN.

Definition of_Z (z : Z) : pyfloat := Fin (inject_Z z).

Definition isnan (x : pyfloat) : bool :=
  match x with NaN => true | _ => false end.

Definition isfinite (x : pyfloat) : bool :=
  match x with Fin _ => true | _ => false end.

Definition fneg (x : pyfloat) : pyfloat :=
  match x with
  | Fin q => Fin (Qred (Qopp q))
  | PInf => NInf
  | NInf => PInf
  | NaN => NaN
  end.

Definition fsub (x y : pyfloat) : pyfloat :=
  match x, y with
  | NaN, _ | _, NaN => NaN
  | Fin a, Fin b => Fin (Qred (a - b))
  | Fin _, PInf => NInf
  | Fin _, NInf => PInf
  | PInf, PInf => NaN
  | NInf, NInf => NaN
  | PInf, _ => PInf
  | NInf, _ => NInf
  end.

(** Sign of a rational: the sign of its numerator. *)
Definition Qsign (q : Q) : Z := Z.sgn (Qnum q).

(** Division as numpy does it on float64 arrays: a zero divisor gives
    NaN for a zero dividend and a signed infinity otherwise.  Divisors in
    this program are never negative zero. *)
Definition fdiv (x y : pyfloat) : pyfloat :=
  match x, y with
  | NaN, _ | _, NaN => NaN
  | Fin a, Fin b =>
      if Qsign b =? 0 then
        (if Qsign a =? 0 then NaN else if 0 <? Qsign a then PInf else NInf)
      else Fin (Qred (a / b))
  | Fin _, (PInf | NInf) => Fin 0
  | (PInf | NInf), (PInf | NInf) => NaN
  | PInf, Fin b => if 0 <=? Qsign b then PInf else NInf
  | NInf, Fin b => if 0 <=? Qsign b then NInf else PInf
  end.

Definition fle (x y : pyfloat) : bool :=
  match x, y with
  | NaN, _ | _, NaN => false
  | NInf, _ => true
  | _, PInf => true
  | Fin a, Fin b => Qle_bool a b
  | _, _ => false
  end.

(** ** Python list indexing *)

(** [l[i]] with Python's wrap-around of negative indices. *)
Definition py_getitem {A} (l : list A) (i : Z) : pyresult A :=
  let n := Z.of_nat (length l) in
  let j := if i <? 0 then n + i else i in
  if (0 <=? j) && (j <? n) then
    match l !! Z.to_nat j with
    | Some a => Ok a
    | None => Raise IndexError
    end
  else Raise IndexError.

(** [l[i] = v]: same index rule, [IndexError] outside [-len(l), len(l)). *)
Definition py_setitem {A} (l : list A) (i : Z) (v : A) : pyresult (list A) :=
  let n := Z.of_nat (length l) in
  let j := if i <? 0 then n + i else i in
  if (0 <=? j) && (j <? n) then Ok (<[Z.to_nat j := v]> l)
  else Raise IndexError.

(** ** plotting_utils.py *)

(** What a slot of a feature vector can hold: a number, or whatever
    one-dimensional array the model handed back for a horizon. *)
Inductive pyval : Type :=
| Num (x : pyfloat)
| Arr (xs : list pyfloat).

(** [[0] * vector_length]: a negative count gives the empty list. *)
Definition zeros (vector_length : Z) : list pyval :=
  replicate (Z.to_nat vector_length) (Num (of_Z 0)).

Definition _generate_sparse_feature_vector
    (vector_length feature_index : Z) (feature_value : pyval)
    : pyresult (list pyval) :=
  let features := zeros vector_length in
  py_setitem features feature_index feature_value.

(** ** ingest.py: observations *)

(** One raw measurement: the five scalar fields of an entry dictionary. *)
Record Observation : Type := {
  time : Z;          (* seconds since the epoch, UTC *)
  wind : Q;          (* knots *)
  lat : Q;
  lon : Q;
  pressure : Q       (* mb *)
}.

(** ** pandas: the Series operations the deriver uses *)

(** [Series.shift(periods)] for a non-negative number of periods. *)
Definition shift {A} (na : A) (periods : nat) (s : list A) : list A :=
  take (length s) (replicate periods na ++ s).

Definition fmax (a x : pyfloat) : pyfloat := if fle a x then x else a.
Definition fmin (a x : pyfloat) : pyfloat := if fle x a then x else a.

(** [Series.cummax()] / [Series.cummin()] with the default [skipna=True]:
    a NaN entry stays NaN and does not enter the running extremum. *)
Fixpoint cum_from (op : pyfloat -> pyfloat -> pyfloat)
    (acc : option pyfloat) (s : list pyfloat) : list pyfloat :=
  match s with
  | [] => []
  | x :: s' =>
      if isnan x then NaN :: cum_from op acc s'
      else
        let m := match acc with None => x | Some a => op a x end in
        m :: cum_from op (Some m) s'
  end.

Definition cummax (s : list pyfloat) : list pyfloat := cum_from fmax None s.
Definition cummin (s : list pyfloat) : list pyfloat := cum_from fmin None s.

Definition series_sub (a b : list pyfloat) : list pyfloat := zip_with fsub a b.
Definition series_div (a b : list pyfloat) : list pyfloat := zip_with fdiv a b.
Definition series_div_scalar (a : list pyfloat) (k : Z) : list pyfloat :=
  (fun x => fdiv x (of_Z k)) <$> a.

(** Difference of two datetime columns; [None] is NaT. *)
Definition timedelta_sub (a b : list (option Z)) : list (option Z) :=
  zip_with (fun x y =>
              match x, y with
              | Some t, Some u => Some (t - u)
              | _, _ => None
              end) a b.

(** [Series.dt.seconds]: the seconds component of each timedelta, that
    is the part left once whole days are taken out (0 <= seconds < 86400);
    NaT gives NaN. *)
Definition dt_seconds (d : list (option Z)) : list pyfloat :=
  (fun x => match x with
            | Some s => of_Z (s mod 86400)
            | None => NaN
            end) <$> d.

(** Calendar fields of a timestamp (proleptic Gregorian, UTC). *)
Definition civil_from_days (days : Z) : Z * Z * Z :=
  let z := days + 719468 in
  let era := z / 146097 in
  let doe := z - era * 146097 in
  let yoe := (doe - doe / 1460 + doe / 36524 - doe / 146096) / 365 in
  let doy := doe - (365 * yoe + yoe / 4 - yoe / 100) in
  let mp := (5 * doy + 2) / 153 in
  let d := doy - (153 * mp + 2) / 5 + 1 in
  let m := if mp <? 10 then mp + 3 else mp - 9 in
  let y := yoe + era * 400 + (if m <=? 2 then 1 else 0) in
  (y, m, d).

Definition dt_year (t : Z) : Z := (civil_from_days (t / 86400)).1.1.
Definition dt_month (t : Z) : Z := (civil_from_days (t / 86400)).1.2.
Definition dt_day (t : Z) : Z := (civil_from_days (t / 86400)).2.
Definition dt_hour (t : Z) : Z := (t mod 86400) / 3600.

(** [sort_values(by="time")]: rows ordered by time.  Rows with equal
    times keep their input order here; pandas' default sort does not
    promise an order for them. *)
Fixpoint insert_by_time (o : Observation) (l : list Observation)
    : list Observation :=
  match l with
  | [] => [o]
  | x :: l' =>
      if time o <? time x then o :: x :: l' else x :: insert_by_time o l'
  end.

Definition sort_values (obs : list Observation) : list Observation :=
  foldl (fun acc o => insert_by_time o acc) [] obs.

Definition time_le (a b : Observation) : Prop := time a <= time b.

(** ** ingest.py: [prep_hurricane_data] *)

(** A row of the returned data frame: the raw columns and the columns
    added by [df.assign]. *)
Record FeatureRow : Type := {
  obs : Observation;
  max_wind : pyfloat;
  delta_wind : pyfloat;
  min_pressure : pyfloat;
  zonal_speed : pyfloat;
  meridonal_speed : pyfloat;
  year : Z;
  month : Z;
  day : Z;
  hour : Z
}.

(** The value of a column at a row position. *)
Definition col_at (s : list pyfloat) (i : nat) : pyfloat :=
  default NaN (s !! i).

(** The columns of the sorted frame [df], as float and datetime Series. *)
Definition col_time (df : list Observation) : list (option Z) :=
  (fun o => Some (time o)) <$> df.
Definition col_wind (df : list Observation) : list pyfloat :=
  (fun o => Fin (wind o)) <$> df.
Definition col_lat (df : list Observation) : list pyfloat :=
  (fun o => Fin (lat o)) <$> df.
Definition col_lon (df : list Observation) : list pyfloat :=
  (fun o => Fin (lon o)) <$> df.
Definition col_pressure (df : list Observation) : list pyfloat :=
  (fun o => Fin (pressure o)) <$> df.

(** [(df["time"] - df["time"].shift(lag)).dt.seconds]. *)
Definition lag_seconds (df : list Observation) (lag : nat) : list pyfloat :=
  dt_seconds (timedelta_sub (col_time df) (shift None lag (col_time df))).

(** The keyword arguments of [df.assign], in order.  [lag] is the number
    of observation intervals, a natural number. *)
Definition col_max_wind (df : list Observation) : list pyfloat :=
  cummax (col_wind df).

Definition col_delta_wind (df : list Observation) (lag : nat) : list pyfloat :=
  series_div
    (series_sub (cummax (col_wind df)) (cummax (shift NaN lag (col_wind df))))
    (series_div_scalar (lag_seconds df lag) 21600).

Definition col_min_pressure (df : list Observation) : list pyfloat :=
  cummin (col_pressure df).

Definition col_zonal_speed (df : list Observation) (lag : nat) : list pyfloat :=
  series_div (series_sub (col_lat df) (shift NaN lag (col_lat df)))
             (series_div_scalar (lag_seconds df lag) 3600).

Definition col_meridonal_speed (df : list Observation) (lag : nat)
    : list pyfloat :=
  series_div (series_sub (col_lon df) (shift NaN lag (col_lon df)))
             (series_div_scalar (lag_seconds df lag) 3600).

(** The frame after [df.assign(...)], row by row. *)
Definition assign (df : list Observation) (lag : nat) : list FeatureRow :=
  imap (fun i o =>
          {| obs := o;
             max_wind := col_at (col_max_wind df) i;
             delta_wind := col_at (col_delta_wind df lag) i;
             min_pressure := col_at (col_min_pressure df) i;
             zonal_speed := col_at (col_zonal_speed df lag) i;
             meridonal_speed := col_at (col_meridonal_speed df lag) i;
             year := dt_year (time o);
             month := dt_month (time o);
             day := dt_day (time o);
             hour := dt_hour (time o) |}) df.

(** A row has a missing value when one of its float columns is NaN.  The
    raw columns and the calendar columns of an [Observation] never are. *)
Definition row_has_na (r : FeatureRow) : bool :=
  isnan (max_wind r) || isnan (delta_wind r) || isnan (min_pressure r)
  || isnan (zonal_speed r) || isnan (meridonal_speed r).

Definition dropna (df : list FeatureRow) : list FeatureRow :=
  filter (fun r => row_has_na r = false) df.

(** [pd.DataFrame([])] has no columns, so sorting it by ["time"] raises
    [KeyError].  Timestamps are UTC instants already, so [pd.to_datetime]
    leaves them as they are.  The returned frame is given by its rows, in
    order, each with its columns by name; the index label pandas keeps on
    every row (its position in the input) and the order of the columns
    are not carried, and nothing below speaks of them. *)
Definition prep_hurricane_data (observations : list Observation) (lag : nat)
    : pyresult (list FeatureRow) :=
  match observations with
  | [] => Raise KeyError
  | _ :: _ =>
      let df := sort_values observations in
      let df := assign df lag in
      Ok (dropna df)
  end.

(** *** The six-observation scenario *)

Definition mk_obs (t : Z) (w la lo p : Q) : Observation :=
  {| time := t; wind := w; lat := la; lon := lo; pressure := p |}.

(** Six observations exactly six hours apart from time [t] on, with
    winds 30, 35, 40, 45, 50, 55 knots; [la], [lo] and [p] give the
    latitude, longitude and pressure of each. *)
Definition six_hourly (t : Z) (la lo p : nat -> Q) : list Observation :=
  [ mk_obs t 30 (la 0%nat) (lo 0%nat) (p 0%nat);
    mk_obs (t + 21600) 35 (la 1%nat) (lo 1%nat) (p 1%nat);
    mk_obs (t + 2 * 21600) 40 (la 2%nat) (lo 2%nat) (p 2%nat);
    mk_obs (t + 3 * 21600) 45 (la 3%nat) (lo 3%nat) (p 3%nat);
    mk_obs (t + 4 * 21600) 50 (la 4%nat) (lo 4%nat) (p 4%nat);
    mk_obs (t + 5 * 21600) 55 (la 5%nat) (lo 5%nat) (p 5%nat) ].

Definition six_hourly_first (t : Z) (la lo p : nat -> Q) : Observation :=
  mk_obs t 30 (la 0%nat) (lo 0%nat) (p 0%nat).

Definition six_hourly_last (t : Z) (la lo p : nat -> Q) : Observation :=
  mk_obs (t + 5 * 21600) 55 (la 5%nat) (lo 5%nat) (p 5%nat).

(** 2020-09-15 00:00 UTC, then every six hours. *)
Definition t0 : Z := 1600128000.

Definition six_obs : list Observation :=
  [ mk_obs t0 30 (20) (-60) 1005;
    mk_obs (t0 + 21600) 35 (20.5) (-61) 1003;
    mk_obs (t0 + 2 * 21600) 40 (21) (-62) 1001;
    mk_obs (t0 + 3 * 21600) 45 (21.5) (-63) 999;
    mk_obs (t0 + 4 * 21600) 50 (22) (-64) 997;
    mk_obs (t0 + 5 * 21600) 55 (23) (-66) 995 ].

(** ** ingest.py: what [xmltodict] hands over *)

(** [xmltodict.parse] gives the child elements of one tag as a list when
    there are two or more of them, as a single dict when there is one, and
    leaves the key out when there is none.  The loops of [ingest.py]
    subscript that key and iterate over the value: for a list they get its
    elements; for a missing key the subscript is a [KeyError]; for a
    single dict they get its keys, which are strings, and the first
    subscript of one with a string ([folder['@id']], [attribute['name']],
    [entry['atcfdtg']], [links['@id']]) is a [TypeError].  [elements] are
    the child elements as the document has them, in order. *)
Definition xml_children {A} (elements : list A) : pyresult (list A) :=
  match elements with
  | [] => Raise KeyError
  | [_] => Raise TypeError
  | _ :: _ :: _ => Ok elements
  end.

(** The lines [ingest.py] prints. *)
Inductive IngestLine : Type :=
| LNoStorms
| LName (name : string)
| LStormId (id : string)
| LEntry (entry : Observation).

(** ** ingest.py: [past_track] *)

(** A placemark of the [Data] folder of a storm's past-track file, with
    its strings parsed: [atcfdtg] as a UTC timestamp, the rest as
    floats. *)
Record Placemark : Type := {
  atcfdtg : Z;
  intensity : Q;
  placemark_lat : Q;
  placemark_lon : Q;
  minSeaLevelPres : Q
}.

(** A [Folder] element of the file: its [name] and its [Placemark]
    elements. *)
Record KmlFolder : Type := {
  kml_name : string;
  kml_placemarks : list Placemark
}.

(** What is downloaded from a link: the member names of the archive and,
    for a member, the [Folder] elements of its KML document. *)
Record Archive : Type := {
  namelist : list string;
  read : string -> list KmlFolder
}.

(** The loop over [uncompressed.namelist()]: [file_name] is bound to
    each name that starts with [al] in turn; [None] is the unbound local. *)
Definition kml_file_name (namelist : list string) : option string :=
  foldl (fun file_name name =>
           if String.eqb (String.substring 0 2 name) "al"
           then Some name else file_name)
        None namelist.

(** The dict appended to [kml['results']] for a placemark. *)
Definition placemark_entry (entry : Placemark) : Observation :=
  {| time := atcfdtg entry;
     wind := intensity entry;
     lat := placemark_lat entry;
     lon := placemark_lon entry;
     pressure := minSeaLevelPres entry |}.

(** [for attribute in kml['kml']['Document']['Folder']], with
    [kml['results']] so far: the results when the loop ends, normally or
    not.  Every entry appended is printed, so the results are also what
    was printed. *)
Fixpoint past_track_loop (folders : list KmlFolder)
    (results : list Observation) : list Observation * pyresult unit :=
  match folders with
  | [] => (results, Ok tt)
  | attribute :: rest =>
      if String.eqb (kml_name attribute) "Data" then
        match xml_children (kml_placemarks attribute) with
        | Ok placemarks =>
            past_track_loop rest (results ++ (placemark_entry <$> placemarks))
        | Raise e => (results, Raise e)
        end
      else past_track_loop rest results
  end.

(** [past_track(link)], from what the link gives: the lines printed and
    [kml['results']]. *)
Definition past_track (archive : Archive)
    : list IngestLine * pyresult (list Observation) :=
  match kml_file_name (namelist archive) with
  | None => ([], Raise UnboundLocalError)
  | Some file_name =>
      match xml_children (read archive file_name) with
      | Raise e => ([], Raise e)
      | Ok folders =>
          match past_track_loop folders [] with
          | (results, Ok _) => (LEntry <$> results, Ok results)
          | (results, Raise e) => (LEntry <$> results, Raise e)
          end
      end
  end.

(** ** ingest.py: [nhc] *)

(** The folder dict of a storm as the storm carries it in [metadata], with
    the attribute strings already parsed.  [pasttrack] holds the
    [results] of [past_track] for every network link whose id is
    [pasttrack], in order. *)
Record Folder : Type := {
  folder_id : string;
  folder_name : string;
  has_extended_data : bool;
  atcfID : string;
  centerLat : Q;
  centerLon : Q;
  dateTime : Z;
  minimumPressure : Q;
  maxSustainedWind : Q;      (* mph, as the feed gives it *)
  pasttrack : list (list Observation)
}.

Record Storm : Type := {
  metadata : Folder;
  id : string;
  entries : list Observation
}.

(** The [storm] dict appended to [results] for such a folder: the live
    entry first, then the past tracks. *)
Definition nhc_storm (folder : Folder) : Storm :=
  let entry :=
    {| time := dateTime folder;
       wind := Qred (maxSustainedWind folder / 1.151);
       lat := centerLat folder;
       lon := centerLon folder;
       pressure := minimumPressure folder |} in
  {| metadata := folder;
     id := atcfID folder;
     entries := [entry] ++ concat (pasttrack folder) |}.

(** The [Folder] elements of the active-storms document as [nhc] reads
    them: the [@id] and [name], the [ExtendedData] elements and the
    [NetworkLink] elements.  An [ExtendedData] element is given by the
    seven [tc:] attributes [nhc] looks for, with their strings parsed, or
    [None] when it does not carry them. *)
Record StormAttributes : Type := {
  tc_atcfID : string;
  tc_name : string;
  tc_centerLat : Q;
  tc_centerLon : Q;
  tc_dateTime : Z;
  tc_minimumPressure : Q;
  tc_maxSustainedWind : Q      (* mph *)
}.

Record NetworkLink : Type := {
  link_id : string;
  link_href : string
}.

Record FeedFolder : Type := {
  feed_id : string;
  feed_name : string;
  extended_data : list (option StormAttributes);
  network_links : list NetworkLink
}.

(** The [entry] built from the attributes; the wind is converted from
    miles per hour to knots. *)
Definition live_entry (a : StormAttributes) : Observation :=
  {| time := tc_dateTime a;
     wind := Qred (tc_maxSustainedWind a / 1.151);
     lat := tc_centerLat a;
     lon := tc_centerLon a;
     pressure := tc_minimumPressure a |}.

(** The folder dict of a storm once its links have been followed. *)
Definition storm_folder (folder : FeedFolder) (a : StormAttributes)
    (tracks : list (list Observation)) : Folder :=
  {| folder_id := feed_id folder;
     folder_name := feed_name folder;
     has_extended_data := true;
     atcfID := tc_atcfID a;
     centerLat := tc_centerLat a;
     centerLon := tc_centerLon a;
     dateTime := tc_dateTime a;
     minimumPressure := tc_minimumPressure a;
     maxSustainedWind := tc_maxSustainedWind a;
     pasttrack := tracks |}.

(** [for links in folder['NetworkLink']], with the lines printed and the
    past tracks collected so far.  [fetch] is the download of a link. *)
Fixpoint nhc_links (fetch : string -> Archive) (links : list NetworkLink)
    (lines : list IngestLine) (tracks : list (list Observation))
    : list IngestLine * pyresult (list (list Observation)) :=
  match links with
  | [] => (lines, Ok tracks)
  | link :: rest =>
      if String.eqb (link_id link) "pasttrack" then
        match past_track (fetch (link_href link)) with
        | (printed, Ok results) =>
            nhc_links fetch rest (lines ++ printed) (tracks ++ [results])
        | (printed, Raise e) => (lines ++ printed, Raise e)
        end
      else nhc_links fetch rest lines tracks
  end.

(** The body of [for folder in data['kml']['Document']['Folder']]: the
    lines it prints and the storm it appends to [results], if any.  A
    folder without [ExtendedData] is passed over.  With a single
    [ExtendedData] element, a dict, [folder['ExtendedData'][1]] is a
    [KeyError]; so is [storm['id']] when the second element has no
    [tc:atcfID]. *)
Definition nhc_folder (fetch : string -> Archive) (folder : FeedFolder)
    : list IngestLine * pyresult (option Storm) :=
  if String.eqb (String.substring 0 2 (feed_id folder)) "at" then
    match extended_data folder with
    | [] => ([], Ok None)
    | [_] => ([], Raise KeyError)
    | _ :: None :: _ => ([], Raise KeyError)
    | _ :: Some a :: _ =>
        let lines :=
          [LName (tc_name a); LStormId (tc_atcfID a); LEntry (live_entry a)] in
        match xml_children (network_links folder) with
        | Raise e => (lines, Raise e)
        | Ok links =>
            match nhc_links fetch links lines [] with
            | (lines, Ok tracks) =>
                (lines, Ok (Some (nhc_storm (storm_folder folder a tracks))))
            | (lines, Raise e) => (lines, Raise e)
            end
        end
    end
  else ([], Ok None).

Fixpoint nhc_folders (fetch : string -> Archive) (folders : list FeedFolder)
    (lines : list IngestLine) (results : list Storm)
    : list IngestLine * pyresult (list Storm) :=
  match folders with
  | [] => (lines, Ok results)
  | folder :: rest =>
      match nhc_folder fetch folder with
      | (printed, Ok (Some storm)) =>
          nhc_folders fetch rest (lines ++ printed) (results ++ [storm])
      | (printed, Ok None) => nhc_folders fetch rest (lines ++ printed) results
      | (printed, Raise e) => (lines ++ printed, Raise e)
      end
  end.

(** [nhc()], from the [Folder] elements of the downloaded document: the
    lines printed and the value returned, [None] when the document has no
    [Folder]. *)
Definition nhc (fetch : string -> Archive) (document : list FeedFolder)
    : list IngestLine * pyresult (option (list Storm)) :=
  match document with
  | [] => ([LNoStorms], Ok None)
  | _ :: _ =>
      match xml_children document with
      | Raise e => ([], Raise e)
      | Ok folders =>
          match nhc_folders fetch folders [] [] with
          | (lines, Ok results) => (lines, Ok (Some results))
          | (lines, Raise e) => (lines, Raise e)
          end
      end
  end.

(** ** Python: binding the arguments of a call *)


(** ** bd_lstm_td.py *)

Module BdLstmTd.






End BdLstmTd.

(** ** deploy.py: [run_live_inference] *)

(** What the storm loop asks of the model and of the scaler.  [predict]
    stands for [model.predict(df, lag)]: the class in [bd_lstm_td.py]
    defines no such method, so what a model object answers is taken as
    given; its value is indexed by forecast day.  [inverse_transform] is
    the unpickled scaler's method. *)
Record Collaborators : Type := {
  predict : list FeatureRow -> nat -> pyresult (list pyval);
  inverse_transform : list (list pyval) -> pyresult (list (list pyfloat))
}.

(** The part of [hyperparameters.json] that is read. *)
Record Hyperparameters : Type := {
  universal : bool;
  config_name : string
}.

Definition select_model_type (root : Hyperparameters) : string :=
  let typesearch := config_name root in
  if universal root then "universal"
  else if String.eqb typesearch "sequential" then "wind"
  else if String.eqb typesearch "sequential_1" then "lat"
  else "long".

(** What the function prints, one constructor per [print] call;
    [PIngest] is a line printed inside [nhc]. *)
Inductive Printed : Type :=
| PIngest (line : IngestLine)
| PModelType (model_type : string)
| PRunning (name : string)
| PNotEnough (name : string)
| PSeparator
| PResult (day : Z) (kind var : string) (value : pyfloat)
| PUnknown.

Inductive Event : Type :=
| EPrint (p : Printed)
| EPredict (df : list FeatureRow) (lag : nat).

(** The local [model] is the model object until the singular
    longitude branch rebinds it to a string. *)
Inductive ModelVar : Type :=
| ModelObject
| ModelStr (s : string).

Inductive ResultVar : Type := WindResult | LatResult | LongResult.

(** The function's local variables that change inside the loop ([None]
    is an unbound local), and the trace of prints and model calls. *)
Record Locals : Type := {
  model : ModelVar;
  wind_result : option (list (list pyval));
  lat_result : option (list (list pyval));
  long_result : option (list (list pyval));
  trace : list Event
}.

Definition get_result (v : ResultVar) (s : Locals)
    : option (list (list pyval)) :=
  match v with
  | WindResult => wind_result s
  | LatResult => lat_result s
  | LongResult => long_result s
  end.

Definition set_result (v : ResultVar) (l : list (list pyval)) (s : Locals)
    : Locals :=
  match v with
  | WindResult =>
      {| model := model s; wind_result := Some l; lat_result := lat_result s;
         long_result := long_result s; trace := trace s |}
  | LatResult =>
      {| model := model s; wind_result := wind_result s; lat_result := Some l;
         long_result := long_result s; trace := trace s |}
  | LongResult =>
      {| model := model s; wind_result := wind_result s;
         lat_result := lat_result s; long_result := Some l; trace := trace s |}
  end.

Definition set_model (m : ModelVar) (s : Locals) : Locals :=
  {| model := m; wind_result := wind_result s; lat_result := lat_result s;
     long_result := long_result s; trace := trace s |}.

Definition log (ev : Event) (s : Locals) : Locals :=
  {| model := model s; wind_result := wind_result s; lat_result := lat_result s;
     long_result := long_result s; trace := trace s ++ [ev] |}.

(** Statements: they read and write the locals and may raise; the
    locals reached when an exception is raised are kept. *)
Definition M (A : Type) : Type := Locals -> Locals * pyresult A.

Definition ret {A} (a : A) : M A := fun s => (s, Ok a).
Definition raise {A} (e : exn) : M A := fun s => (s, Raise e).
Definition lift {A} (r : pyresult A) : M A := fun s => (s, r).
Definition bind {A B} (m : M A) (k : A -> M B) : M B :=
  fun s =>
    match m s with
    | (s', Ok a) => k a s'
    | (s', Raise e) => (s', Raise e)
    end.

Declare Scope stmt_scope.
Delimit Scope stmt_scope with stmt.
Notation "x <~ m ;; k" := (bind m (fun x => k))
  (at level 100, m at next level, k at level 200, right associativity)
  : stmt_scope.
Notation "m ;; k" := (bind m (fun _ => k))
  (at level 100, k at level 200, right associativity) : stmt_scope.
Local Open Scope stmt_scope.

Definition emit (ev : Event) : M unit := fun s => (log ev s, Ok tt).
Definition print (p : Printed) : M unit := emit (EPrint p).

Definition load_result (v : ResultVar) : M (list (list pyval)) :=
  fun s =>
    match get_result v s with
    | Some l => (s, Ok l)
    | None => (s, Raise UnboundLocalError)
    end.

Definition store_result (v : ResultVar) (l : list (list pyval)) : M unit :=
  fun s => (set_result v l s, Ok tt).

Definition assign_model (m : ModelVar) : M unit :=
  fun s => (set_model m s, Ok tt).

(** [for x in l: body]. *)
Fixpoint for_each {A} (l : list A) (body : A -> M unit) : M unit :=
  match l with
  | [] => ret tt
  | x :: l' => body x ;; for_each l' body
  end.

Definition range (n : Z) : list Z := seqZ 0 n.

(** [result[day][index]]: a number cannot be subscripted. *)
Definition subscript2 (result : list pyval) (day index : Z) : pyresult pyval :=
  (let? v := py_getitem result day in
   match v with
   | Arr row => let? x := py_getitem row index in Ok (Num x)
   | Num _ => Raise TypeError
   end)%res.

(** [v.append(_generate_sparse_feature_vector(11, index, value))]: the
    name [v] is looked up first, then the argument is evaluated. *)
Definition append_sparse (v : ResultVar) (index : Z) (value : pyresult pyval)
    : M unit :=
  l <~ load_result v ;;
  x <~ lift value ;;
  vec <~ lift (_generate_sparse_feature_vector 11 index x) ;;
  store_result v (l ++ [vec]).

(** [print(f'{day + 1} day: {kind} result {var} test:{scaler.inverse_transform(v)[0][index]}')]. *)
Definition print_descaled (c : Collaborators) (day : Z) (kind var : string)
    (v : ResultVar) (index : Z) : M unit :=
  l <~ load_result v ;;
  inv <~ lift (inverse_transform c l) ;;
  row <~ lift (py_getitem inv 0) ;;
  x <~ lift (py_getitem row index) ;;
  print (PResult (day + 1) kind var x).

(** Body of [for day in range(4)] in the universal branch. *)
Definition universal_day (c : Collaborators) (result : list pyval) (day : Z)
    : M unit :=
  let wind_index := 0 in
  let lat_index := 1 in
  let long_index := 2 in
  store_result WindResult [] ;;
  append_sparse WindResult 2 (subscript2 result day wind_index) ;;
  print_descaled c day "universal" "wind" WindResult 2 ;;
  store_result LatResult [] ;;
  append_sparse LatResult 0 (subscript2 result day lat_index) ;;
  print_descaled c day "universal" "lat" LatResult 0 ;;
  store_result LongResult [] ;;
  append_sparse LongResult 1 (subscript2 result day long_index) ;;
  print_descaled c day "universal" "long" LongResult 1.

(** Body of [for day in range(3)] in the singular branch. *)
Definition singular_day (c : Collaborators) (model_type : string)
    (result : list pyval) (day : Z) : M unit :=
  if String.eqb model_type "wind" then
    store_result WindResult [] ;;
    append_sparse WindResult 2 (py_getitem result day) ;;
    print_descaled c day "singular" "wind" WindResult 2
  else if String.eqb model_type "lat" then
    append_sparse LatResult 0 (py_getitem result day) ;;
    print_descaled c day "singular" "lat" LatResult 0
  else
    assign_model (ModelStr "long") ;;
    store_result LongResult [] ;;
    append_sparse LongResult 1 (py_getitem result day) ;;
    print_descaled c day "singular" "long" LongResult 1.

(** [model.predict(df, lag)]: a string has no [predict]. *)
Definition call_predict (c : Collaborators) (df : list FeatureRow) (lag : nat)
    : M (list pyval) :=
  fun s =>
    match model s with
    | ModelObject => (log (EPredict df lag) s, predict c df lag)
    | ModelStr _ => (s, Raise AttributeError)
    end.

(** Body of [for storm in live_storms]; [continue] ends it early.  The
    scaler unpickled for each storm is the one of [c]. *)
Definition storm_body (c : Collaborators) (model_type : string) (lag : nat)
    (storm : Storm) : M unit :=
  let name := folder_name (metadata storm) in
  print (PRunning name) ;;
  df <~ lift (prep_hurricane_data (entries storm) lag) ;;
  if (length (entries storm) <=? 5)%nat then
    print (PNotEnough name)
  else
    result <~ call_predict c df lag ;;
    print PSeparator ;;
    if String.eqb model_type "universal" then
      for_each (range 4) (universal_day c result)
    else if negb (String.eqb model_type "universal") then
      for_each (range 3) (singular_day c model_type result)
    else
      print PUnknown.

(** The locals when the storm loop is entered: the model is loaded, the
    model type has been printed, no result list is bound yet. *)
Definition before_loop (model_type : string) : Locals :=
  {| model := ModelObject; wind_result := None; lat_result := None;
     long_result := None; trace := [EPrint (PModelType model_type)] |}.

(** The locals when the storm loop is entered after [nhc] has printed
    [lines]. *)
Definition loop_entry (model_type : string) (lines : list IngestLine)
    : Locals :=
  foldl (fun s line => log (EPrint (PIngest line)) s)
        (before_loop model_type) lines.


Local Close Scope stmt_scope.

(** ** test.py: the all-timesteps tables *)

Module TestPy.

Definition output_times : list Z := [6; 12; 24; 36; 48].

(** A value of [hurricane.entries], through the keys that are read. *)
Record TrackEntry : Type := {
  max_wind : pyfloat;
  lat : pyfloat;
  long : pyfloat;
  min_pressure : pyfloat
}.

(** [Hurricane]: its [id] and its [entries] dictionary, keyed by time,
    in insertion order. *)
Record Hurricane : Type := {
  id : string;
  entries : list (Z * TrackEntry)
}.

(** [[*d]]: the keys of a dictionary, in order. *)
Definition keys {V} (d : list (Z * V)) : list Z := fst <$> d.

Definition entries_get (d : list (Z * TrackEntry)) (k : Z)
    : option TrackEntry :=
  snd <$> List.find (fun kv => k =? kv.1) d.

(** The three forecast lists of one anchor. *)
Record Forecast : Type := {
  wind : list pyfloat;
  f_lat : list pyfloat;
  lon : list pyfloat
}.

(** The dictionary handed to [create_table] for one model variant:
    a single storm key, with the forecast times and lists under it. *)
Record Prediction : Type := {
  storm_key : string;
  times : list Z;
  forecast : Forecast
}.

Inductive Cell : Type :=
| Val (x : pyfloat)
| NA.

(** A row of the table; the two distance keys are absent from rows
    without a truth entry. *)
Record TableRow : Type := {
  time : Z;
  delta : Z;
  Mpredict_Wind : pyfloat;
  Mpredict_Lat : pyfloat;
  Mpredict_Lon : pyfloat;
  Upredict_Wind : pyfloat;
  Upredict_Lat : pyfloat;
  Upredict_Lon : pyfloat;
  WindTruth : Cell;
  LatTruth : Cell;
  LonTruth : Cell;
  Mdiff_Wind : Cell;
  Mdiff_Dist : option pyfloat;
  Mdiff_Lat : Cell;
  Mdiff_Lon : Cell;
  Udiff_Wind : Cell;
  Udiff_Dist : option pyfloat;
  Udiff_Lat : Cell;
  Udiff_Lon : Cell
}.

(** [prediction[variant][storm.id]]. *)
Definition by_storm (p : Prediction) (storm_id : string)
    : pyresult Prediction :=
  if String.eqb (storm_key p) storm_id then Ok p else Raise KeyError.

Definition at_index {A} (l : list A) (index : nat) : pyresult A :=
  py_getitem l (Z.of_nat index).

Local Open Scope result_scope.

(** One pass of the loop of [create_table]: the row for [index], [time].
    [distance] is [gcc.distance_between_points]. *)
Definition table_row
    (distance : pyfloat * pyfloat -> pyfloat * pyfloat -> pyfloat)
    (universal singular : Prediction) (storm : Hurricane) (deltas : list Z)
    (index : nat) (time : Z) : pyresult TableRow :=
  let? delta := at_index deltas index in
  let? s := by_storm singular (id storm) in
  let? m_wind := at_index (wind (forecast s)) index in
  let? m_lat := at_index (f_lat (forecast s)) index in
  let? m_lon := at_index (lon (forecast s)) index in
  let? u := by_storm universal (id storm) in
  let? u_wind := at_index (wind (forecast u)) index in
  let? u_lat := at_index (f_lat (forecast u)) index in
  let? u_lon := at_index (lon (forecast u)) index in
  match entries_get (entries storm) time with
  | Some truth_entry =>
      Ok {| time := time; delta := delta;
            Mpredict_Wind := m_wind; Mpredict_Lat := m_lat;
            Mpredict_Lon := m_lon;
            Upredict_Wind := u_wind; Upredict_Lat := u_lat;
            Upredict_Lon := u_lon;
            WindTruth := Val (max_wind truth_entry);
            LatTruth := Val (lat truth_entry);
            LonTruth := Val (fneg (long truth_entry));
            Mdiff_Wind := Val (fsub (max_wind truth_entry) m_wind);
            Mdiff_Dist :=
              Some (distance (long truth_entry, lat truth_entry)
                             (m_lon, m_lat));
            Mdiff_Lat := Val (fsub (lat truth_entry) m_lat);
            Mdiff_Lon := Val (fsub (fneg (long truth_entry)) m_lon);
            Udiff_Wind := Val (fsub (max_wind truth_entry) u_wind);
            Udiff_Dist :=
              Some (distance (long truth_entry, lat truth_entry)
                             (u_lon, u_lat));
            Udiff_Lat := Val (fsub (lat truth_entry) u_lat);
            Udiff_Lon := Val (fsub (fneg (long truth_entry)) u_lon) |}
  | None =>
      Ok {| time := time; delta := delta;
            Mpredict_Wind := m_wind; Mpredict_Lat := m_lat;
            Mpredict_Lon := m_lon;
            Upredict_Wind := u_wind; Upredict_Lat := u_lat;
            Upredict_Lon := u_lon;
            WindTruth := NA; LatTruth := NA; LonTruth := NA;
            Mdiff_Wind := NA; Mdiff_Dist := None;
            Mdiff_Lat := NA; Mdiff_Lon := NA;
            Udiff_Wind := NA; Udiff_Dist := None;
            Udiff_Lat := NA; Udiff_Lon := NA |}
  end.

(** [for index, time in enumerate(...)]: rows appended in order. *)
Fixpoint table_rows
    (distance : pyfloat * pyfloat -> pyfloat * pyfloat -> pyfloat)
    (universal singular : Prediction) (storm : Hurricane) (deltas : list Z)
    (index : nat) (times : list Z) : pyresult (list TableRow) :=
  match times with
  | [] => Ok []
  | time :: rest =>
      let? row := table_row distance universal singular storm deltas
                            index time in
      let? rows := table_rows distance universal singular storm deltas
                              (S index) rest in
      Ok (row :: rows)
  end.

Definition create_table
    (distance : pyfloat * pyfloat -> pyfloat * pyfloat -> pyfloat)
    (universal singular : Prediction) (storm : Hurricane) (deltas : list Z)
    : pyresult (list TableRow) :=
  let? u := by_storm universal (id storm) in
  table_rows distance universal singular storm deltas 0 (times u).

Definition dict_get {K V} `{Countable K} (d : gmap K V) (k : K)
    : pyresult V :=
  match d !! k with
  | Some v => Ok v
  | None => Raise KeyError
  end.

(** What [batch_inference] returned for one variant: storm, then
    anchor timestamp, then the forecast lists. *)
Abbreviation BatchResult := (gmap string (gmap Z Forecast)).

(** The dictionary built for one variant inside the comprehension. *)
Definition prediction_at (predictions : BatchResult) (storm : string)
    (timestamp : Z) : pyresult Prediction :=
  let? per_storm := dict_get predictions storm in
  let? f := dict_get per_storm timestamp in
  Ok {| storm_key := storm;
        times := (fun hour => timestamp + hour * 3600) <$> output_times;
        forecast := f |}.

(** The timestamps the comprehension ranges over:
    [[*hurricane.entries][len(output_times):]]. *)
Definition anchors (hurricane : Hurricane) : list Z :=
  drop (length output_times) (keys (entries hurricane)).

(** A dictionary comprehension [{k : value(k) for k in l}]: keys are set
    in order, a later equal key overwrites, the first exception ends it. *)
Definition dict_comprehension {V} (value : Z -> pyresult V) (l : list Z)
    : pyresult (gmap Z V) :=
  foldl (fun acc k =>
           let? d := acc in
           let? v := value k in
           Ok (<[k := v]> d))
        (Ok ∅) l.

(** The value expression of the [tables] comprehension for one
    [timestamp].  [singular] is [None] when the configuration has no
    [univariate] entry; subscripting it is then a [TypeError]. *)
Definition table_at
    (distance : pyfloat * pyfloat -> pyfloat * pyfloat -> pyfloat)
    (universal : BatchResult) (singular : option BatchResult)
    (storm : string) (hurricane : Hurricane) (timestamp : Z)
    : pyresult (list TableRow) :=
  let? u := prediction_at universal storm timestamp in
  let? s := match singular with
            | Some singular => prediction_at singular storm timestamp
            | None => Raise TypeError
            end in
  create_table distance u s hurricane output_times.

(** [tables = {timestamp : create_table(...) for timestamp in
    [*hurricane.entries][len(output_times):]}]. *)
Definition tables
    (distance : pyfloat * pyfloat -> pyfloat * pyfloat -> pyfloat)
    (universal : BatchResult) (singular : option BatchResult)
    (storm : string) (hurricane : Hurricane)
    : pyresult (gmap Z (list TableRow)) :=
  dict_comprehension (table_at distance universal singular storm hurricane)
                     (anchors hurricane).

(** The count the specification gives for the eligible anchors. *)
Definition spec_anchor_count (n lag horizon_lookback : Z) : Z :=
  n - lag - horizon_lookback.

(** [batch_inference] answered for [storm] at [timestamp], with a value
    for each of the reported horizons. *)
Definition covers (predictions : BatchResult) (storm : string)
    (timestamp : Z) : Prop :=
  exists per_storm f,
    predictions !! storm = Some per_storm
    /\ per_storm !! timestamp = Some f
    /\ (length output_times <= length (wind f))%nat
    /\ (length output_times <= length (f_lat f))%nat
    /\ (length output_times <= length (lon f))%nat.

(** A storm of six entries, six hours apart, and the forecasts for its
    one anchor. *)
Definition example_entry (w : Q) : TrackEntry :=
  {| max_wind := Fin w; lat := Fin 20; long := Fin 60;
     min_pressure := Fin 1000 |}.

Definition example_hurricane : Hurricane :=
  {| id := "AL012020";
     entries := [ (1600128000, example_entry 30);
                  (1600149600, example_entry 35);
                  (1600171200, example_entry 40);
                  (1600192800, example_entry 45);
                  (1600214400, example_entry 50);
                  (1600236000, example_entry 55) ] |}.

Definition example_forecast : Forecast :=
  {| wind := [Fin 56; Fin 57; Fin 58; Fin 59; Fin 60];
     f_lat := [Fin 21; Fin 22; Fin 23; Fin 24; Fin 25];
     lon := [Fin (-61); Fin (-62); Fin (-63); Fin (-64); Fin (-65)] |}.

Definition example_batch : BatchResult :=
  {[ "AL012020" := {[ 1600236000 := example_forecast ]} ]}.

Definition example_distance (a b : pyfloat * pyfloat) : pyfloat := Fin 0.

End TestPy.

(** Trace events that report a descaled value. *)
Definition is_result_print (ev : Event) : bool :=
  match ev with
  | EPrint (PResult _ _ _ _) => true
  | _ => false
  end.

Definition is_predict_call (ev : Event) : bool :=
  match ev with
  | EPredict _ _ => true
  | _ => false
  end.

(** ** Example data *)

(** A universal model's prediction: wind, latitude and longitude for
    each of four forecast days. *)
Definition example_result : list pyval :=
  [Arr [Fin 0.42; Fin 0.1; Fin 0.2];
   Arr [Fin 0.43; Fin 0.1; Fin 0.2];
   Arr [Fin 0.44; Fin 0.1; Fin 0.2];
   Arr [Fin 0.45; Fin 0.1; Fin 0.2]].

(** A scaler for examples: it hands every number back as it is, and
    reads an array in a slot as a missing value. *)
Definition identity_scaler (X : list (list pyval))
    : pyresult (list (list pyfloat)) :=
  Ok (map (map (fun v => match v with Num x => x | Arr _ => NaN end)) X).

Definition example_collaborators : Collaborators :=
  {| predict := fun _ _ => Ok example_result;
     inverse_transform := identity_scaler |}.

(** A storm with three entries: the live entry and two past-track
    points. *)
Definition short_folder : Folder :=
  {| folder_id := "at1"; folder_name := "ALPHA"; has_extended_data := true;
     atcfID := "al012020"; centerLat := 20; centerLon := -60;
     dateTime := t0 + 2 * 21600; minimumPressure := 1001;
     maxSustainedWind := 46;
     pasttrack := [[mk_obs t0 30 20 (-60) 1005;
                    mk_obs (t0 + 21600) 35 20.5 (-61) 1003]] |}.

(** A storm with seven entries: the live entry and the six observations. *)
Definition long_folder : Folder :=
  {| folder_id := "at2"; folder_name := "BETA"; has_extended_data := true;
     atcfID := "al022020"; centerLat := 24; centerLon := -67;
     dateTime := t0 + 6 * 21600; minimumPressure := 994;
     maxSustainedWind := 69;
     pasttrack := [six_obs] |}.

(** The feed that gives these two storms.  Each storm folder has two
    [ExtendedData] elements and two network links, and each past-track
    file two folders, the second named [Data], with the storm's earlier
    reports. *)
Definition report (o : Observation) : Placemark :=
  {| atcfdtg := time o; intensity := wind o; placemark_lat := lat o;
     placemark_lon := lon o; minSeaLevelPres := pressure o |}.

Definition track_archive (member : string) (reports : list Observation)
    : Archive :=
  {| namelist := ["doc.kml"; member];
     read := fun name =>
               if String.eqb name member
               then [ {| kml_name := "Forecast"; kml_placemarks := [] |};
                      {| kml_name := "Data";
                         kml_placemarks := report <$> reports |} ]
               else [] |}.

Definition example_fetch (href : string) : Archive :=
  if String.eqb href "al012020_best_track.kmz"
  then track_archive "al012020.kml"
         [mk_obs t0 30 20 (-60) 1005; mk_obs (t0 + 21600) 35 20.5 (-61) 1003]
  else if String.eqb href "al022020_best_track.kmz"
  then track_archive "al022020.kml" six_obs
  else if String.eqb href "al032020_best_track.kmz"
  then track_archive "al032020.kml" six_obs
  else {| namelist := []; read := fun _ => [] |}.

Definition short_feed : FeedFolder :=
  {| feed_id := "at1"; feed_name := "ALPHA";
     extended_data :=
       [ None;
         Some {| tc_atcfID := "al012020"; tc_name := "Alpha";
                 tc_centerLat := 20; tc_centerLon := -60;
                 tc_dateTime := t0 + 2 * 21600; tc_minimumPressure := 1001;
                 tc_maxSustainedWind := 46 |} ];
     network_links :=
       [ {| link_id := "pasttrack";
            link_href := "al012020_best_track.kmz" |};
         {| link_id := "forecasttrack";
            link_href := "al012020_forecast.kmz" |} ] |}.

Definition long_feed : FeedFolder :=
  {| feed_id := "at2"; feed_name := "BETA";
     extended_data :=
       [ None;
         Some {| tc_atcfID := "al022020"; tc_name := "Beta";
                 tc_centerLat := 24; tc_centerLon := -67;
                 tc_dateTime := t0 + 6 * 21600; tc_minimumPressure := 994;
                 tc_maxSustainedWind := 69 |} ];
     network_links :=
       [ {| link_id := "pasttrack";
            link_href := "al022020_best_track.kmz" |};
         {| link_id := "forecasttrack";
            link_href := "al022020_forecast.kmz" |} ] |}.

Definition example_document : list FeedFolder := [short_feed; long_feed].

Definition universal_root : Hyperparameters :=
  {| universal := true; config_name := "sequential" |}.

Definition lat_root : Hyperparameters :=
  {| universal := false; config_name := "sequential_1" |}.

(** A singular model's prediction: one number per forecast day. *)
Definition singular_collaborators : Collaborators :=
  {| predict := fun _ _ => Ok [Num (Fin 0.42); Num (Fin 0.43); Num (Fin 0.44)];
     inverse_transform := identity_scaler |}.

(** The one row the six observations of [six_obs] give with a lag of
    five. *)
Definition six_obs_row : FeatureRow :=
  {| obs := mk_obs (t0 + 5 * 21600) 55 23 (-66) 995;
     max_wind := Fin 55; delta_wind := Fin 25; min_pressure := Fin 995;
     zonal_speed := Fin (1 # 2); meridonal_speed := Fin (-1);
     year := 2020; month := 9; day := 16; hour := 6 |}.

(** Whether a float is one of the two infinities. *)
Definition isinf (x : pyfloat) : bool :=
  match x with PInf | NInf => true | _ => false end.

(** Two observations exactly one day apart; wind and position differ. *)
Definition daily_obs : list Observation :=
  [ mk_obs t0 30 20 (-60) 1005;
    mk_obs (t0 + 86400) 35 21 (-61) 1003 ].

(** The row [daily_obs] gives with a lag of one. *)
Definition daily_row : FeatureRow :=
  {| obs := mk_obs (t0 + 86400) 35 21 (-61) 1003;
     max_wind := Fin 35; delta_wind := PInf; min_pressure := Fin 1003;
     zonal_speed := PInf; meridonal_speed := NInf;
     year := 2020; month := 9; day := 16; hour := 0 |}.

(** Every derived float column of the row is a number: neither missing
    (NaN) nor infinite. *)
Definition row_defined (r : FeatureRow) : bool :=
  isfinite (max_wind r) && isfinite (delta_wind r) && isfinite (min_pressure r)
  && isfinite (zonal_speed r) && isfinite (meridonal_speed r).

(** Three daily reports, at distinct times exactly 24 hours apart; the
    wind stays at 30 knots for a day and then rises to 35. *)
Definition daily_calm : list Observation :=
  [ mk_obs t0 30 20 (-60) 1005;
    mk_obs (t0 + 86400) 30 21 (-61) 1003;
    mk_obs (t0 + 2 * 86400) 35 22 (-62) 1001 ].

(** ** plotting_utils.py: [process_results] *)

(** One value of [results['inference']]: a storm's forecast track. *)
Record StormForecast : Type := {
  forecast_name : string;
  forecast_times : list Z;
  forecast_wind : list pyfloat;
  forecast_lat : list pyfloat;
  forecast_lon : list pyfloat
}.

(** What the loop over the forecast points asks of the map and of the
    KML document: a line [ax.plot([x0, x1], [y0, y1])], and a point with
    its index, wind, timestamp and [(lon, lat)] coordinates. *)
Inductive DrawEvent : Type :=
| PlotLine (xs ys : pyfloat * pyfloat)
| KmlPoint (index : Z) (wind : pyfloat) (when : Z) (coords : pyfloat * pyfloat).

(** Body of [for index in range(len(storm['lat']))]: what it has drawn
    and how it ended. *)
Definition draw_forecast_point (storm : StormForecast) (index : Z)
    : list DrawEvent * pyresult unit :=
  match (let? x0 := py_getitem (forecast_lon storm) (index - 1) in
         let? x1 := py_getitem (forecast_lon storm) index in
         let? y0 := py_getitem (forecast_lat storm) (index - 1) in
         let? y1 := py_getitem (forecast_lat storm) index in
         Ok (PlotLine (x0, x1) (y0, y1)))%res with
  | Raise e => ([], Raise e)
  | Ok line =>
      match (let? w := py_getitem (forecast_wind storm) index in
             let? t := py_getitem (forecast_times storm) index in
             let? x := py_getitem (forecast_lon storm) index in
             let? y := py_getitem (forecast_lat storm) index in
             Ok (KmlPoint index w t (x, y)))%res with
      | Raise e => ([line], Raise e)
      | Ok point => ([line; point], Ok tt)
      end
  end.

Fixpoint draw_forecast_points (storm : StormForecast) (indices : list Z)
    : list DrawEvent * pyresult unit :=
  match indices with
  | [] => ([], Ok tt)
  | index :: rest =>
      match draw_forecast_point storm index with
      | (drawn, Ok _) =>
          let '(more, outcome) := draw_forecast_points storm rest in
          (drawn ++ more, outcome)
      | (drawn, Raise e) => (drawn, Raise e)
      end
  end.

(** The forecast-point loop of [process_results] for one storm. *)
Definition draw_forecast (storm : StormForecast)
    : list DrawEvent * pyresult unit :=
  draw_forecast_points storm
    (seqZ 0 (Z.of_nat (length (forecast_lat storm)))).

(** A forecast track of three points. *)
Definition example_forecast_track : StormForecast :=
  {| forecast_name := "ALPHA";
     forecast_times := [1600236000; 1600257600; 1600279200];
     forecast_wind := [Fin 56; Fin 57; Fin 58];
     forecast_lat := [Fin 21; Fin 22; Fin 23];
     forecast_lon := [Fin (-61); Fin (-62); Fin (-63)] |}.

(** A folder [nhc] makes a storm of: its id starts with [at] and it has
    [ExtendedData]. *)
Definition is_storm_folder (folder : FeedFolder) : bool :=
  String.eqb (String.substring 0 2 (feed_id folder)) "at"
  && (if extended_data folder is [] then false else true).

(** ** Reading the trace of [run_live_inference] *)

(** The [model.predict(df, lag)] calls of a trace, in order. *)
Definition predict_calls (t : list Event) : list (list FeatureRow * nat) :=
  omap (fun ev => match ev with
                  | EPredict df lag => Some (df, lag)
                  | EPrint _ => None
                  end) t.

(** The lines of a trace, in order. *)
Definition printed (t : list Event) : list Printed :=
  omap (fun ev => match ev with
                  | EPrint p => Some p
                  | EPredict _ _ => None
                  end) t.

(** The guard of the storm loop read the other way round: the storm is
    not skipped, [len(storm["entries"]) > 5]. *)
Definition long_enough (storm : Storm) : bool :=
  negb (length (entries storm) <=? 5)%nat.

(** The arguments [model.predict] gets for a storm that is not skipped:
    the feature table of its entries and the lag of 5. *)
Definition due_call (storm : Storm) : list FeatureRow * nat :=
  (dropna (assign (sort_values (entries storm)) 5), 5%nat).

(** A statement that adds nothing to the trace but printed lines, the
    [Unknown type of model] line not among them. *)
Definition only_prints {A} (m : M A) : Prop :=
  forall s,
    exists lines,
      trace (m s).1 = trace s ++ (EPrint <$> lines) /\ PUnknown ∉ lines.

(** A statement that leaves the local [model] as it is. *)
Definition keeps_model {A} (m : M A) : Prop :=
  forall s, model (m s).1 = model s.

(** [scaler.inverse_transform([vector])[0][index]] is [v], for the
    11-slot zero vector with [x] placed at [index]. *)
Definition descales (c : Collaborators) (index : nat) (x : pyval)
    (v : pyfloat) : Prop :=
  exists inv row,
    inverse_transform c [<[index := x]> (zeros 11)] = Ok inv
    /\ inv !! 0%nat = Some row
    /\ row !! index = Some v.

(** A singular model for wind, and one for longitude. *)
Definition wind_root : Hyperparameters :=
  {| universal := false; config_name := "sequential" |}.

Definition long_root : Hyperparameters :=
  {| universal := false; config_name := "sequential_2" |}.

(** A second storm with seven entries. *)
Definition second_long_folder : Folder :=
  {| folder_id := "at3"; folder_name := "GAMMA"; has_extended_data := true;
     atcfID := "al032020"; centerLat := 25; centerLon := -68;
     dateTime := t0 + 6 * 21600; minimumPressure := 990;
     maxSustainedWind := 80;
     pasttrack := [six_obs] |}.


(** ** Reading a row of a table of [test.py] *)

(** The truth and difference columns of a row agree with the storm's
    entry at the row's time and with the row's own prediction columns:
    with an entry, each difference is truth minus prediction, the
    longitude truth is the entry's [long] times -1, and the distances are
    taken from the entry's [(long, lat)] as stored; without an entry the
    nine columns are ['N/A'] and the two distance keys are absent. *)
Definition truth_columns
    (distance : pyfloat * pyfloat -> pyfloat * pyfloat -> pyfloat)
    (storm : TestPy.Hurricane) (row : TestPy.TableRow) : Prop :=
  match TestPy.entries_get (TestPy.entries storm) (TestPy.time row) with
  | Some truth_entry =>
      let truth_wind := TestPy.max_wind truth_entry in
      let truth_lat := TestPy.lat truth_entry in
      let truth_long := TestPy.long truth_entry in
      TestPy.WindTruth row = TestPy.Val truth_wind
      /\ TestPy.LatTruth row = TestPy.Val truth_lat
      /\ TestPy.LonTruth row = TestPy.Val (fneg truth_long)
      /\ TestPy.Mdiff_Wind row
         = TestPy.Val (fsub truth_wind (TestPy.Mpredict_Wind row))
      /\ TestPy.Mdiff_Lat row
         = TestPy.Val (fsub truth_lat (TestPy.Mpredict_Lat row))
      /\ TestPy.Mdiff_Lon row
         = TestPy.Val (fsub (fneg truth_long) (TestPy.Mpredict_Lon row))
      /\ TestPy.Mdiff_Dist row
         = Some (distance (truth_long, truth_lat)
                          (TestPy.Mpredict_Lon row, TestPy.Mpredict_Lat row))
      /\ TestPy.Udiff_Wind row
         = TestPy.Val (fsub truth_wind (TestPy.Upredict_Wind row))
      /\ TestPy.Udiff_Lat row
         = TestPy.Val (fsub truth_lat (TestPy.Upredict_Lat row))
      /\ TestPy.Udiff_Lon row
         = TestPy.Val (fsub (fneg truth_long) (TestPy.Upredict_Lon row))
      /\ TestPy.Udiff_Dist row
         = Some (distance (truth_long, truth_lat)
                          (TestPy.Upredict_Lon row, TestPy.Upredict_Lat row))
  | None =>
      TestPy.WindTruth row = TestPy.NA
      /\ TestPy.LatTruth row = TestPy.NA
      /\ TestPy.LonTruth row = TestPy.NA
      /\ TestPy.Mdiff_Wind row = TestPy.NA
      /\ TestPy.Mdiff_Lat row = TestPy.NA
      /\ TestPy.Mdiff_Lon row = TestPy.NA
      /\ TestPy.Mdiff_Dist row = None
      /\ TestPy.Udiff_Wind row = TestPy.NA
      /\ TestPy.Udiff_Lat row = TestPy.NA
      /\ TestPy.Udiff_Lon row = TestPy.NA
      /\ TestPy.Udiff_Dist row = None
  end.

(** * Properties *)

(** ** The sparse feature vector *)

Section SparseVector.

Implicit Types (N i : Z) (v : pyval).

Lemma length_zeros N : Z.of_nat (length (zeros N)) = Z.max N 0.
Proof. unfold zeros. rewrite length_replicate. lia. Qed.

Lemma lookup_zeros N (j : nat) :
  (j < length (zeros N))%nat -> zeros N !! j = Some (Num (of_Z 0)).
Proof.
  unfold zeros. rewrite length_replicate. intros Hj.
  by apply lookup_replicate_2.
Qed.

Lemma py_setitem_in_range {A} (l : list A) (i : Z) (x : A) :
  0 <= i < Z.of_nat (length l) ->
  py_setitem l i x = Ok (<[Z.to_nat i := x]> l).
Proof.
  intros Hi. unfold py_setitem.
  destruct (Z.ltb_spec i 0); [lia|].
  destruct (Z.leb_spec 0 i); [|lia].
  destruct (Z.ltb_spec i (Z.of_nat (length l))); [done|lia].
Qed.

Lemma py_setitem_wraps {A} (l : list A) (i : Z) (x : A) :
  - Z.of_nat (length l) <= i < 0 ->
  py_setitem l i x = Ok (<[Z.to_nat (Z.of_nat (length l) + i) := x]> l).
Proof.
  intros Hi. unfold py_setitem.
  destruct (Z.ltb_spec i 0); [|lia].
  destruct (Z.leb_spec 0 (Z.of_nat (length l) + i)); [|lia].
  destruct (Z.ltb_spec (Z.of_nat (length l) + i) (Z.of_nat (length l)));
    [done|lia].
Qed.

Lemma py_setitem_out_of_range {A} (l : list A) (i : Z) (x : A) :
  Z.of_nat (length l) <= i \/ i < - Z.of_nat (length l) ->
  py_setitem l i x = Raise IndexError.
Proof.
  intros Hi. unfold py_setitem.
  destruct (Z.ltb_spec i 0).
  - destruct (Z.leb_spec 0 (Z.of_nat (length l) + i)); [lia|done].
  - destruct (Z.leb_spec 0 i); [|lia].
    destruct (Z.ltb_spec i (Z.of_nat (length l))); [lia|done].
Qed.

Lemma py_getitem_lookup {A} (l : list A) (i : Z) (x : A) :
  0 <= i -> l !! Z.to_nat i = Some x -> py_getitem l i = Ok x.
Proof.
  intros Hi Hx. unfold py_getitem.
  pose proof (lookup_lt_Some _ _ _ Hx) as Hlt.
  destruct (Z.ltb_spec i 0); [lia|].
  destruct (Z.leb_spec 0 i); [|lia].
  destruct (Z.ltb_spec i (Z.of_nat (length l))); [|lia].
  simpl. by rewrite Hx.
Qed.

End SparseVector.

(** C4.  For every length [N], index [0 <= i < N] and value [v],
    [_generate_sparse_feature_vector N i v] returns a vector of length
    exactly [N] that holds [v] at position [i] and zero everywhere else;
    and the descaling print of [run_live_inference], run on that vector
    with the same index, reports exactly the entry at position [i] of the
    inverse-transformed row, whatever the other positions hold. *)
Theorem sparse_vector_placed_and_read_back (N i : Z) (v : pyval) :
  0 <= i < N ->
  exists vec,
    _generate_sparse_feature_vector N i v = Ok vec
    /\ Z.of_nat (length vec) = N
    /\ vec !! Z.to_nat i = Some v
    /\ (forall j : nat,
          j <> Z.to_nat i -> (j < length vec)%nat ->
          vec !! j = Some (Num (of_Z 0)))
    /\ (forall c day kind var rv s inv row x,
          get_result rv s = Some [vec] ->
          inverse_transform c [vec] = Ok inv ->
          inv !! 0%nat = Some row ->
          row !! Z.to_nat i = Some x ->
          print_descaled c day kind var rv i s
          = (log (EPrint (PResult (day + 1) kind var x)) s, Ok tt)).
Proof.
  intros Hi.
  pose proof (length_zeros N) as Hlen.
  exists (<[Z.to_nat i := v]> (zeros N)).
  split; [|split; [|split; [|split]]].
  - unfold _generate_sparse_feature_vector. apply py_setitem_in_range. lia.
  - rewrite length_insert. lia.
  - apply list_lookup_insert_eq. lia.
  - intros j Hne Hj. rewrite length_insert in Hj.
    rewrite list_lookup_insert_ne by done. by apply lookup_zeros.
  - intros c day kind var rv s inv row x Hget Hinv Hrow Hx.
    unfold print_descaled, bind, load_result, lift. rewrite Hget, Hinv.
    rewrite (py_getitem_lookup inv 0 row) by (done || lia).
    rewrite (py_getitem_lookup row i x) by (done || lia).
    reflexivity.
Qed.

Lemma sparse_vector_placed_and_read_back_witness :
  _generate_sparse_feature_vector 11 2 (Num (Fin 0.42))
  = Ok (<[2%nat := Num (Fin 0.42)]> (zeros 11))
  /\ print_descaled example_collaborators 0 "singular" "wind" WindResult 2
       (set_result WindResult [<[2%nat := Num (Fin 0.42)]> (zeros 11)]
                   (before_loop "wind"))
     = (log (EPrint (PResult (0 + 1) "singular" "wind" (Fin 0.42)))
            (set_result WindResult [<[2%nat := Num (Fin 0.42)]> (zeros 11)]
                        (before_loop "wind")),
        Ok tt).
Proof.
  destruct (sparse_vector_placed_and_read_back 11 2 (Num (Fin 0.42)))
    as (vec & Hvec & _ & _ & _ & Hread); [lia|].
  injection Hvec as <-.
  split; [reflexivity|].
  eapply Hread; reflexivity.
Defined.

(** C7, as the code has it.  The call fails with [IndexError] exactly for
    an index at or beyond the length or below minus the length; an index in
    [[-N, 0)] is accepted and counts from the end of the vector. *)
Theorem sparse_vector_index_error (N i : Z) (v : pyval) :
  (N <= i \/ i < - N ->
   _generate_sparse_feature_vector N i v = Raise IndexError)
  /\ (- N <= i < 0 ->
      _generate_sparse_feature_vector N i v
      = Ok (<[Z.to_nat (N + i) := v]> (zeros N))).
Proof.
  pose proof (length_zeros N) as Hlen.
  unfold _generate_sparse_feature_vector. split; intros Hi.
  - apply py_setitem_out_of_range. lia.
  - rewrite py_setitem_wraps by lia.
    do 3 f_equal. lia.
Qed.

Lemma sparse_vector_index_error_witness :
  _generate_sparse_feature_vector 11 11 (Num (Fin 0.42)) = Raise IndexError
  /\ _generate_sparse_feature_vector 11 (-12) (Num (Fin 0.42)) = Raise IndexError
  /\ _generate_sparse_feature_vector 11 (-1) (Num (Fin 0.42))
     = Ok (<[Z.to_nat (11 + -1) := Num (Fin 0.42)]> (zeros 11)).
Proof.
  split; [|split].
  - apply (sparse_vector_index_error 11 11 (Num (Fin 0.42))). lia.
  - apply (sparse_vector_index_error 11 (-12) (Num (Fin 0.42))). lia.
  - apply (sparse_vector_index_error 11 (-1) (Num (Fin 0.42))). lia.
Defined.

(** C7 as stated fails: index [-1] lies outside [0 <= feature_index < N],
    yet the call returns a vector, with the value in the last slot. *)
Lemma sparse_vector_negative_index_accepted :
  _generate_sparse_feature_vector 11 (-1) (Num (Fin 0.42))
  = Ok (replicate 10 (Num (of_Z 0)) ++ [Num (Fin 0.42)])
  /\ ~ (forall N i v, i < 0 \/ N <= i ->
          exists e, _generate_sparse_feature_vector N i v = Raise e).
Proof.
  split; [reflexivity|].
  intros H. destruct (H 11 (-1) (Num (Fin 0.42))) as [e He]; [lia|].
  discriminate He.
Qed.

(** ** The pandas operations *)

Section Series.

Context {A : Type}.
Implicit Types (s : list A) (na : A) (k i : nat).

Lemma length_shift na k s : length (shift na k s) = length s.
Proof.
  unfold shift. rewrite length_take, length_app, length_replicate. lia.
Qed.

Lemma lookup_shift_lt na k s i :
  (i < k)%nat -> (i < length s)%nat -> shift na k s !! i = Some na.
Proof.
  intros Hk Hs. unfold shift.
  rewrite lookup_take_lt by done.
  rewrite lookup_app_l by (rewrite length_replicate; lia).
  by apply lookup_replicate_2.
Qed.

Lemma lookup_shift_ge na k s i :
  (k <= i)%nat -> (i < length s)%nat -> shift na k s !! i = s !! (i - k)%nat.
Proof.
  intros Hk Hs. unfold shift.
  rewrite lookup_take_lt by done.
  rewrite lookup_app_r by (rewrite length_replicate; lia).
  by rewrite length_replicate.
Qed.

Lemma shift_split na k s :
  (k <= length s)%nat ->
  shift na k s = replicate k na ++ take (length s - k) s.
Proof.
  intros Hk. unfold shift.
  rewrite take_app, length_replicate.
  rewrite take_ge by (rewrite length_replicate; lia). done.
Qed.

End Series.

Lemma length_cum_from op acc s : length (cum_from op acc s) = length s.
Proof.
  revert acc. induction s as [|x s IH]; intros acc; simpl; [done|].
  destruct (isnan x); simpl; by rewrite IH.
Qed.

Lemma cum_from_nan_prefix op acc k s :
  cum_from op acc (replicate k NaN ++ s)
  = replicate k NaN ++ cum_from op acc s.
Proof. induction k as [|k IH]; simpl; [done|]. by rewrite IH. Qed.

Lemma cum_from_take op acc k s :
  cum_from op acc (take k s) = take k (cum_from op acc s).
Proof.
  revert acc k. induction s as [|x s IH]; intros acc [|k]; simpl; try done.
  destruct (isnan x); simpl; by rewrite IH.
Qed.

(** The running extremum of the shifted column is the running extremum
    itself, shifted. *)
Lemma cum_from_shift op k s :
  cum_from op None (shift NaN k s) = shift NaN k (cum_from op None s).
Proof.
  destruct (decide (k <= length s)%nat) as [Hk|Hk].
  - rewrite !shift_split by (rewrite ?length_cum_from; done).
    rewrite cum_from_nan_prefix, cum_from_take, length_cum_from. done.
  - unfold shift. rewrite length_cum_from.
    rewrite !take_app_le by (rewrite length_replicate; lia).
    rewrite !take_replicate.
    replace (length s `min` k)%nat with (length s) by lia.
    rewrite <- (app_nil_r (replicate (length s) NaN)) at 1.
    rewrite cum_from_nan_prefix. simpl. by rewrite app_nil_r.
Qed.

Lemma pick_isfinite (op : pyfloat -> pyfloat -> pyfloat) :
  (forall a x, op a x = a \/ op a x = x) ->
  forall s acc,
    Forall (fun x => isfinite x = true) s ->
    (forall a, acc = Some a -> isfinite a = true) ->
    Forall (fun x => isfinite x = true) (cum_from op acc s).
Proof.
  intros Hop s. induction s as [|x s IH]; intros acc Hs Hacc; simpl.
  - constructor.
  - inversion Hs as [|? ? Hx Hs']; subst.
    destruct x; simpl in *; try discriminate.
    assert (isfinite (match acc with Some a => op a (Fin q) | None => Fin q end)
            = true) as Hm.
    { destruct acc as [a|]; [|done].
      destruct (Hop a (Fin q)) as [-> | ->]; [by apply Hacc|done]. }
    constructor; [done|].
    apply IH; [done|]. intros a [= <-]. done.
Qed.

Lemma fmax_picks a x : fmax a x = a \/ fmax a x = x.
Proof. unfold fmax. destruct (fle a x); auto. Qed.

Lemma fmin_picks a x : fmin a x = a \/ fmin a x = x.
Proof. unfold fmin. destruct (fle x a); auto. Qed.

(** ** Floats *)

Lemma Qsign_zero_iff (q : Q) : Qsign q = 0 <-> (q == 0)%Q.
Proof.
  unfold Qsign, Qeq. simpl. rewrite Z.sgn_null_iff. lia.
Qed.

Lemma Qsign_Qred (q : Q) : Qsign (Qred q) = 0 <-> Qsign q = 0.
Proof. rewrite !Qsign_zero_iff. by rewrite Qred_correct. Qed.

Lemma Qsign_ratio (d k : Z) :
  0 < k -> Qsign (inject_Z d / inject_Z k) = 0 <-> d = 0.
Proof.
  intros Hk. unfold Qsign. rewrite Z.sgn_null_iff.
  destruct k as [|p|p]; try lia. simpl. lia.
Qed.

Lemma fsub_Fin (a b : Q) : fsub (Fin a) (Fin b) = Fin (Qred (a - b)).
Proof. reflexivity. Qed.

(** A whole number of seconds over a positive constant. *)
Lemma fdiv_of_Z (d k : Z) :
  0 < k -> fdiv (of_Z d) (of_Z k) = Fin (Qred (inject_Z d / inject_Z k)).
Proof.
  intros Hk. unfold fdiv, of_Z.
  replace (Qsign (inject_Z k)) with 1; [done|].
  unfold Qsign. simpl. lia.
Qed.

Lemma fdiv_isfinite (x y : pyfloat) (b : Q) :
  isfinite x = true -> y = Fin b -> Qsign b <> 0 ->
  isfinite (fdiv x y) = true.
Proof.
  intros Hx -> Hb. destruct x; try discriminate. simpl.
  destruct (Z.eqb_spec (Qsign b) 0); [done|reflexivity].
Qed.

Lemma fsub_isfinite (x y : pyfloat) :
  isfinite x = true -> isfinite y = true -> isfinite (fsub x y) = true.
Proof. destruct x, y; simpl; congruence. Qed.

Lemma isfinite_not_nan (x : pyfloat) : isfinite x = true -> isnan x = false.
Proof. by destruct x. Qed.

(** The rate denominator [seconds / k] is non-zero when the seconds are. *)
Lemma rate_denominator (d k : Z) :
  0 < k -> d <> 0 ->
  exists b, fdiv (of_Z d) (of_Z k) = Fin b /\ Qsign b <> 0.
Proof.
  intros Hk Hd. eexists. split; [by apply fdiv_of_Z|].
  rewrite Qsign_Qred, Qsign_ratio by done. done.
Qed.

(** ** The columns of the feature frame *)

Section Columns.

Variable df : list Observation.
Variable lag : nat.
Implicit Types (i : nat) (o : Observation).

Lemma length_lag_seconds : length (lag_seconds df lag) = length df.
Proof.
  unfold lag_seconds, dt_seconds, timedelta_sub, col_time.
  rewrite length_fmap, length_zip_with, length_shift, length_fmap. lia.
Qed.

Lemma lag_seconds_early i :
  (i < lag)%nat -> (i < length df)%nat -> lag_seconds df lag !! i = Some NaN.
Proof.
  intros Hlag Hi.
  destruct (lookup_lt_is_Some_2 df i Hi) as [o Ho].
  unfold lag_seconds, dt_seconds, timedelta_sub, col_time.
  rewrite list_lookup_fmap, lookup_zip_with, list_lookup_fmap, Ho. simpl.
  rewrite lookup_shift_lt by (rewrite ?length_fmap; done). done.
Qed.

Lemma lag_seconds_late i o o' :
  (lag <= i)%nat -> df !! i = Some o -> df !! (i - lag)%nat = Some o' ->
  lag_seconds df lag !! i = Some (of_Z ((time o - time o') mod 86400)).
Proof.
  intros Hlag Ho Ho'. pose proof (lookup_lt_Some _ _ _ Ho) as Hi.
  unfold lag_seconds, dt_seconds, timedelta_sub, col_time.
  rewrite list_lookup_fmap, lookup_zip_with, list_lookup_fmap, Ho. simpl.
  rewrite lookup_shift_ge by (rewrite ?length_fmap; done).
  rewrite list_lookup_fmap, Ho'. done.
Qed.

(** A quotient column whose divisor is [lag_seconds / k]. *)
Lemma rate_column_early (num : list pyfloat) (k : Z) i :
  (i < lag)%nat -> (i < length df)%nat ->
  col_at (series_div num (series_div_scalar (lag_seconds df lag) k)) i = NaN.
Proof.
  intros Hlag Hi. unfold col_at, series_div, series_div_scalar.
  rewrite lookup_zip_with, list_lookup_fmap, lag_seconds_early by done.
  destruct (num !! i) as [x|]; simpl; [|done]. by destruct x.
Qed.

Lemma rate_column_late (num : list pyfloat) (k : Z) i o o' x :
  (lag <= i)%nat -> df !! i = Some o -> df !! (i - lag)%nat = Some o' ->
  num !! i = Some x ->
  col_at (series_div num (series_div_scalar (lag_seconds df lag) k)) i
  = fdiv x (fdiv (of_Z ((time o - time o') mod 86400)) (of_Z k)).
Proof.
  intros Hlag Ho Ho' Hx. unfold col_at, series_div, series_div_scalar.
  rewrite lookup_zip_with, list_lookup_fmap, Hx.
  rewrite (lag_seconds_late i o o') by done. done.
Qed.

(** The numerator of a positional rate: [col - col.shift(lag)]. *)
Lemma difference_late (f : Observation -> Q) i o o' :
  (lag <= i)%nat -> df !! i = Some o -> df !! (i - lag)%nat = Some o' ->
  series_sub ((fun o => Fin (f o)) <$> df)
             (shift NaN lag ((fun o => Fin (f o)) <$> df)) !! i
  = Some (fsub (Fin (f o)) (Fin (f o'))).
Proof.
  intros Hlag Ho Ho'. pose proof (lookup_lt_Some _ _ _ Ho) as Hi.
  unfold series_sub.
  rewrite lookup_zip_with, list_lookup_fmap, Ho. simpl.
  rewrite lookup_shift_ge by (rewrite ?length_fmap; done).
  rewrite list_lookup_fmap, Ho'. done.
Qed.

Lemma length_col_max_wind : length (col_max_wind df) = length df.
Proof.
  unfold col_max_wind, cummax, col_wind.
  by rewrite length_cum_from, length_fmap.
Qed.

Lemma col_max_wind_isfinite :
  Forall (fun x => isfinite x = true) (col_max_wind df).
Proof.
  apply (pick_isfinite fmax fmax_picks); [|done].
  unfold col_wind. apply Forall_fmap, Forall_true. done.
Qed.

Lemma col_min_pressure_isfinite :
  Forall (fun x => isfinite x = true) (col_min_pressure df).
Proof.
  apply (pick_isfinite fmin fmin_picks); [|done].
  unfold col_pressure. apply Forall_fmap, Forall_true. done.
Qed.

(** The running-maximum difference: for [i >= lag] it is
    [max_wind[i] - max_wind[i - lag]]. *)
Lemma max_wind_difference_late i :
  (lag <= i)%nat -> (i < length df)%nat ->
  series_sub (cummax (col_wind df)) (cummax (shift NaN lag (col_wind df))) !! i
  = Some (fsub (col_at (col_max_wind df) i)
               (col_at (col_max_wind df) (i - lag))).
Proof.
  intros Hlag Hi. unfold series_sub, cummax. rewrite cum_from_shift.
  fold (cummax (col_wind df)). fold (col_max_wind df).
  rewrite lookup_zip_with.
  rewrite lookup_shift_ge by (rewrite ?length_col_max_wind; done).
  unfold col_at.
  destruct (lookup_lt_is_Some_2 (col_max_wind df) i) as [x ->];
    [by rewrite length_col_max_wind|].
  destruct (lookup_lt_is_Some_2 (col_max_wind df) (i - lag)) as [y ->];
    [rewrite length_col_max_wind; lia|].
  done.
Qed.

End Columns.

(** ** [prep_hurricane_data] *)

Lemma length_insert_by_time o l :
  length (insert_by_time o l) = S (length l).
Proof.
  induction l as [|x l IH]; simpl; [done|].
  destruct (time o <? time x); simpl; by rewrite ?IH.
Qed.

Lemma length_sort_values obs : length (sort_values obs) = length obs.
Proof.
  unfold sort_values.
  enough (forall acc,
            length (foldl (fun acc o => insert_by_time o acc) acc obs)
            = (length acc + length obs)%nat) as H by apply (H []).
  induction obs as [|o obs IH]; intros acc; simpl; [lia|].
  rewrite IH, length_insert_by_time. lia.
Qed.

Lemma insert_by_time_perm o l : insert_by_time o l ≡ₚ o :: l.
Proof.
  induction l as [|x l IH]; simpl; [done|].
  destruct (time o <? time x); [done|].
  rewrite IH. apply Permutation_swap.
Qed.

Lemma sort_values_perm obs : sort_values obs ≡ₚ obs.
Proof.
  unfold sort_values.
  enough (forall acc,
            foldl (fun acc o => insert_by_time o acc) acc obs ≡ₚ acc ++ obs)
    as H by apply (H []).
  induction obs as [|o obs IH]; intros acc; simpl.
  - by rewrite app_nil_r.
  - rewrite IH, insert_by_time_perm. simpl. apply Permutation_middle.
Qed.

Lemma insert_by_time_sorted o l :
  Sorted time_le l -> Sorted time_le (insert_by_time o l).
Proof.
  induction 1 as [|x l Hl IH Hhd]; simpl.
  - repeat constructor.
  - destruct (Z.ltb_spec (time o) (time x)) as [Hlt|Hge].
    + repeat constructor; [done|done|]. unfold time_le. lia.
    + constructor; [done|].
      destruct Hhd as [|y l Hxy]; simpl.
      * constructor. done.
      * destruct (time o <? time y); constructor; done.
Qed.

(** The frame the features are derived from is the input, ordered by
    time. *)
Lemma sort_values_sorted obs : Sorted time_le (sort_values obs).
Proof.
  unfold sort_values.
  enough (forall acc,
            Sorted time_le acc ->
            Sorted time_le (foldl (fun acc o => insert_by_time o acc) acc obs))
    as H by (apply H; constructor).
  induction obs as [|o obs IH]; intros acc Hacc; simpl; [done|].
  by apply IH, insert_by_time_sorted.
Qed.

Lemma insert_by_time_last o l :
  Forall (fun x => time x <= time o) l -> insert_by_time o l = l ++ [o].
Proof.
  induction 1 as [|x l Hx _ IH]; simpl; [done|].
  destruct (Z.ltb_spec (time o) (time x)); [lia|]. by rewrite IH.
Qed.

(** A frame that is already in time order is left as it is. *)
Lemma sort_values_id obs : StronglySorted time_le obs -> sort_values obs = obs.
Proof.
  unfold sort_values.
  enough (forall acc,
            Forall (fun a => Forall (time_le a) obs) acc ->
            StronglySorted time_le obs ->
            foldl (fun acc o => insert_by_time o acc) acc obs = acc ++ obs)
    as H by (apply (H []); constructor).
  induction obs as [|o obs IH]; intros acc Hacc Hobs; simpl.
  - by rewrite app_nil_r.
  - apply StronglySorted_inv in Hobs as [Hobs Ho].
    rewrite insert_by_time_last.
    + rewrite IH; [by rewrite <- app_assoc| |done].
      apply Forall_app. split.
      * eapply Forall_impl; [exact Hacc|]. simpl. intros a Ha.
        by apply Forall_cons in Ha as [_ Ha].
      * by constructor.
    + eapply Forall_impl; [exact Hacc|]. simpl. intros a Ha.
      by apply Forall_cons in Ha as [Ha _].
Qed.

Lemma filter_none {A} (P : A -> Prop) `{!forall x, Decision (P x)} (l : list A) :
  Forall (fun x => ~ P x) l -> filter P l = [].
Proof.
  induction 1 as [|x l Hx _ IH]; [done|].
  by rewrite filter_cons_False.
Qed.

Lemma filter_all {A} (P : A -> Prop) `{!forall x, Decision (P x)} (l : list A) :
  Forall P l -> filter P l = l.
Proof.
  induction 1 as [|x l Hx _ IH]; [done|].
  rewrite filter_cons_True by done. by rewrite IH.
Qed.

Section Rows.

Variable df : list Observation.
Variable lag : nat.

Lemma length_assign : length (assign df lag) = length df.
Proof. unfold assign. apply length_imap. Qed.

Lemma lookup_assign (i : nat) (r : FeatureRow) :
  assign df lag !! i = Some r ->
  exists o,
    df !! i = Some o
    /\ obs r = o
    /\ max_wind r = col_at (col_max_wind df) i
    /\ delta_wind r = col_at (col_delta_wind df lag) i
    /\ min_pressure r = col_at (col_min_pressure df) i
    /\ zonal_speed r = col_at (col_zonal_speed df lag) i
    /\ meridonal_speed r = col_at (col_meridonal_speed df lag) i.
Proof.
  unfold assign. rewrite list_lookup_imap.
  destruct (df !! i) as [o|]; simpl; [|done].
  intros [= <-]. exists o. simpl. repeat split.
Qed.

(** The first [lag] rows have no lagged partner: their [delta_wind] is
    missing. *)
Lemma early_row_has_na (i : nat) (r : FeatureRow) :
  assign df lag !! i = Some r -> (i < lag)%nat -> row_has_na r = true.
Proof.
  intros Hr Hi.
  destruct (lookup_assign i r Hr) as (o & Ho & _ & _ & Hd & _).
  pose proof (lookup_lt_Some _ _ _ Ho) as Hlen.
  unfold row_has_na. rewrite Hd. unfold col_delta_wind.
  rewrite rate_column_early by done. simpl.
  by rewrite orb_true_r.
Qed.

(** What [df.assign] computes at a row [i >= lag], with [o] the
    observation at [i] and [o'] the one [lag] rows before it. *)
Lemma late_row_values (i : nat) (r : FeatureRow) (o o' : Observation) :
  assign df lag !! i = Some r -> (lag <= i)%nat ->
  df !! i = Some o -> df !! (i - lag)%nat = Some o' ->
  let secs := of_Z ((time o - time o') mod 86400) in
  delta_wind r
  = fdiv (fsub (col_at (col_max_wind df) i)
               (col_at (col_max_wind df) (i - lag)))
         (fdiv secs (of_Z 21600))
  /\ zonal_speed r
     = fdiv (fsub (Fin (lat o)) (Fin (lat o'))) (fdiv secs (of_Z 3600))
  /\ meridonal_speed r
     = fdiv (fsub (Fin (lon o)) (Fin (lon o'))) (fdiv secs (of_Z 3600)).
Proof.
  intros Hr Hi Ho Ho'. cbv zeta.
  destruct (lookup_assign i r Hr) as (o1 & Ho1 & _ & _ & Hd & _ & Hz & Hm).
  pose proof (lookup_lt_Some _ _ _ Ho) as Hlen.
  rewrite Hd, Hz, Hm.
  unfold col_delta_wind, col_zonal_speed, col_meridonal_speed.
  split; [|split].
  - apply rate_column_late; try done. by apply max_wind_difference_late.
  - apply rate_column_late; try done.
    apply (difference_late df lag lat); done.
  - apply rate_column_late; try done.
    apply (difference_late df lag lon); done.
Qed.

Lemma col_at_isfinite (s : list pyfloat) (i : nat) :
  Forall (fun x => isfinite x = true) s -> (i < length s)%nat ->
  isfinite (col_at s i) = true.
Proof.
  intros Hs Hi. unfold col_at.
  destruct (lookup_lt_is_Some_2 s i Hi) as [x Hx]. rewrite Hx. simpl.
  by apply (Forall_lookup_1 _ _ _ _ Hs Hx).
Qed.

(** A row [i >= lag] whose lag interval has a non-zero seconds component
    has every derived column defined. *)
Lemma late_row_complete (i : nat) (r : FeatureRow) (o o' : Observation) :
  assign df lag !! i = Some r -> (lag <= i)%nat ->
  df !! i = Some o -> df !! (i - lag)%nat = Some o' ->
  (time o - time o') mod 86400 <> 0 ->
  row_has_na r = false.
Proof.
  intros Hr Hi Ho Ho' Hsecs.
  destruct (late_row_values i r o o' Hr Hi Ho Ho') as (Hd & Hz & Hm).
  destruct (lookup_assign i r Hr) as (_ & _ & _ & Hmax & _ & Hmin & _).
  pose proof (lookup_lt_Some _ _ _ Ho) as Hlen.
  destruct (rate_denominator _ 21600 ltac:(lia) Hsecs) as (b6 & Hb6 & Hs6).
  destruct (rate_denominator _ 3600 ltac:(lia) Hsecs) as (b1 & Hb1 & Hs1).
  assert (isfinite (col_at (col_max_wind df) i) = true) as Hfmax.
  { apply col_at_isfinite; [apply col_max_wind_isfinite|].
    by rewrite length_col_max_wind. }
  assert (isfinite (col_at (col_max_wind df) (i - lag)) = true) as Hfmax'.
  { apply col_at_isfinite; [apply col_max_wind_isfinite|].
    rewrite length_col_max_wind. lia. }
  assert (isfinite (col_at (col_min_pressure df) i) = true) as Hfmin.
  { apply col_at_isfinite; [apply col_min_pressure_isfinite|].
    unfold col_min_pressure, cummin, col_pressure.
    by rewrite length_cum_from, length_fmap. }
  unfold row_has_na. rewrite Hmax, Hd, Hmin, Hz, Hm.
  rewrite (isfinite_not_nan _ Hfmax), (isfinite_not_nan _ Hfmin).
  rewrite (isfinite_not_nan _
             (fdiv_isfinite _ _ b6 (fsub_isfinite _ _ Hfmax Hfmax') Hb6 Hs6)).
  rewrite (isfinite_not_nan _
             (fdiv_isfinite (fsub (Fin (lat o)) (Fin (lat o'))) _ b1
                            eq_refl Hb1 Hs1)).
  rewrite (isfinite_not_nan _
             (fdiv_isfinite (fsub (Fin (lon o)) (Fin (lon o'))) _ b1
                            eq_refl Hb1 Hs1)).
  reflexivity.
Qed.

Lemma dropna_skips_early_rows :
  dropna (assign df lag) = dropna (drop lag (assign df lag)).
Proof.
  unfold dropna.
  rewrite <- (take_drop lag (assign df lag)) at 1.
  rewrite filter_app, filter_none; [done|].
  apply Forall_lookup_2. intros i r Hr.
  apply lookup_take_Some in Hr as [Hr Hi].
  rewrite (early_row_has_na i r Hr Hi). done.
Qed.

Lemma length_dropna_assign :
  (length (dropna (assign df lag)) <= length df - lag)%nat.
Proof.
  rewrite dropna_skips_early_rows. unfold dropna.
  etrans; [apply length_filter|]. by rewrite length_drop, length_assign.
Qed.

(** A row [i >= lag] whose lag interval has a non-zero seconds component
    has a number in every derived column. *)
Lemma late_row_defined (i : nat) (r : FeatureRow) (o o' : Observation) :
  assign df lag !! i = Some r -> (lag <= i)%nat ->
  df !! i = Some o -> df !! (i - lag)%nat = Some o' ->
  (time o - time o') mod 86400 <> 0 ->
  row_defined r = true.
Proof.
  intros Hr Hi Ho Ho' Hsecs.
  destruct (late_row_values i r o o' Hr Hi Ho Ho') as (Hd & Hz & Hm).
  destruct (lookup_assign i r Hr) as (_ & _ & _ & Hmax & _ & Hmin & _).
  pose proof (lookup_lt_Some _ _ _ Ho) as Hlen.
  destruct (rate_denominator _ 21600 ltac:(lia) Hsecs) as (b6 & Hb6 & Hs6).
  destruct (rate_denominator _ 3600 ltac:(lia) Hsecs) as (b1 & Hb1 & Hs1).
  assert (isfinite (col_at (col_max_wind df) i) = true) as Hfmax.
  { apply col_at_isfinite; [apply col_max_wind_isfinite|].
    by rewrite length_col_max_wind. }
  assert (isfinite (col_at (col_max_wind df) (i - lag)) = true) as Hfmax'.
  { apply col_at_isfinite; [apply col_max_wind_isfinite|].
    rewrite length_col_max_wind. lia. }
  assert (isfinite (col_at (col_min_pressure df) i) = true) as Hfmin.
  { apply col_at_isfinite; [apply col_min_pressure_isfinite|].
    unfold col_min_pressure, cummin, col_pressure.
    by rewrite length_cum_from, length_fmap. }
  unfold row_defined. rewrite Hmax, Hd, Hmin, Hz, Hm, Hfmax, Hfmin.
  rewrite (fdiv_isfinite _ _ b6 (fsub_isfinite _ _ Hfmax Hfmax') Hb6 Hs6).
  rewrite (fdiv_isfinite (fsub (Fin (lat o)) (Fin (lat o'))) _ b1
                         eq_refl Hb1 Hs1).
  rewrite (fdiv_isfinite (fsub (Fin (lon o)) (Fin (lon o'))) _ b1
                         eq_refl Hb1 Hs1).
  reflexivity.
Qed.

(** No row from position [lag] on is dropped when no lag interval is a
    whole number of days. *)
Lemma dropna_keeps_rows :
  (forall i o o',
     (lag <= i)%nat -> df !! i = Some o -> df !! (i - lag)%nat = Some o' ->
     (time o - time o') mod 86400 <> 0) ->
  dropna (assign df lag) = drop lag (assign df lag)
  /\ Forall (fun r => row_defined r = true) (drop lag (assign df lag)).
Proof.
  intros Hgap.
  assert (forall j r,
            drop lag (assign df lag) !! j = Some r ->
            row_has_na r = false /\ row_defined r = true) as Hrows.
  { intros j r Hr. rewrite lookup_drop in Hr.
    destruct (lookup_assign _ r Hr) as (o & Ho & _).
    pose proof (lookup_lt_Some _ _ _ Ho) as Hlen.
    destruct (lookup_lt_is_Some_2 df (lag + j - lag)) as [o' Ho']; [lia|].
    pose proof (Hgap (lag + j)%nat o o' ltac:(lia) Ho Ho') as Hsecs.
    split.
    - apply (late_row_complete (lag + j) r o o'); try done. lia.
    - apply (late_row_defined (lag + j) r o o'); try done. lia. }
  split.
  - rewrite dropna_skips_early_rows. unfold dropna.
    apply filter_all, Forall_lookup_2. intros j r Hr.
    by destruct (Hrows j r Hr).
  - apply Forall_lookup_2. intros j r Hr. by destruct (Hrows j r Hr).
Qed.

Lemma dropna_keeps_late_rows :
  (forall i o o',
     (lag <= i)%nat -> df !! i = Some o -> df !! (i - lag)%nat = Some o' ->
     0 < time o - time o' < 86400) ->
  dropna (assign df lag) = drop lag (assign df lag).
Proof.
  intros Hgap. apply dropna_keeps_rows. intros i o o' Hi Ho Ho'.
  specialize (Hgap i o o' Hi Ho Ho').
  rewrite Z.mod_small by lia. lia.
Qed.

End Rows.

Lemma prep_hurricane_data_empty lag :
  prep_hurricane_data [] lag = Raise KeyError.
Proof. reflexivity. Qed.

Lemma prep_hurricane_data_nonempty observations lag :
  observations <> [] ->
  prep_hurricane_data observations lag
  = Ok (dropna (assign (sort_values observations) lag)).
Proof. destruct observations; [done|reflexivity]. Qed.

Lemma prep_hurricane_data_short observations lag :
  observations <> [] -> (length observations <= lag)%nat ->
  prep_hurricane_data observations lag = Ok [].
Proof.
  intros Hne Hlen. rewrite prep_hurricane_data_nonempty by done.
  f_equal. apply length_zero_iff_nil.
  pose proof (length_dropna_assign (sort_values observations) lag) as Hle.
  rewrite length_sort_values in Hle. lia.
Qed.

(** C2.  For every non-empty observation sequence of length [n],
    [prep_hurricane_data] returns an empty table when [n <= lag], and when
    [n > lag] and no observation lies a whole number of days after the one
    [lag] positions before it, exactly [n - lag] rows: the rows of the
    time-sorted frame from position [lag] on, each with a number in every
    derived column.  The six-hourly input of the specification with a lag
    of 5 is such an input (30 hours).  On whole-day intervals the count
    fails although the timestamps are distinct: [.dt.seconds] is then 0,
    the rates are divisions by zero, and of three daily reports with a lag
    of 1 only one row is returned where [n - lag = 2], its three rates
    infinite; the elapsed time itself, 24 hours, would give two rows with
    numbers in them. *)
Theorem feature_table_row_count :
  (forall (observations : list Observation) (lag : nat),
     observations <> [] ->
     ((length observations <= lag)%nat ->
      prep_hurricane_data observations lag = Ok [])
     /\ ((lag < length observations)%nat ->
         (forall i o o',
            (lag <= i)%nat ->
            sort_values observations !! i = Some o ->
            sort_values observations !! (i - lag)%nat = Some o' ->
            (time o - time o') mod 86400 <> 0) ->
         exists rows,
           prep_hurricane_data observations lag = Ok rows
           /\ length rows = (length observations - lag)%nat
           /\ obs <$> rows = drop lag (sort_values observations)
           /\ Forall (fun r => row_defined r = true) rows))
  /\ (exists r,
        prep_hurricane_data daily_calm 1 = Ok [r]
        /\ length [r] <> (length daily_calm - 1)%nat
        /\ obs r = mk_obs (t0 + 2 * 86400) 35 22 (-62) 1001
        /\ delta_wind r = PInf
        /\ zonal_speed r = PInf
        /\ meridonal_speed r = NInf
        /\ row_defined r = false).
Proof.
  split.
  - intros observations lag Hne. split.
    + by apply prep_hurricane_data_short.
    + intros Hlen Hgap.
      destruct (dropna_keeps_rows _ _ Hgap) as [Hkeep Hdefined].
      exists (drop lag (assign (sort_values observations) lag)).
      split; [by rewrite prep_hurricane_data_nonempty, Hkeep|].
      split; [by rewrite length_drop, length_assign, length_sort_values|].
      split; [|done].
      rewrite fmap_drop. f_equal. apply list_eq. intros i.
      rewrite list_lookup_fmap. unfold assign. rewrite list_lookup_imap.
      by destruct (sort_values observations !! i).
  - eexists. split; [vm_compute; reflexivity|]. by vm_compute.
Qed.

Lemma feature_table_row_count_witness :
  exists rows,
    prep_hurricane_data six_obs 5 = Ok rows
    /\ length rows = (length six_obs - 5)%nat
    /\ obs <$> rows = drop 5 (sort_values six_obs)
    /\ Forall (fun r => row_defined r = true) rows.
Proof.
  apply (proj1 feature_table_row_count six_obs 5%nat);
    [discriminate|simpl; lia|].
  intros i o o' Hi Ho Ho'.
  change (sort_values six_obs) with six_obs in Ho, Ho'.
  do 6 (destruct i as [|i]; [simpl in *; try lia; simplify_eq; by vm_compute|]).
  discriminate Ho.
Defined.

(** *** Six observations, six hours apart *)

Section SixHourly.

Variable t : Z.
Variables la lo p : nat -> Q.

Local Abbreviation df := (six_hourly t la lo p).
Local Abbreviation first_obs := (six_hourly_first t la lo p).
Local Abbreviation last_obs := (six_hourly_last t la lo p).

Lemma six_hourly_sorted : sort_values df = df.
Proof.
  apply sort_values_id. unfold six_hourly.
  repeat constructor; unfold time_le; simpl; lia.
Qed.

(** Thirty hours lie between the first and the last observation; their
    seconds component is six hours. *)
Lemma six_hourly_elapsed :
  time last_obs - time first_obs = 30 * 3600
  /\ (time last_obs - time first_obs) mod 86400 = 21600.
Proof.
  simpl. replace (t + 5 * 21600 - t) with 108000 by lia. done.
Qed.

(** With [lag = 5] the table is the one row derived from the last
    observation and the first. *)
Lemma six_hourly_row :
  exists row,
    prep_hurricane_data df 5 = Ok [row]
    /\ assign df 5 !! 5%nat = Some row.
Proof.
  destruct (lookup_lt_is_Some_2 (assign df 5) 5) as [row Hrow];
    [rewrite length_assign; simpl; lia|].
  exists row. split; [|done].
  rewrite prep_hurricane_data_nonempty by done.
  rewrite six_hourly_sorted, dropna_skips_early_rows.
  rewrite (drop_S _ row 5 Hrow), drop_ge
    by (rewrite length_assign; simpl; lia).
  unfold dropna. rewrite filter_cons_True; [done|].
  apply (late_row_complete df 5 5 row last_obs first_obs);
    [done | lia | reflexivity | reflexivity |].
  destruct six_hourly_elapsed as [_ ->]. done.
Qed.

Lemma six_hourly_lag_seconds :
  lag_seconds df 5 !! 5%nat = Some (of_Z 21600).
Proof.
  rewrite (lag_seconds_late df 5 5 last_obs first_obs)
    by (lia || reflexivity).
  by destruct six_hourly_elapsed as [_ ->].
Qed.

Lemma six_hourly_values (row : FeatureRow) :
  assign df 5 !! 5%nat = Some row ->
  max_wind row = Fin 55
  /\ delta_wind row = Fin 25
  /\ zonal_speed row = fdiv (fsub (Fin (la 5%nat)) (Fin (la 0%nat))) (of_Z 6)
  /\ meridonal_speed row
     = fdiv (fsub (Fin (lo 5%nat)) (Fin (lo 0%nat))) (of_Z 6).
Proof.
  intros Hrow.
  destruct (late_row_values df 5 5 row last_obs first_obs Hrow)
    as (Hd & Hz & Hm); [lia | reflexivity | reflexivity |].
  destruct (lookup_assign df 5 5 row Hrow) as (_ & _ & _ & Hmax & _).
  destruct six_hourly_elapsed as [_ Hsecs].
  rewrite Hsecs in Hd, Hz, Hm.
  rewrite Hmax, Hd, Hz, Hm. repeat split.
Qed.

End SixHourly.

(** C1, evaluated.  On six observations six hours apart with winds 30 to
    55 knots and [lag = 5], whatever the start time and the other fields,
    the table has exactly one row and its [max_wind] is 55, but its
    [delta_wind] is 25, not (55 - 30) / 5 = 5: the 30 elapsed hours are one
    day and six hours, and [dt.seconds] keeps only the six hours, so the
    divisor is 21600 / 21600 = 1. *)
Theorem six_observations_delta_wind (t : Z) (la lo p : nat -> Q) :
  exists row,
    prep_hurricane_data (six_hourly t la lo p) 5 = Ok [row]
    /\ max_wind row = Fin 55
    /\ delta_wind row = Fin 25
    /\ lag_seconds (six_hourly t la lo p) 5 !! 5%nat = Some (of_Z 21600)
    /\ ~ (25 == (55 - 30) / 5)%Q.
Proof.
  destruct (six_hourly_row t la lo p) as (row & Hprep & Hrow).
  destruct (six_hourly_values t la lo p row Hrow) as (Hmax & Hd & _).
  exists row. repeat split; try done.
  apply six_hourly_lag_seconds.
Qed.

(** C3, evaluated.  On the same input the code divides the change in
    latitude and in longitude between the first and the last observation
    by 6, the hours in the seconds component of the interval, not by the
    30 hours that have elapsed.  For a move of 3 degrees of latitude and
    -6 degrees of longitude it reports a [zonal_speed] of 1/2 and a
    [meridonal_speed] of -1 where the elapsed time gives 1/10 and -1/5. *)
Theorem six_observations_speeds (t : Z) (la lo p : nat -> Q) :
  (exists row,
     prep_hurricane_data (six_hourly t la lo p) 5 = Ok [row]
     /\ zonal_speed row
        = fdiv (fsub (Fin (la 5%nat)) (Fin (la 0%nat))) (of_Z 6)
     /\ meridonal_speed row
        = fdiv (fsub (Fin (lo 5%nat)) (Fin (lo 0%nat))) (of_Z 6))
  /\ (exists row,
        prep_hurricane_data six_obs 5 = Ok [row]
        /\ zonal_speed row = Fin (1 # 2)
        /\ meridonal_speed row = Fin (-1)
        /\ ~ ((1 # 2) == (23 - 20) / 30)%Q
        /\ ~ (-1 == (-66 - -60) / 30)%Q).
Proof.
  split.
  - destruct (six_hourly_row t la lo p) as (row & Hprep & Hrow).
    destruct (six_hourly_values t la lo p row Hrow) as (_ & _ & Hz & Hm).
    by exists row.
  - eexists. split; [reflexivity|]. simpl.
    repeat split; intros H; discriminate H.
Qed.

(** ** Reading the trace *)

Lemma predict_calls_app (t1 t2 : list Event) :
  predict_calls (t1 ++ t2) = predict_calls t1 ++ predict_calls t2.
Proof. apply omap_app. Qed.

Lemma predict_calls_prints (lines : list Printed) :
  predict_calls (EPrint <$> lines) = [].
Proof. induction lines as [|p lines IH]; [done|exact IH]. Qed.

Lemma unknown_not_printed (lines : list Printed) :
  PUnknown ∉ lines -> EPrint PUnknown ∉ EPrint <$> lines.
Proof.
  intros Hlines Hin. apply list_elem_of_fmap in Hin as (p & [= <-] & Hp).
  done.
Qed.

Lemma trace_set_result v l s : trace (set_result v l s) = trace s.
Proof. by destruct v. Qed.

Lemma trace_set_model m s : trace (set_model m s) = trace s.
Proof. done. Qed.

Lemma predict_calls_log_print p s :
  predict_calls (trace (log (EPrint p) s)) = predict_calls (trace s).
Proof. cbn [log trace]. rewrite predict_calls_app. apply app_nil_r. Qed.

Lemma predict_calls_log_predict df lag s :
  predict_calls (trace (log (EPredict df lag) s))
  = predict_calls (trace s) ++ [(df, lag)].
Proof. cbn [log trace]. by rewrite predict_calls_app. Qed.

Lemma result_prints_log ev s :
  is_result_print ev = false ->
  filter (fun ev => is_result_print ev = true) (trace (log ev s))
  = filter (fun ev => is_result_print ev = true) (trace s).
Proof.
  intros Hev. cbn [log trace].
  rewrite filter_app, filter_cons, decide_False by (by rewrite Hev).
  apply app_nil_r.
Qed.

Lemma result_prints_log_result day kind var value s :
  filter (fun ev => is_result_print ev = true)
         (trace (log (EPrint (PResult day kind var value)) s))
  = filter (fun ev => is_result_print ev = true) (trace s)
    ++ [EPrint (PResult day kind var value)].
Proof. cbn [log trace]. by rewrite filter_app. Qed.

Lemma short_not_long_enough storm :
  (length (entries storm) <= 5)%nat <-> long_enough storm = false.
Proof.
  unfold long_enough. destruct (Nat.leb_spec (length (entries storm)) 5).
  - by split.
  - split; [lia|done].
Qed.

(** ** [run_live_inference] *)

(** Every storm [nhc] returns has the live entry in its list. *)
Lemma nhc_folder_entries fetch folder lines storm :
  nhc_folder fetch folder = (lines, Ok (Some storm)) -> entries storm <> [].
Proof.
  unfold nhc_folder. destruct (String.eqb _ _); [|done].
  destruct (extended_data folder) as [|? [|[a|] ?]]; try done.
  destruct (xml_children (network_links folder)) as [links|]; [|done].
  destruct (nhc_links fetch links _ []) as [lines' [tracks|]]; [|done].
  by intros [= _ <-].
Qed.

Lemma nhc_folders_entries fetch folders :
  forall lines results lines' storms,
    Forall (fun storm => entries storm <> []) results ->
    nhc_folders fetch folders lines results = (lines', Ok storms) ->
    Forall (fun storm => entries storm <> []) storms.
Proof.
  induction folders as [|folder rest IH];
    intros lines results lines' storms Hresults; cbn [nhc_folders].
  { by intros [= _ <-]. }
  destruct (nhc_folder fetch folder) as [printed [[storm|]|e]] eqn:Hfolder;
    [| |done].
  - apply IH. apply Forall_app. split; [done|].
    apply Forall_singleton. by apply nhc_folder_entries in Hfolder.
  - by apply IH.
Qed.

Lemma nhc_entries_nonempty fetch document lines live_storms storm :
  nhc fetch document = (lines, Ok (Some live_storms)) ->
  storm ∈ live_storms ->
  entries storm <> [].
Proof.
  unfold nhc. destruct document as [|folder rest]; [done|].
  destruct (xml_children (folder :: rest)) as [folders|]; [|done].
  destruct (nhc_folders fetch folders [] []) as [lines' [results|]] eqn:Hloop;
    [|done].
  intros [= _ <-] Hin.
  apply nhc_folders_entries in Hloop; [|done].
  by apply (proj1 (Forall_forall _ _) Hloop).
Qed.

(** The body of the storm loop on a storm of at most five entries. *)
Lemma storm_body_short c model_type storm s :
  entries storm <> [] -> (length (entries storm) <= 5)%nat ->
  storm_body c model_type 5 storm s
  = (log (EPrint (PNotEnough (folder_name (metadata storm))))
         (log (EPrint (PRunning (folder_name (metadata storm)))) s),
     Ok tt).
Proof.
  intros Hne Hlen. unfold storm_body, bind, print, emit, lift.
  rewrite prep_hurricane_data_short by done.
  destruct (Nat.leb_spec (length (entries storm)) 5); [done|lia].
Qed.

(** The features are derived before the length of the entry list is
    looked at: an entry list without any entry would end the loop with the
    [KeyError] of [prep_hurricane_data].  [nhc] never builds one. *)
Lemma storm_body_no_entries c model_type lag storm s :
  entries storm = [] ->
  storm_body c model_type lag storm s
  = (log (EPrint (PRunning (folder_name (metadata storm)))) s, Raise KeyError).
Proof.
  intros Hnil. unfold storm_body, bind, print, emit, lift.
  by rewrite Hnil.
Qed.

(** C6.  A storm that [nhc] returned and that has at most five entries is
    skipped: the loop body prints its two lines and ends normally, with no
    call of the model's [predict] added to the trace and no local
    changed, and the loop goes on with the remaining storms from there. *)
Theorem short_storm_skipped (c : Collaborators) (root : Hyperparameters)
    (fetch : string -> Archive) (document : list FeedFolder)
    (lines : list IngestLine) (live_storms rest : list Storm)
    (storm : Storm) (s : Locals) :
  nhc fetch document = (lines, Ok (Some live_storms)) ->
  storm ∈ live_storms ->
  (length (entries storm) <= 5)%nat ->
  let body := storm_body c (select_model_type root) 5 in
  let name := folder_name (metadata storm) in
  let s' := log (EPrint (PNotEnough name)) (log (EPrint (PRunning name)) s) in
  body storm s = (s', Ok tt)
  /\ trace s' = trace s ++ [EPrint (PRunning name); EPrint (PNotEnough name)]
  /\ filter (fun ev => is_predict_call ev = true) (trace s')
     = filter (fun ev => is_predict_call ev = true) (trace s)
  /\ for_each (storm :: rest) body s = for_each rest body s'.
Proof.
  intros Hnhc Hin Hlen body name s'.
  pose proof (nhc_entries_nonempty _ _ _ _ _ Hnhc Hin) as Hne.
  assert (body storm s = (s', Ok tt)) as Hbody
    by (by apply storm_body_short).
  assert (trace s' = trace s ++ [EPrint (PRunning name); EPrint (PNotEnough name)])
    as Htrace by (subst s'; simpl; by rewrite <- app_assoc).
  repeat split; try done.
  - rewrite Htrace, filter_app. simpl. by rewrite app_nil_r.
  - simpl. unfold bind at 1. by rewrite Hbody.
Qed.

Lemma short_storm_skipped_witness :
  storm_body example_collaborators (select_model_type universal_root) 5
             (nhc_storm short_folder) (before_loop "universal")
  = (log (EPrint (PNotEnough "ALPHA"))
         (log (EPrint (PRunning "ALPHA")) (before_loop "universal")),
     Ok tt)
  /\ for_each [nhc_storm short_folder; nhc_storm long_folder]
        (storm_body example_collaborators (select_model_type universal_root) 5)
        (before_loop "universal")
     = for_each [nhc_storm long_folder]
         (storm_body example_collaborators (select_model_type universal_root) 5)
         (log (EPrint (PNotEnough "ALPHA"))
              (log (EPrint (PRunning "ALPHA")) (before_loop "universal"))).
Proof.
  destruct (short_storm_skipped example_collaborators universal_root
              example_fetch example_document
              (fst (nhc example_fetch example_document))
              [nhc_storm short_folder; nhc_storm long_folder]
              [nhc_storm long_folder] (nhc_storm short_folder)
              (before_loop "universal"))
    as (Hbody & _ & _ & Hloop).
  - reflexivity.
  - apply list_elem_of_here.
  - simpl. lia.
  - split; [exact Hbody | exact Hloop].
Defined.

Lemma py_getitem_raises {A} (l : list A) (i : Z) (e : exn) :
  py_getitem l i = Raise e -> e = IndexError.
Proof.
  unfold py_getitem.
  destruct (_ && _); [|by intros [= <-]].
  destruct (l !! _); [done|by intros [= <-]].
Qed.

Lemma sparse_vector_11 (index : Z) (x : pyval) :
  0 <= index < 11 ->
  _generate_sparse_feature_vector 11 index x
  = Ok (<[Z.to_nat index := x]> (zeros 11)).
Proof.
  intros Hi. unfold _generate_sparse_feature_vector.
  apply py_setitem_in_range. simpl. lia.
Qed.

(** The singular latitude branch on a day, with [lat_result] unbound. *)
Lemma singular_day_lat_unbound c result day s :
  lat_result s = None ->
  singular_day c "lat" result day s = (s, Raise UnboundLocalError).
Proof.
  intros Hlat. unfold singular_day. simpl.
  unfold append_sparse, bind, load_result. simpl. by rewrite Hlat.
Qed.

(** The loop body, for a latitude model, on a storm with more than five
    entries: the model is called, then the first day raises. *)
Lemma storm_body_lat_unbound c storm s result :
  entries storm <> [] -> (5 < length (entries storm))%nat ->
  model s = ModelObject -> lat_result s = None ->
  predict c (dropna (assign (sort_values (entries storm)) 5)) 5 = Ok result ->
  storm_body c "lat" 5 storm s
  = (log (EPrint PSeparator)
       (log (EPredict (dropna (assign (sort_values (entries storm)) 5)) 5)
          (log (EPrint (PRunning (folder_name (metadata storm)))) s)),
     Raise UnboundLocalError).
Proof.
  intros Hne Hlen Hmodel Hlat Hpredict.
  unfold storm_body, bind at 1 2, print, emit, lift.
  rewrite prep_hurricane_data_nonempty by done.
  destruct (Nat.leb_spec (length (entries storm)) 5); [lia|].
  unfold bind at 1, call_predict. simpl. rewrite Hmodel, Hpredict.
  unfold bind at 1. simpl.
  change (range 3) with [0; 1; 2]. simpl. unfold bind at 1.
  by rewrite singular_day_lat_unbound.
Qed.

Lemma lat_loop_raises c :
  (forall df, exists result, predict c df 5 = Ok result) ->
  forall live_storms s,
    Forall (fun storm => entries storm <> []) live_storms ->
    Exists (fun storm => (5 < length (entries storm))%nat) live_storms ->
    model s = ModelObject -> lat_result s = None ->
    exists s',
      for_each live_storms (storm_body c "lat" 5) s
      = (s', Raise UnboundLocalError)
      /\ lat_result s' = None
      /\ filter (fun ev => is_result_print ev = true) (trace s')
         = filter (fun ev => is_result_print ev = true) (trace s).
Proof.
  intros Hpredict live_storms.
  induction live_storms as [|storm rest IH]; intros s Hne Hlong Hmodel Hlat.
  { by apply Exists_nil in Hlong. }
  apply Forall_cons in Hne as [Hne Hrest].
  simpl. unfold bind at 1.
  destruct (decide (length (entries storm) <= 5)%nat) as [Hshort|Hlen].
  - rewrite storm_body_short by done.
    apply Exists_cons in Hlong as [Hlong|Hlong]; [lia|].
    destruct (IH (log (EPrint (PNotEnough (folder_name (metadata storm))))
                    (log (EPrint (PRunning (folder_name (metadata storm))))
                       s))) as (s' & Hrun & Hlat' & Hprints); try done.
    exists s'. split; [done|]. split; [done|].
    by rewrite Hprints, !result_prints_log.
  - destruct (Hpredict (dropna (assign (sort_values (entries storm)) 5)))
      as [result Hresult].
    rewrite (storm_body_lat_unbound c storm s result) by (done || lia).
    eexists. split; [done|]. split; [done|].
    by rewrite !result_prints_log.
Qed.

(** In the wind and longitude branches the result list is bound before
    it is used, whatever the locals were. *)
Lemma singular_day_bound c model_type result day s :
  (forall X, inverse_transform c X <> Raise UnboundLocalError) ->
  model_type = "wind" \/ model_type = "long" ->
  (singular_day c model_type result day s).2 <> Raise UnboundLocalError.
Proof.
  intros Hscaler [-> | ->]; unfold singular_day; simpl;
    unfold append_sparse, print_descaled, bind, store_result, assign_model,
      load_result, lift, print, emit; simpl.
  all: destruct (py_getitem result day) as [x|e] eqn:Hget; simpl;
    [|by rewrite (py_getitem_raises _ _ _ Hget)].
  all: match goal with
       | |- context [inverse_transform ?c' ?X] =>
           pose proof (Hscaler X) as HX;
           destruct (inverse_transform c' X) as [inv|e]; simpl; [|congruence]
       end.
  all: destruct (py_getitem inv 0) as [row|e] eqn:Hrow; simpl;
    [|by rewrite (py_getitem_raises _ _ _ Hrow)].
  all: match goal with
       | |- context [py_getitem ?r ?k] =>
           destruct (py_getitem r k) as [y|e] eqn:Hy; simpl;
           [done|by rewrite (py_getitem_raises _ _ _ Hy)]
       end.
Qed.

(** C10.  With a singular latitude model loaded, the storm loop ends in
    an [UnboundLocalError], a [NameError], at the first storm of more than
    five entries: the latitude branch appends to [lat_result] on the first
    forecast day before anything has been assigned to it, and the loop has
    printed no descaled value.  The loop is entered with the model object
    in [model] and [lat_result] unbound, as nothing before it assigns the
    name.  The wind and longitude branches assign their list first and
    cannot fail this way. *)
Theorem lat_model_unbound_local (c : Collaborators) (root : Hyperparameters)
    (fetch : string -> Archive) (document : list FeedFolder)
    (lines : list IngestLine) (live_storms : list Storm) (s : Locals) :
  select_model_type root = "lat" ->
  nhc fetch document = (lines, Ok (Some live_storms)) ->
  Exists (fun storm => (5 < length (entries storm))%nat) live_storms ->
  (forall df, exists result, predict c df 5 = Ok result) ->
  model s = ModelObject ->
  lat_result s = None ->
  (exists s' e,
     for_each live_storms (storm_body c (select_model_type root) 5) s
     = (s', Raise e)
     /\ e = UnboundLocalError
     /\ is_NameError e = true
     /\ lat_result s' = None
     /\ filter (fun ev => is_result_print ev = true) (trace s')
        = filter (fun ev => is_result_print ev = true) (trace s))
  /\ ((forall X, inverse_transform c X <> Raise UnboundLocalError) ->
      forall model_type result day s,
        model_type = "wind" \/ model_type = "long" ->
        (singular_day c model_type result day s).2 <> Raise UnboundLocalError).
Proof.
  intros Htype Hnhc Hlong Hpredict Hmodel Hlat. split.
  - rewrite Htype.
    destruct (lat_loop_raises c Hpredict live_storms s)
      as (s' & Hrun & Hlat' & Hprints); try done.
    + apply Forall_forall. intros storm Hin.
      by apply (nhc_entries_nonempty fetch document lines live_storms).
    + exists s', UnboundLocalError. by rewrite Hrun.
  - intros Hscaler model_type result day s0 Hmt.
    by apply singular_day_bound.
Qed.

Lemma lat_model_unbound_local_witness :
  exists s' e,
    for_each [nhc_storm short_folder; nhc_storm long_folder]
      (storm_body singular_collaborators "lat" 5)
      (loop_entry "lat" (nhc example_fetch example_document).1)
    = (s', Raise e)
    /\ e = UnboundLocalError
    /\ is_NameError e = true
    /\ lat_result s' = None
    /\ filter (fun ev => is_result_print ev = true) (trace s') = [].
Proof.
  apply (lat_model_unbound_local singular_collaborators lat_root
           example_fetch example_document
           (nhc example_fetch example_document).1
           [nhc_storm short_folder; nhc_storm long_folder]
           (loop_entry "lat" (nhc example_fetch example_document).1)).
  - reflexivity.
  - reflexivity.
  - apply Exists_cons_tl, Exists_cons_hd. simpl. lia.
  - intros df. eexists. reflexivity.
  - reflexivity.
  - reflexivity.
Defined.

Lemma subscript2_lookup (result : list pyval) (day index : Z)
    (row : list pyfloat) (x : pyfloat) :
  0 <= day -> 0 <= index ->
  result !! Z.to_nat day = Some (Arr row) ->
  row !! Z.to_nat index = Some x ->
  subscript2 result day index = Ok (Num x).
Proof.
  intros Hday Hidx Hrow Hx. unfold subscript2, rbind.
  rewrite (py_getitem_lookup result day (Arr row)) by done.
  by rewrite (py_getitem_lookup row index x).
Qed.

(** The loop body, for a universal model, on a storm with more than five
    entries: the model is called once and its value is walked through
    for days 0 to 3. *)
Lemma storm_body_universal c storm s result :
  entries storm <> [] -> (5 < length (entries storm))%nat ->
  model s = ModelObject ->
  predict c (dropna (assign (sort_values (entries storm)) 5)) 5 = Ok result ->
  storm_body c "universal" 5 storm s
  = for_each [0; 1; 2; 3] (universal_day c result)
      (log (EPrint PSeparator)
         (log (EPredict (dropna (assign (sort_values (entries storm)) 5)) 5)
            (log (EPrint (PRunning (folder_name (metadata storm)))) s))).
Proof.
  intros Hne Hlen Hmodel Hpredict.
  unfold storm_body, bind at 1 2, print, emit, lift.
  rewrite prep_hurricane_data_nonempty by done.
  destruct (Nat.leb_spec (length (entries storm)) 5); [lia|].
  unfold bind at 1, call_predict. simpl model. rewrite Hmodel, Hpredict.
  unfold bind at 1. reflexivity.
Qed.

Lemma universal_day_descaled c result day row w la lo s
    iw rw vw ila rla vla ilo rlo vlo :
  0 <= day ->
  result !! Z.to_nat day = Some (Arr row) ->
  row !! 0%nat = Some w -> row !! 1%nat = Some la -> row !! 2%nat = Some lo ->
  inverse_transform c [<[2%nat := Num w]> (zeros 11)] = Ok iw ->
  iw !! 0%nat = Some rw -> rw !! 2%nat = Some vw ->
  inverse_transform c [<[0%nat := Num la]> (zeros 11)] = Ok ila ->
  ila !! 0%nat = Some rla -> rla !! 0%nat = Some vla ->
  inverse_transform c [<[1%nat := Num lo]> (zeros 11)] = Ok ilo ->
  ilo !! 0%nat = Some rlo -> rlo !! 1%nat = Some vlo ->
  universal_day c result day s
  = (log (EPrint (PResult (day + 1) "universal" "long" vlo))
       (set_result LongResult [<[1%nat := Num lo]> (zeros 11)]
          (log (EPrint (PResult (day + 1) "universal" "lat" vla))
             (set_result LatResult [<[0%nat := Num la]> (zeros 11)]
                (log (EPrint (PResult (day + 1) "universal" "wind" vw))
                   (set_result WindResult [<[2%nat := Num w]> (zeros 11)]
                      s))))),
     Ok tt).
Proof.
  intros Hday Hrow Hw Hla Hlo Hiw Hrw Hvw Hila Hrla Hvla Hilo Hrlo Hvlo.
  unfold universal_day, append_sparse, print_descaled.
  rewrite (subscript2_lookup result day 0 row w) by (done || lia).
  rewrite (subscript2_lookup result day 1 row la) by (done || lia).
  rewrite (subscript2_lookup result day 2 row lo) by (done || lia).
  unfold bind, store_result, load_result, lift, print, emit.
  cbn [get_result set_result log wind_result lat_result long_result app].
  rewrite (sparse_vector_11 2) by lia.
  cbn [get_result set_result log wind_result lat_result long_result app].
  change (Z.to_nat 2) with 2%nat.
  rewrite Hiw, (py_getitem_lookup iw 0 rw), (py_getitem_lookup rw 2 vw)
    by (done || lia).
  cbn [get_result set_result log wind_result lat_result long_result app].
  rewrite (sparse_vector_11 0) by lia.
  cbn [get_result set_result log wind_result lat_result long_result app].
  change (Z.to_nat 0) with 0%nat.
  rewrite Hila, (py_getitem_lookup ila 0 rla), (py_getitem_lookup rla 0 vla)
    by (done || lia).
  cbn [get_result set_result log wind_result lat_result long_result app].
  rewrite (sparse_vector_11 1) by lia.
  cbn [get_result set_result log wind_result lat_result long_result app].
  change (Z.to_nat 1) with 1%nat.
  rewrite Hilo, (py_getitem_lookup ilo 0 rlo), (py_getitem_lookup rlo 1 vlo)
    by (done || lia).
  reflexivity.
Qed.

(** A day of the universal branch whose three outputs descale. *)
Lemma universal_day_lines c result day w la lo vw vla vlo s :
  0 <= day ->
  result !! Z.to_nat day = Some (Arr [w; la; lo]) ->
  descales c 2 (Num w) vw -> descales c 0 (Num la) vla ->
  descales c 1 (Num lo) vlo ->
  exists s',
    universal_day c result day s = (s', Ok tt)
    /\ trace s'
       = trace s
         ++ [EPrint (PResult (day + 1) "universal" "wind" vw);
             EPrint (PResult (day + 1) "universal" "lat" vla);
             EPrint (PResult (day + 1) "universal" "long" vlo)]
    /\ model s' = model s.
Proof.
  intros Hday Hrow (iw & rw & Hiw & Hrw & Hvw) (ila & rla & Hila & Hrla & Hvla)
    (ilo & rlo & Hilo & Hrlo & Hvlo).
  rewrite (universal_day_descaled c result day [w; la; lo] w la lo s
             iw rw vw ila rla vla ilo rlo vlo) by done.
  eexists. split; [reflexivity|].
  cbn [set_result log trace model]. rewrite <- !app_assoc. done.
Qed.

(** C5.  In universal mode the storm loop, entered with the model object
    in [model], forecasts every storm with more than five entries whose
    model output has at least four days and whose values the scaler
    descales: it calls the model once for the storm and then, for each of
    the days 0 to 3 in turn, reads position 0 of the day's output as wind,
    position 1 as latitude and position 2 as longitude, places each in an
    11-slot zero vector, wind at index 2, latitude at index 0, longitude
    at index 1, and prints the entry at that same index of the first
    inverse-transformed row.  The trace of the loop is exactly these
    calls and lines, storm by storm, with the two lines of a skipped storm
    in between. *)
Theorem universal_outputs_descaled
    (c : Collaborators) (root : Hyperparameters) (storms : list Storm)
    (s : Locals) (output : Storm -> list (pyfloat * pyfloat * pyfloat))
    (descaled : nat -> pyfloat -> pyfloat) :
  select_model_type root = "universal" ->
  model s = ModelObject ->
  Forall (fun storm => entries storm <> []) storms ->
  (forall storm,
     storm ∈ storms -> long_enough storm = true ->
     predict c (due_call storm).1 5
     = Ok ((fun '(w, la, lo) => Arr [w; la; lo]) <$> output storm)
     /\ (4 <= length (output storm))%nat) ->
  (forall index x,
     (index < 3)%nat -> descales c index (Num x) (descaled index x)) ->
  let day_lines := fun (day : nat) '(w, la, lo) =>
    [PResult (Z.of_nat day + 1) "universal" "wind" (descaled 2%nat w);
     PResult (Z.of_nat day + 1) "universal" "lat" (descaled 0%nat la);
     PResult (Z.of_nat day + 1) "universal" "long" (descaled 1%nat lo)] in
  let storm_events := fun storm =>
    if long_enough storm then
      [EPrint (PRunning (folder_name (metadata storm)));
       EPredict (due_call storm).1 5;
       EPrint PSeparator]
      ++ (EPrint <$> concat (imap day_lines (take 4 (output storm))))
    else
      [EPrint (PRunning (folder_name (metadata storm)));
       EPrint (PNotEnough (folder_name (metadata storm)))] in
  exists s',
    for_each storms (storm_body c (select_model_type root) 5) s = (s', Ok tt)
    /\ trace s' = trace s ++ concat (storm_events <$> storms)
    /\ model s' = ModelObject.
Proof.
  intros -> Hmodel Hne Hout Hscaler day_lines storm_events. revert s Hmodel.
  induction storms as [|storm rest IH]; intros s Hmodel.
  { exists s. cbn. by rewrite app_nil_r. }
  apply Forall_cons in Hne as [Hne Hrest].
  assert (exists s1,
            storm_body c "universal" 5 storm s = (s1, Ok tt)
            /\ trace s1 = trace s ++ storm_events storm
            /\ model s1 = ModelObject) as (s1 & Hbody & Htrace & Hmodel1).
  { subst storm_events. cbn beta.
    destruct (long_enough storm) eqn:Hlong.
    - destruct (Hout storm) as [Hpredict Hdays]; [by left|done|].
      destruct (output storm) as [|[[w0 la0] lo0] [|[[w1 la1] lo1]
                                 [|[[w2 la2] lo2] [|[[w3 la3] lo3] more]]]];
        cbn [length] in Hdays; try lia.
      unfold due_call in Hpredict. cbn [fst] in Hpredict.
      rewrite (storm_body_universal c storm s _ Hne) by
        (first [done | by apply Nat.leb_gt, negb_true_iff]).
      change [0; 1; 2; 3] with (Z.of_nat <$> [0; 1; 2; 3]%nat).
      cbn [for_each fmap list_fmap]. unfold bind, ret.
      edestruct (universal_day_lines c) with (day := Z.of_nat 0)
        as (s1 & -> & Htrace1 & Hmodel1);
        [lia|reflexivity|by apply Hscaler; lia..|].
      edestruct (universal_day_lines c) with (day := Z.of_nat 1) (s := s1)
        as (s2 & -> & Htrace2 & Hmodel2);
        [lia|reflexivity|by apply Hscaler; lia..|].
      edestruct (universal_day_lines c) with (day := Z.of_nat 2) (s := s2)
        as (s3 & -> & Htrace3 & Hmodel3);
        [lia|reflexivity|by apply Hscaler; lia..|].
      edestruct (universal_day_lines c) with (day := Z.of_nat 3) (s := s3)
        as (s4 & -> & Htrace4 & Hmodel4);
        [lia|reflexivity|by apply Hscaler; lia..|].
      exists s4. split; [done|].
      rewrite Htrace4, Htrace3, Htrace2, Htrace1, Hmodel4, Hmodel3, Hmodel2,
        Hmodel1.
      cbn [log trace model]. rewrite <- !app_assoc. done.
    - rewrite storm_body_short by (done || by apply short_not_long_enough).
      eexists. split; [reflexivity|]. cbn [log trace model].
      by rewrite <- app_assoc. }
  destruct (IH Hrest) with (s := s1) as (s' & Hloop & Htrace' & Hmodel').
  { intros storm' Hin. apply Hout. by right. }
  { done. }
  exists s'. cbn [for_each]. unfold bind. rewrite Hbody. split; [done|].
  rewrite Htrace', Htrace, fmap_cons. cbn [concat].
  by rewrite <- app_assoc.
Qed.

Lemma universal_outputs_descaled_witness :
  exists s',
    for_each [nhc_storm short_folder; nhc_storm long_folder]
      (storm_body example_collaborators "universal" 5)
      (before_loop "universal")
    = (s', Ok tt)
    /\ printed (trace s')
       = [PModelType "universal";
          PRunning "ALPHA"; PNotEnough "ALPHA";
          PRunning "BETA"; PSeparator;
          PResult 1 "universal" "wind" (Fin 0.42);
          PResult 1 "universal" "lat" (Fin 0.1);
          PResult 1 "universal" "long" (Fin 0.2);
          PResult 2 "universal" "wind" (Fin 0.43);
          PResult 2 "universal" "lat" (Fin 0.1);
          PResult 2 "universal" "long" (Fin 0.2);
          PResult 3 "universal" "wind" (Fin 0.44);
          PResult 3 "universal" "lat" (Fin 0.1);
          PResult 3 "universal" "long" (Fin 0.2);
          PResult 4 "universal" "wind" (Fin 0.45);
          PResult 4 "universal" "lat" (Fin 0.1);
          PResult 4 "universal" "long" (Fin 0.2)]
    /\ predict_calls (trace s') = [due_call (nhc_storm long_folder)].
Proof.
  destruct (universal_outputs_descaled example_collaborators universal_root
              [nhc_storm short_folder; nhc_storm long_folder]
              (before_loop "universal")
              (fun _ => [(Fin 0.42, Fin 0.1, Fin 0.2);
                         (Fin 0.43, Fin 0.1, Fin 0.2);
                         (Fin 0.44, Fin 0.1, Fin 0.2);
                         (Fin 0.45, Fin 0.1, Fin 0.2)])
              (fun _ x => x))
    as (s' & Hrun & Htrace & _).
  - reflexivity.
  - reflexivity.
  - repeat constructor; discriminate.
  - intros storm _ _. split; [reflexivity|simpl; lia].
  - intros index x Hindex. eexists _, _. split; [reflexivity|].
    split; [reflexivity|].
    destruct index as [|[|[|index]]]; [reflexivity..|lia].
  - exists s'. split; [exact Hrun|]. rewrite Htrace. split; reflexivity.
Defined.

(** ** The all-timesteps tables of [test.py] *)

Section Tables.

Import TestPy.

Lemma at_index_ok {A} (l : list A) (index : nat) :
  (index < length l)%nat -> exists x, at_index l index = Ok x.
Proof.
  intros Hlt. destruct (lookup_lt_is_Some_2 l index Hlt) as [x Hx].
  exists x. unfold at_index. apply py_getitem_lookup; [lia|].
  by rewrite Nat2Z.id.
Qed.

Lemma dict_comprehension_ok {V} (value : Z -> pyresult V) (l : list Z) :
  (forall k, k ∈ l -> exists v, value k = Ok v) ->
  exists d,
    dict_comprehension value l = Ok d
    /\ dom d = list_to_set l
    /\ (forall k v, d !! k = Some v -> k ∈ l /\ value k = Ok v).
Proof.
  unfold dict_comprehension.
  enough (forall d0 : gmap Z V,
            (forall k, k ∈ l -> exists v, value k = Ok v) ->
            exists d,
              foldl (fun acc k =>
                       (let? d := acc in
                        let? v := value k in Ok (<[k := v]> d))%res)
                    (Ok d0) l = Ok d
              /\ dom d = dom d0 ∪ list_to_set l
              /\ (forall k v, d !! k = Some v ->
                    d0 !! k = Some v \/ (k ∈ l /\ value k = Ok v))) as Hgen.
  { intros Hall. destruct (Hgen ∅ Hall) as (d & Hd & Hdom & Hval).
    exists d. split; [done|]. split; [set_solver|].
    intros k v Hk. destruct (Hval k v Hk) as [Hempty|?]; [|done].
    by rewrite lookup_empty in Hempty. }
  induction l as [|k l IH]; intros d0 Hall; simpl.
  - exists d0. split; [done|]. split; [set_solver|]. auto.
  - destruct (Hall k) as [v Hv]; [by left|]. rewrite Hv. simpl.
    destruct (IH (<[k := v]> d0)) as (d & Hd & Hdom & Hval).
    { intros k' Hk'. apply Hall. by right. }
    exists d. split; [done|]. split.
    + rewrite Hdom, dom_insert_L. set_solver.
    + intros k' v' Hk'. destruct (Hval k' v' Hk') as [Hins|[Hin Hok]].
      * destruct (decide (k = k')) as [<-|Hne].
        -- rewrite lookup_insert_eq in Hins. injection Hins as <-.
           right. split; [by left|done].
        -- rewrite lookup_insert_ne in Hins by done. by left.
      * right. split; [by right|done].
Qed.

Lemma by_storm_ok (p : Prediction) (storm_id : string) :
  storm_key p = storm_id -> by_storm p storm_id = Ok p.
Proof. intros <-. unfold by_storm. by rewrite String.eqb_refl. Qed.

Lemma table_row_ok distance (u s : Prediction) (storm : Hurricane)
    (deltas : list Z) (index : nat) (t : Z) :
  storm_key u = id storm -> storm_key s = id storm ->
  (index < length deltas)%nat ->
  (index < length (wind (forecast s)))%nat ->
  (index < length (f_lat (forecast s)))%nat ->
  (index < length (lon (forecast s)))%nat ->
  (index < length (wind (forecast u)))%nat ->
  (index < length (f_lat (forecast u)))%nat ->
  (index < length (lon (forecast u)))%nat ->
  exists row,
    table_row distance u s storm deltas index t = Ok row
    /\ time row = t
    /\ deltas !! index = Some (delta row).
Proof.
  intros Hu Hs Hd Hsw Hsla Hslo Huw Hula Hulo. unfold table_row.
  destruct (lookup_lt_is_Some_2 deltas index Hd) as [d Hdl].
  unfold at_index at 1.
  rewrite (py_getitem_lookup deltas (Z.of_nat index) d)
    by (rewrite ?Nat2Z.id; done || lia).
  cbn [rbind]. rewrite (by_storm_ok s) by done. cbn [rbind].
  destruct (at_index_ok _ _ Hsw) as [? ->]. cbn [rbind].
  destruct (at_index_ok _ _ Hsla) as [? ->]. cbn [rbind].
  destruct (at_index_ok _ _ Hslo) as [? ->]. cbn [rbind].
  rewrite (by_storm_ok u) by done. cbn [rbind].
  destruct (at_index_ok _ _ Huw) as [? ->]. cbn [rbind].
  destruct (at_index_ok _ _ Hula) as [? ->]. cbn [rbind].
  destruct (at_index_ok _ _ Hulo) as [? ->]. cbn [rbind].
  destruct (entries_get (entries storm) t); eexists; simpl; done.
Qed.

Lemma table_rows_ok distance (u s : Prediction) (storm : Hurricane)
    (deltas : list Z) (ts : list Z) :
  storm_key u = id storm -> storm_key s = id storm ->
  forall index,
    (index + length ts <= length deltas)%nat ->
    (index + length ts <= length (wind (forecast s)))%nat ->
    (index + length ts <= length (f_lat (forecast s)))%nat ->
    (index + length ts <= length (lon (forecast s)))%nat ->
    (index + length ts <= length (wind (forecast u)))%nat ->
    (index + length ts <= length (f_lat (forecast u)))%nat ->
    (index + length ts <= length (lon (forecast u)))%nat ->
    exists rows,
      table_rows distance u s storm deltas index ts = Ok rows
      /\ time <$> rows = ts
      /\ (forall k row, rows !! k = Some row ->
            deltas !! (index + k)%nat = Some (delta row)).
Proof.
  intros Hu Hs.
  induction ts as [|t ts IH]; intros index Hd Hsw Hsla Hslo Huw Hula Hulo.
  - exists []. simpl. repeat split. intros k row Hk. done.
  - simpl in *.
    destruct (table_row_ok distance u s storm deltas index t)
      as (row & -> & Htime & Hdelta); try done; try lia.
    destruct (IH (S index)) as (rows & -> & Htimes & Hdeltas); try lia.
    exists (row :: rows). split; [done|]. split.
    + by rewrite fmap_cons, Htime, Htimes.
    + intros [|k] row' Hk; simpl in Hk.
      * injection Hk as <-. by rewrite Nat.add_0_r.
      * replace (index + S k)%nat with (S index + k)%nat by lia.
        by apply Hdeltas.
Qed.

(** The table of one anchor: a row per reported horizon, in order. *)
Lemma table_at_ok distance (universal singular : BatchResult)
    (storm : string) (hurricane : Hurricane) (timestamp : Z) :
  id hurricane = storm ->
  covers universal storm timestamp -> covers singular storm timestamp ->
  exists table,
    table_at distance universal (Some singular) storm hurricane timestamp
    = Ok table
    /\ time <$> table
       = (fun hour => timestamp + hour * 3600) <$> output_times
    /\ delta <$> table = output_times.
Proof.
  intros Hid (pu & fu & Hpu & Hfu & Hu1 & Hu2 & Hu3)
             (ps & fs & Hps & Hfs & Hs1 & Hs2 & Hs3).
  unfold table_at, prediction_at, dict_get.
  rewrite Hpu, Hps. simpl. rewrite Hfu, Hfs. simpl.
  set (u := {| storm_key := storm;
               times := (fun hour => timestamp + hour * 3600) <$> output_times;
               forecast := fu |}).
  set (s := {| storm_key := storm;
               times := (fun hour => timestamp + hour * 3600) <$> output_times;
               forecast := fs |}).
  unfold create_table. rewrite by_storm_ok by done. cbn [rbind].
  destruct (table_rows_ok distance u s hurricane output_times (times u))
    with (index := 0%nat) as (rows & Hrows & Htimes & Hdeltas);
    try (simpl; rewrite ?length_fmap; done).
  exists rows. split; [done|]. split; [exact Htimes|].
  apply list_eq. intros k. rewrite list_lookup_fmap.
  assert (length rows = length output_times) as Hlen.
  { rewrite <- (length_fmap time rows), Htimes. subst u. cbn [times].
    by rewrite length_fmap. }
  destruct (rows !! k) as [row|] eqn:Hrow; simpl.
  - symmetry. by apply (Hdeltas k row).
  - symmetry. apply lookup_ge_None. apply lookup_ge_None in Hrow. lia.
Qed.

Lemma NoDup_anchors (hurricane : Hurricane) :
  NoDup (keys (entries hurricane)) -> NoDup (anchors hurricane).
Proof.
  unfold anchors. intros Hnd.
  rewrite <- (take_drop (length output_times) (keys (entries hurricane)))
    in Hnd.
  by apply NoDup_app in Hnd as (_ & _ & Hnd).
Qed.

Lemma length_anchors (hurricane : Hurricane) :
  length (anchors hurricane)
  = (length (entries hurricane) - length output_times)%nat.
Proof. unfold anchors, keys. by rewrite length_drop, length_fmap. Qed.

Lemma anchor_position (hurricane : Hurricane) (i : nat) (t : Z) :
  NoDup (keys (entries hurricane)) ->
  keys (entries hurricane) !! i = Some t ->
  t ∈ anchors hurricane <-> (length output_times <= i)%nat.
Proof.
  intros Hnd Hi. unfold anchors. split.
  - intros Hin. apply list_elem_of_lookup in Hin as (j & Hj).
    rewrite lookup_drop in Hj.
    rewrite (NoDup_lookup _ _ _ _ Hnd Hi Hj). lia.
  - intros Hle. apply list_elem_of_lookup.
    exists (i - length output_times)%nat. rewrite lookup_drop.
    by replace (length output_times + (i - length output_times))%nat
      with i by lia.
Qed.

(** C8.  In all-timesteps mode the comprehension builds exactly one table
    per eligible anchor timestamp.  The eligible anchors are the entry
    timestamps with at least five earlier entries, five being
    [len(output_times)] and the lag of the deployment; every later
    timestamp is an anchor, the latest included, so no horizon is looked
    back over.  For a storm of [n] entries that is [n - lag - 0] tables
    with [lag = 5] (none when [n < 5]), each with one row per reported
    horizon.  This holds when [batch_inference] answered for every
    anchor. *)
Theorem one_table_per_anchor distance (universal singular : BatchResult)
    (storm : string) (hurricane : Hurricane) :
  NoDup (keys (entries hurricane)) ->
  id hurricane = storm ->
  (forall t, t ∈ anchors hurricane ->
             covers universal storm t /\ covers singular storm t) ->
  exists d,
    tables distance universal (Some singular) storm hurricane = Ok d
    /\ dom d = list_to_set (anchors hurricane)
    /\ (forall i t,
          keys (entries hurricane) !! i = Some t ->
          is_Some (d !! t) <-> (5 <= i)%nat)
    /\ Z.of_nat (size d)
       = Z.max 0 (spec_anchor_count (Z.of_nat (length (entries hurricane)))
                                    5 0)
    /\ (forall t table,
          d !! t = Some table ->
          t ∈ anchors hurricane
          /\ time <$> table = (fun hour => t + hour * 3600) <$> output_times
          /\ delta <$> table = output_times).
Proof.
  intros Hnd Hid Hcov. unfold tables.
  destruct (dict_comprehension_ok
              (table_at distance universal (Some singular) storm hurricane)
              (anchors hurricane)) as (d & Hd & Hdom & Hval).
  { intros t Ht. destruct (Hcov t Ht) as [Hu Hs].
    destruct (table_at_ok distance universal singular storm hurricane t)
      as (table & Htable & _); eauto. }
  exists d. split; [done|]. split; [done|]. split; [|split].
  - intros i t Hi. rewrite <- elem_of_dom, Hdom, elem_of_list_to_set.
    by apply anchor_position.
  - rewrite <- size_dom, Hdom.
    rewrite size_list_to_set by by apply NoDup_anchors.
    rewrite length_anchors. unfold spec_anchor_count.
    cbn [output_times length]. lia.
  - intros t table Ht. destruct (Hval t table Ht) as [Hin Htable].
    split; [done|]. destruct (Hcov t Hin) as [Hu Hs].
    destruct (table_at_ok distance universal singular storm hurricane t)
      as (table' & Htable' & Htimes & Hdeltas); try done.
    rewrite Htable in Htable'. injection Htable' as <-. done.
Qed.

Lemma example_hurricane_covered (t : Z) :
  t ∈ anchors example_hurricane ->
  covers example_batch "AL012020" t /\ covers example_batch "AL012020" t.
Proof.
  intros Ht. apply list_elem_of_singleton in Ht as ->.
  assert (covers example_batch "AL012020" 1600236000) as Hc.
  { exists {[ 1600236000 := example_forecast ]}, example_forecast.
    repeat split; simpl; lia. }
  by split.
Qed.

Lemma one_table_per_anchor_witness :
  exists d,
    tables example_distance example_batch (Some example_batch) "AL012020"
           example_hurricane = Ok d
    /\ dom d = list_to_set (anchors example_hurricane)
    /\ (forall i t,
          keys (entries example_hurricane) !! i = Some t ->
          is_Some (d !! t) <-> (5 <= i)%nat)
    /\ Z.of_nat (size d)
       = Z.max 0 (spec_anchor_count
                    (Z.of_nat (length (entries example_hurricane))) 5 0)
    /\ (forall t table,
          d !! t = Some table ->
          t ∈ anchors example_hurricane
          /\ time <$> table = (fun hour => t + hour * 3600) <$> output_times
          /\ delta <$> table = output_times).
Proof.
  apply (one_table_per_anchor example_distance example_batch example_batch
           "AL012020" example_hurricane).
  - apply (bool_decide_unpack _). vm_compute. exact I.
  - reflexivity.
  - exact example_hurricane_covered.
Defined.

End Tables.

(** * Further properties of the code *)

(** ** [prep_hurricane_data]: the sorted frame *)

Lemma time_le_transitive : Transitive time_le.
Proof. intros a b c. unfold time_le. lia. Qed.

Lemma sort_values_strongly_sorted obs :
  StronglySorted time_le (sort_values obs).
Proof.
  apply Sorted_StronglySorted;
    [apply time_le_transitive|apply sort_values_sorted].
Qed.

(** ** [prep_hurricane_data]: what a returned row holds *)

(** Every returned row sits at a position [i >= lag] of the sorted
    frame. *)
Lemma returned_row_position observations lag rows r :
  prep_hurricane_data observations lag = Ok rows -> r ∈ rows ->
  exists i o',
    (lag <= i)%nat
    /\ assign (sort_values observations) lag !! i = Some r
    /\ sort_values observations !! i = Some (obs r)
    /\ sort_values observations !! (i - lag)%nat = Some o'
    /\ row_has_na r = false.
Proof.
  intros Hprep Hr.
  destruct observations as [|o0 observations]; [discriminate|].
  rewrite prep_hurricane_data_nonempty in Hprep by done.
  injection Hprep as <-. unfold dropna in Hr.
  apply list_elem_of_filter in Hr as [Hna Hr].
  apply list_elem_of_lookup in Hr as [i Hi].
  destruct (lookup_assign _ _ _ _ Hi) as (o & Ho & Hobs & _).
  pose proof (lookup_lt_Some _ _ _ Ho) as Hlen.
  destruct (decide (lag <= i)%nat) as [Hlag|Hlag].
  - destruct (lookup_lt_is_Some_2 (sort_values (o0 :: observations))
                (i - lag)) as [o' Ho']; [lia|].
    exists i, o'. rewrite Hobs. done.
  - rewrite (early_row_has_na _ _ i r Hi) in Hna by lia. done.
Qed.

(** X2.  Every row of the returned table is derived from a position
    [i >= lag] of the time-sorted observations and the observation [lag]
    positions before it.  Its [max_wind] is the running maximum at [i];
    its [delta_wind] is the change of the running maximum, and its
    [zonal_speed] and [meridonal_speed] the change of latitude and
    longitude, each over the seconds component (seconds modulo one day) of
    the time between the two observations, in units of six hours for the
    wind and of one hour for the speeds. *)
Theorem returned_row_rates
    (observations : list Observation) (lag : nat) (rows : list FeatureRow)
    (r : FeatureRow) :
  prep_hurricane_data observations lag = Ok rows -> r ∈ rows ->
  exists i o',
    (lag <= i)%nat
    /\ sort_values observations !! i = Some (obs r)
    /\ sort_values observations !! (i - lag)%nat = Some o'
    /\ max_wind r = col_at (col_max_wind (sort_values observations)) i
    /\ delta_wind r
       = fdiv (fsub (max_wind r)
                    (col_at (col_max_wind (sort_values observations))
                            (i - lag)))
              (fdiv (of_Z ((time (obs r) - time o') mod 86400)) (of_Z 21600))
    /\ zonal_speed r
       = fdiv (fsub (Fin (lat (obs r))) (Fin (lat o')))
              (fdiv (of_Z ((time (obs r) - time o') mod 86400)) (of_Z 3600))
    /\ meridonal_speed r
       = fdiv (fsub (Fin (lon (obs r))) (Fin (lon o')))
              (fdiv (of_Z ((time (obs r) - time o') mod 86400)) (of_Z 3600)).
Proof.
  intros Hprep Hr.
  destruct (returned_row_position _ _ _ _ Hprep Hr)
    as (i & o' & Hlag & Hi & Ho & Ho' & _).
  destruct (late_row_values _ _ i r (obs r) o' Hi Hlag Ho Ho')
    as (Hd & Hz & Hm).
  destruct (lookup_assign _ _ _ _ Hi) as (_ & _ & _ & Hmax & _).
  exists i, o'. rewrite Hmax at 1. rewrite Hmax. done.
Qed.

Lemma returned_row_rates_witness :
  exists i o',
    (5 <= i)%nat
    /\ sort_values six_obs !! i = Some (obs six_obs_row)
    /\ sort_values six_obs !! (i - 5)%nat = Some o'
    /\ max_wind six_obs_row = col_at (col_max_wind (sort_values six_obs)) i
    /\ delta_wind six_obs_row
       = fdiv (fsub (max_wind six_obs_row)
                    (col_at (col_max_wind (sort_values six_obs)) (i - 5)))
              (fdiv (of_Z ((time (obs six_obs_row) - time o') mod 86400))
                    (of_Z 21600))
    /\ zonal_speed six_obs_row
       = fdiv (fsub (Fin (lat (obs six_obs_row))) (Fin (lat o')))
              (fdiv (of_Z ((time (obs six_obs_row) - time o') mod 86400))
                    (of_Z 3600))
    /\ meridonal_speed six_obs_row
       = fdiv (fsub (Fin (lon (obs six_obs_row))) (Fin (lon o')))
              (fdiv (of_Z ((time (obs six_obs_row) - time o') mod 86400))
                    (of_Z 3600)).
Proof.
  apply (returned_row_rates six_obs 5 [six_obs_row] six_obs_row).
  - reflexivity.
  - apply list_elem_of_here.
Defined.

Lemma fdiv_Fin_nonzero (a b : Q) :
  Qsign b <> 0 -> fdiv (Fin a) (Fin b) = Fin (Qred (a / b)).
Proof.
  intros Hb. unfold fdiv. by destruct (Z.eqb_spec (Qsign b) 0).
Qed.

(** A difference over a whole number of seconds [d <> 0], in units of
    [k] seconds. *)
Lemma rate_value (a b : Q) (d k : Z) :
  0 < k -> d <> 0 ->
  exists q,
    fdiv (fsub (Fin a) (Fin b)) (fdiv (of_Z d) (of_Z k)) = Fin q
    /\ (q == (a - b) / (inject_Z d / inject_Z k))%Q.
Proof.
  intros Hk Hd. rewrite fsub_Fin, fdiv_of_Z by done.
  rewrite fdiv_Fin_nonzero by (rewrite Qsign_Qred, Qsign_ratio; done).
  eexists. split; [done|]. by rewrite !Qred_correct.
Qed.

Lemma finite_column_value (s : list pyfloat) (i : nat) :
  Forall (fun x => isfinite x = true) s -> (i < length s)%nat ->
  exists q, col_at s i = Fin q.
Proof.
  intros Hs Hi. pose proof (col_at_isfinite s i Hs Hi) as Hfin.
  destruct (col_at s i); try discriminate. by eexists.
Qed.

(** X3.  A position [i >= lag] of the sorted observations that lies more
    than zero and less than 24 hours after the position [lag] before it
    gives a row of the returned table, and in that row [zonal_speed] is the
    change of latitude per elapsed hour, [meridonal_speed] the change of
    longitude per elapsed hour, and [delta_wind] the change of the running
    maximum wind per elapsed six hours. *)
Theorem rates_within_a_day
    (observations : list Observation) (lag : nat) (rows : list FeatureRow)
    (i : nat) (o o' : Observation) :
  prep_hurricane_data observations lag = Ok rows ->
  (lag <= i)%nat ->
  sort_values observations !! i = Some o ->
  sort_values observations !! (i - lag)%nat = Some o' ->
  0 < time o - time o' < 86400 ->
  exists r m m' d z mer,
    r ∈ rows /\ obs r = o
    /\ max_wind r = Fin m
    /\ col_at (col_max_wind (sort_values observations)) (i - lag) = Fin m'
    /\ delta_wind r = Fin d
    /\ (d == (m - m') / (inject_Z (time o - time o') / 21600))%Q
    /\ zonal_speed r = Fin z
    /\ (z == (lat o - lat o') / (inject_Z (time o - time o') / 3600))%Q
    /\ meridonal_speed r = Fin mer
    /\ (mer == (lon o - lon o') / (inject_Z (time o - time o') / 3600))%Q.
Proof.
  intros Hprep Hlag Ho Ho' Hgap.
  destruct observations as [|o0 observations]; [discriminate|].
  rewrite prep_hurricane_data_nonempty in Hprep by done.
  injection Hprep as <-.
  set (df := sort_values (o0 :: observations)) in *.
  pose proof (lookup_lt_Some _ _ _ Ho) as Hlen.
  destruct (lookup_lt_is_Some_2 (assign df lag) i) as [r Hr];
    [by rewrite length_assign|].
  assert ((time o - time o') mod 86400 = time o - time o') as Hmod
    by (apply Z.mod_small; lia).
  destruct (late_row_values df lag i r o o' Hr Hlag Ho Ho') as (Hd & Hz & Hm).
  destruct (lookup_assign df lag i r Hr) as (o1 & Ho1 & Hobs & Hmax & _).
  rewrite Hmod in Hd, Hz, Hm.
  destruct (finite_column_value (col_max_wind df) i) as [m Hm1];
    [apply col_max_wind_isfinite|by rewrite length_col_max_wind|].
  destruct (finite_column_value (col_max_wind df) (i - lag)) as [m' Hm2];
    [apply col_max_wind_isfinite|rewrite length_col_max_wind; lia|].
  rewrite Hm1, Hm2 in Hd.
  destruct (rate_value m m' (time o - time o') 21600) as (d & Hd1 & Hd2);
    [lia|lia|].
  destruct (rate_value (lat o) (lat o') (time o - time o') 3600)
    as (z & Hz1 & Hz2); [lia|lia|].
  destruct (rate_value (lon o) (lon o') (time o - time o') 3600)
    as (mer & Hmer1 & Hmer2); [lia|lia|].
  exists r, m, m', d, z, mer.
  split.
  { unfold dropna. apply list_elem_of_filter. split.
    - apply (late_row_complete df lag i r o o'); try done. lia.
    - apply list_elem_of_lookup. by exists i. }
  split; [congruence|].
  rewrite Hmax, Hd, Hz, Hm, Hm1.
  repeat split; done.
Qed.

Lemma rates_within_a_day_witness :
  exists r m m' d z mer,
    r ∈ dropna (assign (sort_values six_obs) 3)
    /\ obs r = mk_obs (t0 + 3 * 21600) 45 (21.5) (-63) 999
    /\ max_wind r = Fin m
    /\ col_at (col_max_wind (sort_values six_obs)) (3 - 3) = Fin m'
    /\ delta_wind r = Fin d
    /\ (d == (m - m') / (inject_Z (t0 + 3 * 21600 - t0) / 21600))%Q
    /\ zonal_speed r = Fin z
    /\ (z == (21.5 - 20) / (inject_Z (t0 + 3 * 21600 - t0) / 3600))%Q
    /\ meridonal_speed r = Fin mer
    /\ (mer == (-63 - -60) / (inject_Z (t0 + 3 * 21600 - t0) / 3600))%Q.
Proof.
  apply (rates_within_a_day six_obs 3 (dropna (assign (sort_values six_obs) 3))
           3 (mk_obs (t0 + 3 * 21600) 45 (21.5) (-63) 999)
           (mk_obs t0 30 20 (-60) 1005)).
  - reflexivity.
  - lia.
  - reflexivity.
  - reflexivity.
  - simpl. lia.
Defined.

Lemma zero_seconds_denominator (k : Z) :
  0 < k -> exists b, fdiv (of_Z 0) (of_Z k) = Fin b /\ Qsign b = 0.
Proof.
  intros Hk. eexists. split; [by apply fdiv_of_Z|].
  rewrite Qsign_Qred. by apply Qsign_ratio.
Qed.

Lemma fdiv_by_zero (x : pyfloat) (b : Q) :
  isfinite x = true -> Qsign b = 0 ->
  isfinite (fdiv x (Fin b)) = false
  /\ (isnan (fdiv x (Fin b)) = false -> isinf (fdiv x (Fin b)) = true).
Proof.
  intros Hx Hb. destruct x as [a| | |]; try discriminate. simpl.
  rewrite Hb. simpl.
  destruct (Qsign a =? 0); [by split|].
  destruct (0 <? Qsign a); by split.
Qed.

(** X4.  A returned row whose lag interval is a whole number of days
    (the two observations are exactly 24 hours, or a multiple, apart, or
    carry the same timestamp) holds no finite rate: its [delta_wind],
    [zonal_speed] and [meridonal_speed] are all infinite.  [dropna] lets
    infinities through. *)
Theorem whole_day_interval_rates
    (observations : list Observation) (lag : nat) (rows : list FeatureRow)
    (i : nat) (r : FeatureRow) (o' : Observation) :
  prep_hurricane_data observations lag = Ok rows ->
  r ∈ rows ->
  (lag <= i)%nat ->
  assign (sort_values observations) lag !! i = Some r ->
  sort_values observations !! (i - lag)%nat = Some o' ->
  (time (obs r) - time o') mod 86400 = 0 ->
  isinf (delta_wind r) = true
  /\ isinf (zonal_speed r) = true
  /\ isinf (meridonal_speed r) = true.
Proof.
  intros Hprep Hr Hlag Hi Ho' Hmod.
  destruct (returned_row_position _ _ _ _ Hprep Hr)
    as (_ & _ & _ & _ & _ & _ & Hna).
  set (df := sort_values observations) in *.
  destruct (lookup_assign df lag i r Hi) as (o & Ho & Hobs & _).
  subst o. pose proof (lookup_lt_Some _ _ _ Ho) as Hlen.
  destruct (late_row_values df lag i r (obs r) o' Hi Hlag Ho Ho')
    as (Hd & Hz & Hm).
  rewrite Hmod in Hd, Hz, Hm.
  destruct (zero_seconds_denominator 21600) as (b6 & Hb6 & Hs6); [lia|].
  destruct (zero_seconds_denominator 3600) as (b1 & Hb1 & Hs1); [lia|].
  rewrite Hb6 in Hd. rewrite Hb1 in Hz, Hm.
  unfold row_has_na in Hna.
  repeat (apply orb_false_elim in Hna as [Hna ?]).
  assert (isfinite (fsub (col_at (col_max_wind df) i)
                         (col_at (col_max_wind df) (i - lag))) = true) as Hnum.
  { apply fsub_isfinite; apply col_at_isfinite;
      try apply col_max_wind_isfinite; rewrite length_col_max_wind; lia. }
  rewrite Hd, Hz, Hm in *.
  split; [|split].
  - by apply (fdiv_by_zero _ b6 Hnum Hs6).
  - by apply (fdiv_by_zero (fsub (Fin (lat (obs r))) (Fin (lat o'))) b1).
  - by apply (fdiv_by_zero (fsub (Fin (lon (obs r))) (Fin (lon o'))) b1).
Qed.

Lemma whole_day_interval_rates_witness :
  isinf (delta_wind daily_row) = true
  /\ isinf (zonal_speed daily_row) = true
  /\ isinf (meridonal_speed daily_row) = true.
Proof.
  apply (whole_day_interval_rates daily_obs 1 [daily_row] 1 daily_row
           (mk_obs t0 30 20 (-60) 1005)).
  - reflexivity.
  - apply list_elem_of_here.
  - lia.
  - reflexivity.
  - reflexivity.
  - reflexivity.
Defined.

(** X5.  With a lag of zero every row is compared with itself: the wind
    change and the elapsed seconds are both zero, [delta_wind] is 0/0, and
    the returned table is empty whatever the (non-empty) input. *)
Theorem zero_lag_empty_table (observations : list Observation) :
  observations <> [] -> prep_hurricane_data observations 0 = Ok [].
Proof.
  intros Hne. rewrite prep_hurricane_data_nonempty by done. f_equal.
  unfold dropna. apply filter_none, Forall_lookup_2. intros i r Hi.
  set (df := sort_values observations) in *.
  destruct (lookup_assign df 0 i r Hi) as (o & Ho & _).
  pose proof (lookup_lt_Some _ _ _ Ho) as Hlen.
  destruct (late_row_values df 0 i r o o Hi) as (Hd & _);
    [lia|done|by rewrite Nat.sub_0_r|].
  rewrite Nat.sub_0_r, Z.sub_diag in Hd.
  destruct (zero_seconds_denominator 21600) as (b & Hb & Hs); [lia|].
  change (0 mod 86400) with 0 in Hd. rewrite Hb in Hd.
  destruct (finite_column_value (col_max_wind df) i) as [m Hm];
    [apply col_max_wind_isfinite|by rewrite length_col_max_wind|].
  rewrite Hm in Hd. simpl in Hd. rewrite Hs in Hd. simpl in Hd.
  assert (Qsign (Qred (m - m)) = 0) as Hzero.
  { rewrite Qsign_Qred. apply Qsign_zero_iff. unfold Qminus.
    apply Qplus_opp_r. }
  rewrite Hzero in Hd. simpl in Hd.
  unfold row_has_na. rewrite Hd. simpl. rewrite orb_true_r. done.
Qed.

Lemma zero_lag_empty_table_witness : prep_hurricane_data six_obs 0 = Ok [].
Proof. apply (zero_lag_empty_table six_obs). discriminate. Defined.

(** ** [prep_hurricane_data]: order and origin of the rows *)

Lemma obs_assign (df : list Observation) (lag : nat) :
  obs <$> assign df lag = df.
Proof.
  apply list_eq. intros i. unfold assign.
  rewrite list_lookup_fmap, list_lookup_imap.
  by destruct (df !! i).
Qed.

Lemma sublist_strongly_sorted {A} (R : A -> A -> Prop) (l1 l2 : list A) :
  l1 `sublist_of` l2 -> StronglySorted R l2 -> StronglySorted R l1.
Proof.
  induction 1 as [|x l1 l2 Hsub IH|x l1 l2 Hsub IH]; intros Hs.
  - constructor.
  - apply StronglySorted_cons in Hs as [Hx Hs].
    apply StronglySorted_cons. split; [|by apply IH].
    apply Forall_forall. intros y Hy.
    apply (proj1 (Forall_forall _ _) Hx).
    by apply (elem_of_sublist l1 l2).
  - apply StronglySorted_cons in Hs as [_ Hs]. by apply IH.
Qed.

(** X6.  The rows of the returned table follow the time order of the
    observations; each row is built on one observation of the input, no
    observation is used for two rows, and the year, month, day and hour
    columns are those of that observation's timestamp. *)
Theorem returned_rows_in_time_order
    (observations : list Observation) (lag : nat) (rows : list FeatureRow) :
  prep_hurricane_data observations lag = Ok rows ->
  (obs <$> rows) `sublist_of` sort_values observations
  /\ StronglySorted time_le (obs <$> rows)
  /\ (forall r, r ∈ rows ->
        obs r ∈ observations
        /\ year r = dt_year (time (obs r))
        /\ month r = dt_month (time (obs r))
        /\ day r = dt_day (time (obs r))
        /\ hour r = dt_hour (time (obs r))).
Proof.
  intros Hprep.
  destruct observations as [|o0 observations]; [discriminate|].
  rewrite prep_hurricane_data_nonempty in Hprep by done.
  injection Hprep as <-.
  set (df := sort_values (o0 :: observations)).
  assert ((obs <$> dropna (assign df lag)) `sublist_of` df) as Hsub.
  { rewrite <- (obs_assign df lag) at 2.
    apply fmap_sublist, sublist_filter. }
  split; [done|]. split.
  - eapply sublist_strongly_sorted; [exact Hsub|].
    apply sort_values_strongly_sorted.
  - intros r Hr. split.
    + rewrite <- (sort_values_perm (o0 :: observations)).
      apply (elem_of_sublist _ _ _ (list_elem_of_fmap_2 obs _ _ Hr) Hsub).
    + apply list_elem_of_filter in Hr as [_ Hr].
      apply list_elem_of_lookup in Hr as [i Hi].
      unfold assign in Hi. rewrite list_lookup_imap in Hi.
      destruct (df !! i); simplify_eq/=. done.
Qed.

Lemma returned_rows_in_time_order_witness :
  (obs <$> [six_obs_row]) `sublist_of` sort_values six_obs
  /\ StronglySorted time_le (obs <$> [six_obs_row])
  /\ (forall r, r ∈ [six_obs_row] ->
        obs r ∈ six_obs
        /\ year r = dt_year (time (obs r))
        /\ month r = dt_month (time (obs r))
        /\ day r = dt_day (time (obs r))
        /\ hour r = dt_hour (time (obs r))).
Proof. apply (returned_rows_in_time_order six_obs 5). reflexivity. Defined.

(** ** [prep_hurricane_data]: the running maximum and minimum *)

Section RunningExtremum.

(** [op] picks, of two finite floats, the one that is largest for the
    order [R]. *)
Variable op : pyfloat -> pyfloat -> pyfloat.
Variable R : Q -> Q -> Prop.
Hypothesis R_refl : forall a, R a a.
Hypothesis R_trans : forall a b c, R a b -> R b c -> R a c.
Hypothesis op_picks :
  forall a b, exists c,
    op (Fin a) (Fin b) = Fin c /\ (c = a \/ c = b) /\ R a c /\ R b c.

Lemma running_extremum (s : list Q) :
  forall (acc : option Q) (i : nat) (x : pyfloat),
    cum_from op (Fin <$> acc) (Fin <$> s) !! i = Some x ->
    exists m,
      x = Fin m
      /\ (forall j q, (j <= i)%nat -> s !! j = Some q -> R q m)
      /\ (forall a, acc = Some a -> R a m)
      /\ (acc = Some m \/ exists j, (j <= i)%nat /\ s !! j = Some m).
Proof.
  induction s as [|q0 s IH]; intros acc i x Hx; [done|].
  rewrite fmap_cons in Hx. simpl in Hx.
  assert (exists m0,
            match Fin <$> acc with
            | Some a => op a (Fin q0)
            | None => Fin q0
            end = Fin m0
            /\ R q0 m0 /\ (forall a, acc = Some a -> R a m0)
            /\ (acc = Some m0 \/ m0 = q0)) as (m0 & Hm0 & Hq0 & Hacc & Hpick).
  { destruct acc as [a|]; simpl.
    - destruct (op_picks a q0) as (c & -> & Hc & Ha & Hq).
      exists c. split; [done|]. split; [done|]. split.
      + by intros ? [= <-].
      + destruct Hc as [-> | ->]; auto.
    - exists q0. split; [done|]. split; [apply R_refl|]. by split; [|right]. }
  rewrite Hm0 in Hx.
  destruct i as [|i]; simpl in Hx.
  - injection Hx as <-. exists m0. split; [done|]. split.
    + intros [|j] q Hj Hq; [|lia]. simpl in Hq. by injection Hq as <-.
    + split; [done|]. destruct Hpick as [?| ->]; [by left|].
      right. exists 0%nat. done.
  - destruct (IH (Some m0) i x Hx) as (m & -> & Hall & Hm & Hfrom).
    exists m. split; [done|].
    pose proof (Hm m0 eq_refl) as Hm0m. split; [|split].
    + intros [|j] q Hj Hq; simpl in Hq.
      * injection Hq as <-. by apply (R_trans _ m0).
      * apply (Hall j); [lia|done].
    + intros a Ha. apply (R_trans _ m0); [by apply Hacc|done].
    + destruct Hfrom as [[= <-]|(j & Hj & Hjm)].
      * destruct Hpick as [?| ->]; [by left|].
        right. exists 0%nat. split; [lia|done].
      * right. exists (S j). split; [lia|done].
Qed.

End RunningExtremum.

Lemma fmax_picks_largest a b :
  exists c, fmax (Fin a) (Fin b) = Fin c
            /\ (c = a \/ c = b) /\ (a <= c)%Q /\ (b <= c)%Q.
Proof.
  unfold fmax. simpl. destruct (Qle_bool a b) eqn:Hle.
  - exists b. apply Qle_bool_iff in Hle.
    repeat split; auto. apply Qle_refl.
  - exists a. repeat split; auto; [apply Qle_refl|].
    apply Qlt_le_weak, Qnot_le_lt. intros Hab.
    apply Qle_bool_iff in Hab. congruence.
Qed.

Lemma fmin_picks_smallest a b :
  exists c, fmin (Fin a) (Fin b) = Fin c
            /\ (c = a \/ c = b) /\ (c <= a)%Q /\ (c <= b)%Q.
Proof.
  unfold fmin. simpl. destruct (Qle_bool b a) eqn:Hle.
  - exists b. apply Qle_bool_iff in Hle.
    repeat split; auto. apply Qle_refl.
  - exists a. repeat split; auto; [apply Qle_refl|].
    apply Qlt_le_weak, Qnot_le_lt. intros Hab.
    apply Qle_bool_iff in Hab. congruence.
Qed.

(** X7.  In every returned row [max_wind] is the largest wind, and
    [min_pressure] the smallest pressure, among the observations up to and
    including the row's own in time order: each is at least (at most) every
    such observation's value and is the value of one of them.  In
    particular a row's wind never exceeds its [max_wind] and its pressure
    is never below its [min_pressure]. *)
Theorem running_extremes_to_date
    (observations : list Observation) (lag : nat) (rows : list FeatureRow)
    (r : FeatureRow) :
  prep_hurricane_data observations lag = Ok rows -> r ∈ rows ->
  exists (i : nat) (m p : Q),
    sort_values observations !! i = Some (obs r)
    /\ max_wind r = Fin m /\ min_pressure r = Fin p
    /\ (wind (obs r) <= m)%Q /\ (p <= pressure (obs r))%Q
    /\ (forall j o, (j <= i)%nat -> sort_values observations !! j = Some o ->
          (wind o <= m)%Q /\ (p <= pressure o)%Q)
    /\ (exists j o, (j <= i)%nat /\ sort_values observations !! j = Some o
                    /\ wind o = m)
    /\ (exists j o, (j <= i)%nat /\ sort_values observations !! j = Some o
                    /\ pressure o = p).
Proof.
  intros Hprep Hr.
  destruct (returned_row_position _ _ _ _ Hprep Hr)
    as (i & _ & _ & Hi & Ho & _ & _).
  set (df := sort_values observations) in *.
  destruct (lookup_assign df lag i r Hi) as (_ & _ & _ & Hmax & _ & Hmin & _).
  pose proof (lookup_lt_Some _ _ _ Ho) as Hlen.
  assert (col_wind df = Fin <$> (wind <$> df)) as Hw
    by (unfold col_wind; by rewrite <- list_fmap_compose).
  assert (col_pressure df = Fin <$> (pressure <$> df)) as Hp
    by (unfold col_pressure; by rewrite <- list_fmap_compose).
  destruct (lookup_lt_is_Some_2 (col_max_wind df) i) as [x Hx];
    [by rewrite length_col_max_wind|].
  destruct (lookup_lt_is_Some_2 (col_min_pressure df) i) as [y Hy].
  { unfold col_min_pressure, cummin, col_pressure.
    by rewrite length_cum_from, length_fmap. }
  unfold col_at in Hmax, Hmin. rewrite Hx in Hmax. rewrite Hy in Hmin.
  simpl in Hmax, Hmin.
  unfold col_max_wind, cummax in Hx. rewrite Hw in Hx.
  unfold col_min_pressure, cummin in Hy. rewrite Hp in Hy.
  destruct (running_extremum fmax Qle Qle_refl Qle_trans fmax_picks_largest
              (wind <$> df) None i x Hx) as (m & -> & Hm_all & _ & Hm_from).
  destruct (running_extremum fmin (fun a b => (b <= a)%Q)
              Qle_refl (fun a b c Hab Hbc => Qle_trans _ _ _ Hbc Hab)
              fmin_picks_smallest
              (pressure <$> df) None i y Hy)
    as (p & -> & Hp_all & _ & Hp_from).
  exists i, m, p. split; [done|]. split; [done|]. split; [done|].
  assert (forall j o, (j <= i)%nat -> df !! j = Some o ->
                      (wind o <= m)%Q /\ (p <= pressure o)%Q) as Hall.
  { intros j o Hj Hjo. split.
    - apply (Hm_all j); [done|]. by rewrite list_lookup_fmap, Hjo.
    - apply (Hp_all j); [done|]. by rewrite list_lookup_fmap, Hjo. }
  split; [by apply (Hall i)|]. split; [by apply (Hall i)|].
  split; [done|]. split.
  - destruct Hm_from as [?|(j & Hj & Hjm)]; [done|].
    rewrite list_lookup_fmap in Hjm.
    destruct (df !! j) as [o|] eqn:Hjo; simplify_eq/=. by exists j, o.
  - destruct Hp_from as [?|(j & Hj & Hjp)]; [done|].
    rewrite list_lookup_fmap in Hjp.
    destruct (df !! j) as [o|] eqn:Hjo; simplify_eq/=. by exists j, o.
Qed.

Lemma running_extremes_to_date_witness :
  exists (i : nat) (m p : Q),
    sort_values six_obs !! i = Some (obs six_obs_row)
    /\ max_wind six_obs_row = Fin m /\ min_pressure six_obs_row = Fin p
    /\ (wind (obs six_obs_row) <= m)%Q /\ (p <= pressure (obs six_obs_row))%Q
    /\ (forall j o, (j <= i)%nat -> sort_values six_obs !! j = Some o ->
          (wind o <= m)%Q /\ (p <= pressure o)%Q)
    /\ (exists j o, (j <= i)%nat /\ sort_values six_obs !! j = Some o
                    /\ wind o = m)
    /\ (exists j o, (j <= i)%nat /\ sort_values six_obs !! j = Some o
                    /\ pressure o = p).
Proof.
  apply (running_extremes_to_date six_obs 5 [six_obs_row] six_obs_row).
  - reflexivity.
  - apply list_elem_of_here.
Defined.

(** ** [prep_hurricane_data]: later observations *)

Lemma insert_by_time_after (o : Observation) (a b : list Observation) :
  Forall (fun x => time x <= time o) a ->
  insert_by_time o (a ++ b) = a ++ insert_by_time o b.
Proof.
  induction 1 as [|x a Hx _ IH]; simpl; [done|].
  destruct (Z.ltb_spec (time o) (time x)); [lia|]. by rewrite IH.
Qed.

Lemma sort_values_app (earlier later : list Observation) :
  (forall o o', o ∈ earlier -> o' ∈ later -> time o < time o') ->
  sort_values (earlier ++ later) = sort_values earlier ++ sort_values later.
Proof.
  intros Hlt. unfold sort_values at 1. rewrite foldl_app.
  fold (sort_values earlier).
  assert (forall o o', o ∈ sort_values earlier -> o' ∈ later ->
                       time o <= time o') as Hle.
  { intros o o' Ho Ho'. rewrite sort_values_perm in Ho.
    specialize (Hlt o o' Ho Ho'). lia. }
  clear Hlt. generalize (sort_values earlier) Hle. clear Hle.
  intros a Hle. unfold sort_values.
  enough (forall b,
            foldl (fun acc o => insert_by_time o acc) (a ++ b) later
            = a ++ foldl (fun acc o => insert_by_time o acc) b later) as H.
  { specialize (H []). by rewrite app_nil_r in H. }
  induction later as [|o later IH]; intros b; simpl; [done|].
  rewrite insert_by_time_after.
  - apply IH. intros x x' Hx Hx'. apply Hle; [done|by right].
  - apply Forall_forall. intros x Hx. apply Hle; [done|by left].
Qed.

(** The first [n] entries of a Series decide the first [n] entries of
    what the Series operations make of it. *)
Lemma take_shift {A} (na : A) (k n : nat) (s1 s2 : list A) :
  take n s1 = take n s2 -> (n <= length s1)%nat -> (n <= length s2)%nat ->
  take n (shift na k s1) = take n (shift na k s2).
Proof.
  intros Heq H1 H2. unfold shift.
  rewrite !take_take, !Nat.min_l by done.
  rewrite !take_app. f_equal.
  rewrite <- (Nat.min_l (n - length (replicate k na)) n) by lia.
  rewrite <- !take_take. by rewrite Heq.
Qed.

Lemma take_cum_from op acc (n : nat) (s1 s2 : list pyfloat) :
  take n s1 = take n s2 ->
  take n (cum_from op acc s1) = take n (cum_from op acc s2).
Proof. intros Heq. by rewrite <- !cum_from_take, Heq. Qed.

Lemma take_zip_with_eq {A B C} (f : A -> B -> C) (n : nat)
    (a1 a2 : list A) (b1 b2 : list B) :
  take n a1 = take n a2 -> take n b1 = take n b2 ->
  take n (zip_with f a1 b1) = take n (zip_with f a2 b2).
Proof. intros Ha Hb. by rewrite !zip_with_take, Ha, Hb. Qed.

Lemma take_fmap_eq {A B} (f : A -> B) (n : nat) (l1 l2 : list A) :
  take n l1 = take n l2 -> take n (f <$> l1) = take n (f <$> l2).
Proof. intros Heq. by rewrite <- !fmap_take, Heq. Qed.

Section Prefix.

Variables a b : list Observation.
Variable lag : nat.

Lemma take_prefix_frame : take (length a) (a ++ b) = take (length a) a.
Proof. by rewrite take_app_length, take_ge. Qed.

Lemma take_lag_seconds :
  take (length a) (lag_seconds (a ++ b) lag)
  = take (length a) (lag_seconds a lag).
Proof.
  unfold lag_seconds, dt_seconds, timedelta_sub, col_time.
  apply take_fmap_eq, take_zip_with_eq.
  - apply take_fmap_eq, take_prefix_frame.
  - apply take_shift; rewrite ?length_fmap, ?length_app; try lia.
    apply take_fmap_eq, take_prefix_frame.
Qed.

Lemma take_rate_column (f : Observation -> Q) (k : Z) :
  take (length a)
       (series_div
          (series_sub ((fun o => Fin (f o)) <$> (a ++ b))
                      (shift NaN lag ((fun o => Fin (f o)) <$> (a ++ b))))
          (series_div_scalar (lag_seconds (a ++ b) lag) k))
  = take (length a)
         (series_div
            (series_sub ((fun o => Fin (f o)) <$> a)
                        (shift NaN lag ((fun o => Fin (f o)) <$> a)))
            (series_div_scalar (lag_seconds a lag) k)).
Proof.
  unfold series_div, series_sub, series_div_scalar.
  apply take_zip_with_eq; [apply take_zip_with_eq|].
  - apply take_fmap_eq, take_prefix_frame.
  - apply take_shift; rewrite ?length_fmap, ?length_app; try lia.
    apply take_fmap_eq, take_prefix_frame.
  - apply take_fmap_eq, take_lag_seconds.
Qed.

Lemma take_col_delta_wind :
  take (length a) (col_delta_wind (a ++ b) lag)
  = take (length a) (col_delta_wind a lag).
Proof.
  unfold col_delta_wind, series_div, series_sub, series_div_scalar, cummax,
    col_wind.
  apply take_zip_with_eq; [apply take_zip_with_eq|].
  - apply take_cum_from, take_fmap_eq, take_prefix_frame.
  - apply take_cum_from, take_shift;
      rewrite ?length_fmap, ?length_app; try lia.
    apply take_fmap_eq, take_prefix_frame.
  - apply take_fmap_eq, take_lag_seconds.
Qed.

Lemma col_at_take (s1 s2 : list pyfloat) (n i : nat) :
  take n s1 = take n s2 -> (i < n)%nat -> col_at s1 i = col_at s2 i.
Proof.
  intros Heq Hi. unfold col_at.
  rewrite <- (lookup_take_lt s1 n i), <- (lookup_take_lt s2 n i) by done.
  by rewrite Heq.
Qed.

Lemma assign_prefix :
  take (length a) (assign (a ++ b) lag) = assign a lag.
Proof.
  apply list_eq. intros i.
  destruct (decide (i < length a)%nat) as [Hi|Hi].
  - rewrite lookup_take_lt by done. unfold assign.
    rewrite !list_lookup_imap, lookup_app_l by done.
    destruct (a !! i) as [o|]; [simpl|done]. do 2 f_equal.
    + apply (col_at_take _ _ (length a)); [|done].
      unfold col_max_wind, cummax, col_wind.
      apply take_cum_from, take_fmap_eq, take_prefix_frame.
    + apply (col_at_take _ _ (length a)); [|done]. apply take_col_delta_wind.
    + apply (col_at_take _ _ (length a)); [|done].
      unfold col_min_pressure, cummin, col_pressure.
      apply take_cum_from, take_fmap_eq, take_prefix_frame.
    + apply (col_at_take _ _ (length a)); [|done].
      apply (take_rate_column lat 3600).
    + apply (col_at_take _ _ (length a)); [|done].
      apply (take_rate_column lon 3600).
  - rewrite lookup_take_ge by lia. symmetry.
    apply lookup_ge_None. rewrite length_assign. lia.
Qed.

End Prefix.

(** X8.  The derivation looks only backwards in time: when observations
    that are all later than the ones at hand are added to the input, the
    rows already obtained come back unchanged, as the first rows of the new
    table. *)
Theorem later_observations_keep_rows
    (observations later : list Observation) (lag : nat)
    (rows : list FeatureRow) :
  prep_hurricane_data observations lag = Ok rows ->
  (forall o o', o ∈ observations -> o' ∈ later -> time o < time o') ->
  exists more,
    prep_hurricane_data (observations ++ later) lag = Ok (rows ++ more).
Proof.
  intros Hprep Hlater.
  destruct observations as [|o0 observations]; [discriminate|].
  rewrite prep_hurricane_data_nonempty in Hprep by done.
  injection Hprep as <-.
  rewrite prep_hurricane_data_nonempty by done.
  rewrite sort_values_app by done.
  set (a := sort_values (o0 :: observations)).
  set (b := sort_values later).
  exists (dropna (drop (length a) (assign (a ++ b) lag))).
  f_equal. unfold dropna. rewrite <- filter_app. f_equal.
  rewrite <- (assign_prefix a b lag). by rewrite take_drop.
Qed.

Lemma later_observations_keep_rows_witness :
  exists more,
    prep_hurricane_data
      (six_obs ++ [mk_obs (t0 + 6 * 21600) 60 24 (-67) 994]) 5
    = Ok ([six_obs_row] ++ more).
Proof.
  apply (later_observations_keep_rows six_obs
           [mk_obs (t0 + 6 * 21600) 60 24 (-67) 994] 5 [six_obs_row]).
  - reflexivity.
  - intros o o' Ho Ho'. apply list_elem_of_singleton in Ho' as ->.
    unfold six_obs in Ho.
    repeat (apply elem_of_cons in Ho as [-> | Ho]; [simpl; lia|]).
    by apply elem_of_nil in Ho.
Defined.

(** ** [past_track] and [nhc] *)

Lemma xml_children_ok {A} (elements : list A) :
  (2 <= length elements)%nat -> xml_children elements = Ok elements.
Proof. destruct elements as [|? [|? ?]]; simpl; (lia || done). Qed.

Lemma xml_children_raises {A} (elements : list A) :
  (length elements < 2)%nat ->
  xml_children elements
  = Raise (match elements with [] => KeyError | _ => TypeError end).
Proof. destruct elements as [|? [|? ?]]; simpl; (lia || done). Qed.

Lemma kml_file_name_app (pre post : list string) :
  kml_file_name (pre ++ post)
  = foldl (fun file_name name =>
             if String.eqb (String.substring 0 2 name) "al"
             then Some name else file_name)
          (kml_file_name pre) post.
Proof. unfold kml_file_name. by rewrite foldl_app. Qed.

Lemma kml_file_name_skips (start : option string) (names : list string) :
  Forall (fun name => String.substring 0 2 name <> "al") names ->
  foldl (fun file_name name =>
           if String.eqb (String.substring 0 2 name) "al"
           then Some name else file_name)
        start names = start.
Proof.
  intros Hnone. revert start.
  induction Hnone as [|name names Hname _ IH]; intros start; simpl; [done|].
  destruct (String.eqb_spec (String.substring 0 2 name) "al"); [done|].
  apply IH.
Qed.

Lemma kml_file_name_last (pre post : list string) (name : string) :
  String.substring 0 2 name = "al" ->
  Forall (fun name => String.substring 0 2 name <> "al") post ->
  kml_file_name (pre ++ name :: post) = Some name.
Proof.
  intros Hal Hpost. rewrite kml_file_name_app. cbn [foldl].
  rewrite Hal. cbn [String.eqb Ascii.eqb Bool.eqb].
  by apply kml_file_name_skips.
Qed.

Lemma past_track_loop_ok (folders : list KmlFolder) :
  Forall (fun f => kml_name f = "Data" -> (2 <= length (kml_placemarks f))%nat)
         folders ->
  forall results,
    past_track_loop folders results
    = (results
       ++ (placemark_entry
             <$> concat (kml_placemarks
                           <$> filter (fun f => kml_name f = "Data") folders)),
       Ok tt).
Proof.
  induction 1 as [|f folders Hf _ IH]; intros results; cbn [past_track_loop].
  { by rewrite app_nil_r. }
  rewrite filter_cons.
  destruct (String.eqb_spec (kml_name f) "Data") as [Hdata|Hdata].
  - rewrite decide_True by done.
    rewrite xml_children_ok by auto. rewrite IH, fmap_cons. cbn [concat].
    by rewrite fmap_app, app_assoc.
  - rewrite decide_False by done. apply IH.
Qed.

Lemma past_track_loop_raises (folders : list KmlFolder) :
  Exists (fun f => kml_name f = "Data" /\ (length (kml_placemarks f) < 2)%nat)
         folders ->
  forall results,
    exists results' e,
      past_track_loop folders results = (results', Raise e)
      /\ (e = KeyError \/ e = TypeError).
Proof.
  induction folders as [|f folders IH]; intros Hbad results.
  { by apply Exists_nil in Hbad. }
  cbn [past_track_loop].
  destruct (String.eqb_spec (kml_name f) "Data") as [Hdata|Hdata].
  - destruct (decide (length (kml_placemarks f) < 2)%nat) as [Hshort|Hlong].
    + rewrite xml_children_raises by done. eexists _, _. split; [done|].
      destruct (kml_placemarks f); auto.
    + rewrite xml_children_ok by lia. apply IH.
      apply Exists_cons in Hbad as [[_ ?]|?]; [lia|done].
  - apply IH. apply Exists_cons in Hbad as [[? _]|?]; done.
Qed.

(** X10.  [past_track] reads the archive member whose name starts with
    [al]; when several do, the last one in the archive's name list is
    read.  When none does, it fails with an [UnboundLocalError] (a
    [NameError]) for [file_name].  The file must have at least two
    [Folder] elements and every folder named [Data] at least two
    [Placemark] elements: with none the subscript is a [KeyError], and
    with a single one [xmltodict] gives a dict, whose keys the loop then
    subscripts, a [TypeError].  When it returns, the results are the
    placemarks of the [Data] folders, in order, each printed as it is
    added, with the intensity taken as the wind without conversion. *)
Theorem past_track_member (archive : Archive) :
  (Forall (fun name => String.substring 0 2 name <> "al") (namelist archive) ->
   past_track archive = ([], Raise UnboundLocalError)
   /\ is_NameError UnboundLocalError = true)
  /\ (forall pre name post,
        namelist archive = pre ++ name :: post ->
        String.substring 0 2 name = "al" ->
        Forall (fun name => String.substring 0 2 name <> "al") post ->
        let folders := read archive name in
        let results :=
          placemark_entry
            <$> concat (kml_placemarks
                          <$> filter (fun f => kml_name f = "Data") folders) in
        (folders = [] -> past_track archive = ([], Raise KeyError))
        /\ (length folders = 1%nat ->
            past_track archive = ([], Raise TypeError))
        /\ ((2 <= length folders)%nat ->
            Forall (fun f => kml_name f = "Data" ->
                             (2 <= length (kml_placemarks f))%nat) folders ->
            past_track archive = (LEntry <$> results, Ok results)
            /\ wind <$> results
               = intensity
                   <$> concat (kml_placemarks
                                 <$> filter (fun f => kml_name f = "Data")
                                            folders))
        /\ ((2 <= length folders)%nat ->
            Exists (fun f => kml_name f = "Data"
                             /\ (length (kml_placemarks f) < 2)%nat) folders ->
            exists lines e,
              past_track archive = (lines, Raise e)
              /\ (e = KeyError \/ e = TypeError))).
Proof.
  split.
  - intros Hnone. split; [|done]. unfold past_track, kml_file_name.
    by rewrite kml_file_name_skips.
  - intros pre name post Hnames Hal Hpost folders results.
    unfold past_track. rewrite Hnames, (kml_file_name_last pre post name) by done.
    fold folders. split; [|split; [|split]].
    + by intros ->.
    + intros Hone. rewrite xml_children_raises by lia.
      destruct folders; [done|reflexivity].
    + intros Htwo Hdata. rewrite xml_children_ok by done.
      rewrite past_track_loop_ok by done. cbn [app]. split; [done|].
      subst results. rewrite <- list_fmap_compose. done.
    + intros Htwo Hbad. rewrite xml_children_ok by done.
      destruct (past_track_loop_raises folders Hbad [])
        as (results' & e & -> & He).
      by eexists _, _.
Qed.

Lemma past_track_member_witness :
  past_track {| namelist := ["doc.kml"; "readme.txt"]; read := fun _ => [] |}
  = ([], Raise UnboundLocalError)
  /\ past_track (track_archive "al012020.kml"
                   [mk_obs t0 30 20 (-60) 1005;
                    mk_obs (t0 + 21600) 35 20.5 (-61) 1003])
     = ([LEntry (mk_obs t0 30 20 (-60) 1005);
         LEntry (mk_obs (t0 + 21600) 35 20.5 (-61) 1003)],
        Ok [mk_obs t0 30 20 (-60) 1005;
            mk_obs (t0 + 21600) 35 20.5 (-61) 1003])
  /\ past_track (track_archive "al012020.kml" [mk_obs t0 30 20 (-60) 1005])
     = ([], Raise TypeError).
Proof.
  split; [|split].
  - apply (proj1 (past_track_member
                    {| namelist := ["doc.kml"; "readme.txt"];
                       read := fun _ => [] |})).
    repeat constructor; discriminate.
  - refine (proj1 (proj1 (proj2 (proj2 (proj2 (past_track_member
              (track_archive "al012020.kml"
                 [mk_obs t0 30 20 (-60) 1005;
                  mk_obs (t0 + 21600) 35 20.5 (-61) 1003]))
              ["doc.kml"] "al012020.kml" [] eq_refl eq_refl _))) _ _)).
    + constructor.
    + simpl. lia.
    + repeat constructor; (discriminate || (simpl; lia)).
  - destruct (proj2 (proj2 (proj2 (proj2 (past_track_member
              (track_archive "al012020.kml" [mk_obs t0 30 20 (-60) 1005]))
              ["doc.kml"] "al012020.kml" [] eq_refl eq_refl
              ltac:(constructor))))) as (lines & e & Hrun & He).
    + simpl. lia.
    + apply Exists_cons_tl, Exists_cons_hd. split; [reflexivity|simpl; lia].
    + reflexivity.
Defined.

Lemma live_wind_in_knots (mph : Q) : (Qred (mph / 1.151) * 1.151 == mph)%Q.
Proof.
  rewrite Qred_correct, Qmult_comm. apply Qmult_div_r. discriminate.
Qed.

Lemma nhc_links_ok fetch (links : list NetworkLink) :
  (forall link,
     link ∈ links -> link_id link = "pasttrack" ->
     exists printed results,
       past_track (fetch (link_href link)) = (printed, Ok results)) ->
  forall lines tracks,
    exists lines' tracks',
      nhc_links fetch links lines tracks = (lines', Ok (tracks ++ tracks'))
      /\ Forall2 (fun link track =>
                    (past_track (fetch (link_href link))).2 = Ok track)
                 (filter (fun link => link_id link = "pasttrack") links)
                 tracks'.
Proof.
  induction links as [|link links IH]; intros Hfetch lines tracks.
  { exists lines, []. cbn. rewrite app_nil_r. split; [done|constructor]. }
  cbn [nhc_links]. rewrite filter_cons.
  destruct (String.eqb_spec (link_id link) "pasttrack") as [Hid|Hid].
  - rewrite decide_True by done.
    destruct (Hfetch link) as (printed & results & Hlink); [by left|done|].
    rewrite Hlink.
    destruct (IH (fun l Hl => Hfetch l (list_elem_of_further _ _ _ Hl))
                (lines ++ printed) (tracks ++ [results]))
      as (lines' & tracks' & -> & Htracks).
    exists lines', (results :: tracks'). rewrite <- app_assoc.
    split; [done|]. constructor; [by rewrite Hlink|done].
  - rewrite decide_False by done.
    apply IH. intros l Hl. apply Hfetch. by right.
Qed.

Lemma nhc_folder_skip fetch (folder : FeedFolder) :
  is_storm_folder folder = false -> nhc_folder fetch folder = ([], Ok None).
Proof.
  unfold is_storm_folder, nhc_folder.
  destruct (String.eqb _ _); [|done].
  by destruct (extended_data folder).
Qed.

(** What [nhc] makes of a storm folder: the storm [storm], from the
    attributes [a] and the past tracks [tracks] of its [pasttrack] links
    in order. *)
Lemma nhc_folder_ok fetch (folder : FeedFolder) :
  is_storm_folder folder = true ->
  is_Some (mjoin (extended_data folder !! 1%nat)) ->
  (2 <= length (network_links folder))%nat ->
  (forall link,
     link ∈ network_links folder -> link_id link = "pasttrack" ->
     exists printed results,
       past_track (fetch (link_href link)) = (printed, Ok results)) ->
  exists lines a tracks,
    nhc_folder fetch folder
    = (lines, Ok (Some (nhc_storm (storm_folder folder a tracks))))
    /\ extended_data folder !! 1%nat = Some (Some a)
    /\ Forall2 (fun link track =>
                  (past_track (fetch (link_href link))).2 = Ok track)
               (filter (fun link => link_id link = "pasttrack")
                       (network_links folder))
               tracks.
Proof.
  unfold is_storm_folder, nhc_folder. intros Hstorm [a Ha] Hlinks Hfetch.
  destruct (String.eqb _ _); [|done].
  destruct (extended_data folder) as [|? [|[a'|] ?]]; try done.
  injection Ha as ->.
  rewrite xml_children_ok by done.
  destruct (nhc_links_ok fetch (network_links folder) Hfetch
              [LName (tc_name a); LStormId (tc_atcfID a);
               LEntry (live_entry a)] [])
    as (lines & tracks & -> & Htracks).
  by exists lines, a, tracks.
Qed.

Lemma nhc_folders_ok fetch (folders : list FeedFolder) :
  (forall folder,
     folder ∈ folders -> is_storm_folder folder = true ->
     is_Some (mjoin (extended_data folder !! 1%nat))
     /\ (2 <= length (network_links folder))%nat
     /\ forall link,
          link ∈ network_links folder -> link_id link = "pasttrack" ->
          exists printed results,
            past_track (fetch (link_href link)) = (printed, Ok results)) ->
  forall lines results,
    exists lines' storms,
      nhc_folders fetch folders lines results
      = (lines', Ok (results ++ storms))
      /\ Forall2 (fun folder storm =>
                    exists a tracks,
                      extended_data folder !! 1%nat = Some (Some a)
                      /\ storm = nhc_storm (storm_folder folder a tracks)
                      /\ Forall2 (fun link track =>
                                    (past_track (fetch (link_href link))).2
                                    = Ok track)
                                 (filter (fun link =>
                                            link_id link = "pasttrack")
                                         (network_links folder))
                                 tracks)
                 (filter (fun folder => is_storm_folder folder = true) folders)
                 storms.
Proof.
  induction folders as [|folder rest IH]; intros Hfeed lines results.
  { exists lines, []. cbn. rewrite app_nil_r. split; [done|constructor]. }
  cbn [nhc_folders]. rewrite filter_cons.
  destruct (is_storm_folder folder) eqn:Hstorm.
  - rewrite decide_True by done.
    destruct (Hfeed folder) as (Hdata & Hlinks & Hfetch); [by left|done|].
    destruct (nhc_folder_ok fetch folder Hstorm Hdata Hlinks Hfetch)
      as (printed & a & tracks & -> & Ha & Htracks).
    destruct (IH (fun f Hf => Hfeed f (list_elem_of_further _ _ _ Hf))
                (lines ++ printed)
                (results ++ [nhc_storm (storm_folder folder a tracks)]))
      as (lines' & storms & -> & Hstorms).
    exists lines', (nhc_storm (storm_folder folder a tracks) :: storms).
    rewrite <- app_assoc. split; [done|].
    constructor; [by exists a, tracks|done].
  - rewrite decide_False by done.
    rewrite nhc_folder_skip by done.
    apply IH. intros f Hf. apply Hfeed. by right.
Qed.

Lemma nhc_folders_skip fetch (folders : list FeedFolder) :
  Forall (fun folder => is_storm_folder folder = false) folders ->
  forall rest lines results,
    nhc_folders fetch (folders ++ rest) lines results
    = nhc_folders fetch rest lines results.
Proof.
  induction 1 as [|folder folders Hfolder _ IH]; intros rest lines results;
    [done|].
  cbn [app nhc_folders]. rewrite nhc_folder_skip by done.
  rewrite app_nil_r. apply IH.
Qed.

(** X9.  [nhc] returns [None] for a document without a [Folder], after
    printing that there are no storms, and fails with a [TypeError] for a
    document with a single [Folder], which [xmltodict] gives as a dict.
    For two or more folders it returns exactly one storm for each folder
    whose id starts with [at] and that has [ExtendedData], in the order of
    the feed, provided each of them has the attributes in its second
    [ExtendedData] element, two or more network links, and past tracks
    that can be read.  A storm's entry list is the live entry
    followed by the past tracks of its [pasttrack] links in order; only
    the live entry's wind is converted, from miles per hour to knots
    (divided by 1.151).  A first storm folder with a single
    [ExtendedData] element ends [nhc] with a [KeyError], one with no or a
    single network link with a [KeyError] or a [TypeError]. *)
Theorem nhc_storms (fetch : string -> Archive) :
  nhc fetch [] = ([LNoStorms], Ok None)
  /\ (forall folder, nhc fetch [folder] = ([], Raise TypeError))
  /\ (forall document,
        (2 <= length document)%nat ->
        (forall folder,
           folder ∈ document -> is_storm_folder folder = true ->
           is_Some (mjoin (extended_data folder !! 1%nat))
           /\ (2 <= length (network_links folder))%nat
           /\ forall link,
                link ∈ network_links folder -> link_id link = "pasttrack" ->
                exists printed results,
                  past_track (fetch (link_href link))
                  = (printed, Ok results)) ->
        exists lines storms,
          nhc fetch document = (lines, Ok (Some storms))
          /\ Forall2 (fun folder storm =>
                        exists a tracks,
                          extended_data folder !! 1%nat = Some (Some a)
                          /\ id storm = tc_atcfID a
                          /\ folder_name (metadata storm) = feed_name folder
                          /\ Forall2 (fun link track =>
                                        (past_track
                                           (fetch (link_href link))).2
                                        = Ok track)
                                     (filter (fun link =>
                                                link_id link = "pasttrack")
                                             (network_links folder))
                                     tracks
                          /\ entries storm = live_entry a :: concat tracks
                          /\ time (live_entry a) = tc_dateTime a
                          /\ (wind (live_entry a) * 1.151
                              == tc_maxSustainedWind a)%Q)
                     (filter (fun folder => is_storm_folder folder = true)
                             document)
                     storms)
  /\ (forall pre folder post,
        (2 <= length (pre ++ folder :: post))%nat ->
        Forall (fun folder => is_storm_folder folder = false) pre ->
        is_storm_folder folder = true ->
        ((length (extended_data folder) < 2)%nat ->
         nhc fetch (pre ++ folder :: post) = ([], Raise KeyError))
        /\ (is_Some (mjoin (extended_data folder !! 1%nat)) ->
            (length (network_links folder) < 2)%nat ->
            exists lines,
              nhc fetch (pre ++ folder :: post)
              = (lines,
                 Raise (match network_links folder with
                        | [] => KeyError
                        | _ => TypeError
                        end)))).
Proof.
  split; [done|]. split; [done|]. split.
  - intros document Htwo Hfeed. unfold nhc.
    destruct document as [|folder rest] eqn:Hdocument; [simpl in Htwo; lia|].
    rewrite <- Hdocument in *. rewrite xml_children_ok by done.
    destruct (nhc_folders_ok fetch document Hfeed [] [])
      as (lines & storms & -> & Hstorms).
    exists lines, storms. split; [done|].
    eapply Forall2_impl; [exact Hstorms|].
    intros f storm (a & tracks & Ha & -> & Htracks).
    exists a, tracks. repeat split; try done.
    apply live_wind_in_knots.
  - intros pre folder post Htwo Hpre Hstorm. unfold nhc.
    destruct (pre ++ folder :: post) as [|f rest] eqn:Hdocument;
      [by destruct pre|].
    rewrite <- Hdocument in *. rewrite xml_children_ok by done.
    rewrite nhc_folders_skip by done. cbn [nhc_folders].
    unfold nhc_folder. unfold is_storm_folder in Hstorm.
    destruct (String.eqb _ _); [|done]. split.
    + intros Hdata.
      destruct (extended_data folder) as [|? [|? ?]];
        simpl in Hdata; (done || lia).
    + intros [a Ha] Hlinks.
      destruct (extended_data folder) as [|? [|[a'|] ?]]; try done.
      rewrite xml_children_raises by done. by eexists.
Qed.

Lemma nhc_storms_witness :
  exists lines storms,
    nhc example_fetch example_document = (lines, Ok (Some storms))
    /\ length storms = 2%nat
    /\ nhc example_fetch [long_feed] = ([], Raise TypeError).
Proof.
  destruct (proj1 (proj2 (proj2 (nhc_storms example_fetch))) example_document)
    as (lines & storms & Hnhc & Hstorms).
  - simpl. lia.
  - intros folder Hin _.
    apply elem_of_cons in Hin as [->|Hin];
      [|apply list_elem_of_singleton in Hin as ->].
    + split; [by eexists|]. split; [simpl; lia|]. intros link Hlink Hid.
      apply elem_of_cons in Hlink as [->|Hlink];
        [|apply list_elem_of_singleton in Hlink as ->];
        [eexists _, _; vm_compute; reflexivity|discriminate Hid].
    + split; [by eexists|]. split; [simpl; lia|]. intros link Hlink Hid.
      apply elem_of_cons in Hlink as [->|Hlink];
        [|apply list_elem_of_singleton in Hlink as ->];
        [eexists _, _; vm_compute; reflexivity|discriminate Hid].
  - exists lines, storms. split; [exact Hnhc|]. split.
    + by apply Forall2_length in Hstorms.
    + apply (proj1 (proj2 (nhc_storms example_fetch))).
Defined.

(** ** [process_results]: the forecast-point loop *)

Lemma py_getitem_last {A} (l : list A) (x : A) :
  last l = Some x -> py_getitem l (-1) = Ok x.
Proof.
  intros Hx. unfold py_getitem.
  rewrite last_lookup in Hx. pose proof (lookup_lt_Some _ _ _ Hx) as Hlt.
  change (-1 <? 0) with true. cbv iota.
  destruct (Z.leb_spec 0 (Z.of_nat (length l) + -1)); [|lia].
  destruct (Z.ltb_spec (Z.of_nat (length l) + -1) (Z.of_nat (length l)));
    [|lia].
  cbn [andb].
  replace (Z.to_nat (Z.of_nat (length l) + -1)) with (pred (length l)) by lia.
  by rewrite Hx.
Qed.

Lemma py_getitem_ok_range {A} (l : list A) (i : Z) (x : A) :
  0 <= i -> py_getitem l i = Ok x -> (Z.to_nat i < length l)%nat.
Proof.
  intros Hi. unfold py_getitem.
  destruct (Z.ltb_spec i 0); [lia|].
  destruct (Z.leb_spec 0 i); [|lia].
  destruct (Z.ltb_spec i (Z.of_nat (length l))); [lia|done].
Qed.

Lemma draw_forecast_point_outcome (storm : StormForecast) (index : Z) :
  (exists line point,
     draw_forecast_point storm index = ([line; point], Ok tt))
  \/ (exists drawn,
        draw_forecast_point storm index = (drawn, Raise IndexError)
        /\ (length drawn < 2)%nat).
Proof.
  unfold draw_forecast_point.
  repeat
    match goal with
    | |- context [py_getitem ?l ?i] =>
        let H := fresh "H" in
        destruct (py_getitem l i) as [?|?e] eqn:H;
          [|apply py_getitem_raises in H as ->]; cbn [rbind]
    end;
    first [ left; eexists _, _; reflexivity
          | right; eexists; split; [reflexivity|simpl; lia] ].
Qed.

Lemma draw_forecast_point_ok (storm : StormForecast) (index : Z)
    (x0 x1 y0 y1 w : pyfloat) (t : Z) :
  py_getitem (forecast_lon storm) (index - 1) = Ok x0 ->
  py_getitem (forecast_lon storm) index = Ok x1 ->
  py_getitem (forecast_lat storm) (index - 1) = Ok y0 ->
  py_getitem (forecast_lat storm) index = Ok y1 ->
  py_getitem (forecast_wind storm) index = Ok w ->
  py_getitem (forecast_times storm) index = Ok t ->
  draw_forecast_point storm index
  = ([PlotLine (x0, x1) (y0, y1); KmlPoint index w t (x1, y1)], Ok tt).
Proof.
  intros Hx0 Hx1 Hy0 Hy1 Hw Ht. unfold draw_forecast_point.
  rewrite Hx0, Hx1, Hy0, Hy1, Hw, Ht. reflexivity.
Qed.

Lemma draw_forecast_point_needs (storm : StormForecast) (index : Z) drawn :
  0 <= index ->
  draw_forecast_point storm index = (drawn, Ok tt) ->
  (Z.to_nat index < length (forecast_lon storm))%nat
  /\ (Z.to_nat index < length (forecast_wind storm))%nat
  /\ (Z.to_nat index < length (forecast_times storm))%nat.
Proof.
  intros Hindex. unfold draw_forecast_point.
  repeat
    match goal with
    | |- context [py_getitem ?l ?i] =>
        let H := fresh "H" in
        destruct (py_getitem l i) as [?|?e] eqn:H; cbn [rbind];
          [|by intros [= _ ?]]
    end.
  intros _. repeat split; eapply py_getitem_ok_range; eassumption.
Qed.

(** The index list in natural numbers: position [i] of [range(n)] is [i]. *)
Lemma draw_forecast_points_all (storm : StormForecast) (indices : list Z) :
  (exists events,
     draw_forecast_points storm indices = (events, Ok tt)
     /\ length events = (2 * length indices)%nat
     /\ (forall i index,
           indices !! i = Some index ->
           exists line point,
             draw_forecast_point storm index = ([line; point], Ok tt)
             /\ events !! (2 * i)%nat = Some line
             /\ events !! (2 * i + 1)%nat = Some point))
  \/ (exists events,
        draw_forecast_points storm indices = (events, Raise IndexError)
        /\ (length events < 2 * length indices)%nat).
Proof.
  induction indices as [|index rest IH]; cbn [draw_forecast_points].
  { left. exists []. repeat split. intros i index Hi. by destruct i. }
  destruct (draw_forecast_point_outcome storm index)
    as [(line & point & Hhere)|(drawn & Hhere & Hdrawn)]; rewrite Hhere.
  - destruct IH as [(events & -> & Hlen & Hat)|(events & -> & Hlen)].
    + left. eexists. split; [reflexivity|]. split; [simpl; lia|].
      intros [|i] index' Hi.
      * injection Hi as <-. eauto.
      * destruct (Hat i index' Hi) as (line' & point' & ? & ? & ?).
        exists line', point'. split; [done|].
        replace (2 * S i)%nat with (S (S (2 * i))) by lia.
        replace (S (S (2 * i)) + 1)%nat with (S (S (2 * i + 1))) by lia.
        done.
    + right. eexists. split; [reflexivity|]. simpl. lia.
  - right. eexists. split; [reflexivity|]. simpl. lia.
Qed.

(** X11.  The forecast-point loop of [process_results] runs over the
    indices of [storm['lat']] and reads [lon], [wind] and [times] at each of
    them.  It completes, drawing one line and one KML point per latitude,
    exactly when there is no latitude or each of the three other sequences
    is at least as long as [lat]; otherwise it stops with an [IndexError]
    part-way, having drawn fewer events. *)
Theorem forecast_loop_outcome (storm : StormForecast) :
  let n := length (forecast_lat storm) in
  let enough :=
    n = 0%nat
    \/ ((n <= length (forecast_lon storm))%nat
        /\ (n <= length (forecast_wind storm))%nat
        /\ (n <= length (forecast_times storm))%nat) in
  (enough <->
   exists events,
     draw_forecast storm = (events, Ok tt) /\ length events = (2 * n)%nat)
  /\ (~ enough <->
      exists events,
        draw_forecast storm = (events, Raise IndexError)
        /\ (length events < 2 * n)%nat).
Proof.
  intros n enough.
  assert (length (seqZ 0 (Z.of_nat n)) = n) as Hrange
    by (rewrite length_seqZ; lia).
  assert ((exists events, draw_forecast storm = (events, Ok tt)) -> enough)
    as Hneeds.
  { intros (events & Hrun). unfold enough.
    destruct n as [|m] eqn:Hn; [by left|right].
    unfold draw_forecast in Hrun. fold n in Hrun. rewrite Hn in Hrun.
    destruct (draw_forecast_points_all storm (seqZ 0 (Z.of_nat (S m))))
      as [(events' & Hrun' & _ & Hat)|(events' & Hrun' & _)];
      [|congruence].
    destruct (Hat m (Z.of_nat m)) as (line & point & Hpoint & _).
    { rewrite lookup_seqZ. split; lia. }
    apply draw_forecast_point_needs in Hpoint; [|lia].
    rewrite Nat2Z.id in Hpoint. lia. }
  assert (enough ->
          exists events,
            draw_forecast storm = (events, Ok tt)
            /\ length events = (2 * n)%nat) as Hruns.
  { intros Henough. unfold draw_forecast. fold n.
    destruct (draw_forecast_points_all storm (seqZ 0 (Z.of_nat n)))
      as [(events & Hrun & Hlen & _)|(events & Hrun & Hlen)].
    { exists events. by rewrite Hrun, Hlen, Hrange. }
    exfalso. rewrite Hrange in Hlen.
    destruct Henough as [Hn|(Hlon & Hwind & Htimes)]; [lia|].
    assert (forall indices,
              Forall (fun index => 0 <= index < Z.of_nat n) indices ->
              exists events,
                draw_forecast_points storm indices = (events, Ok tt))
      as Hall.
    { intros indices Hindices.
      induction Hindices as [|index rest Hindex _ IH];
        cbn [draw_forecast_points]; [by eexists|].
      assert (exists x, forecast_lat storm !! Z.to_nat index = Some x)
        as (y1 & Hy1) by (apply lookup_lt_is_Some_2; fold n; lia).
      assert (exists x, forecast_lon storm !! Z.to_nat index = Some x)
        as (x1 & Hx1) by (apply lookup_lt_is_Some_2; lia).
      assert (exists x, forecast_wind storm !! Z.to_nat index = Some x)
        as (w & Hw) by (apply lookup_lt_is_Some_2; lia).
      assert (exists x, forecast_times storm !! Z.to_nat index = Some x)
        as (t & Ht) by (apply lookup_lt_is_Some_2; lia).
      assert (exists x y,
                py_getitem (forecast_lon storm) (index - 1) = Ok x
                /\ py_getitem (forecast_lat storm) (index - 1) = Ok y)
        as (x0 & y0 & Hx0 & Hy0).
      { destruct (decide (index = 0)) as [->|Hpos].
        - destruct (last (forecast_lon storm)) as [x0|] eqn:Hx0;
            [|apply last_None in Hx0; rewrite Hx0 in Hlon; simpl in Hlon;
              lia].
          destruct (last (forecast_lat storm)) as [y0|] eqn:Hy0;
            [|apply last_None in Hy0; unfold n in Hindex;
              rewrite Hy0 in Hindex; simpl in Hindex; lia].
          exists x0, y0. split; by apply py_getitem_last.
        - assert (exists x,
                    forecast_lon storm !! Z.to_nat (index - 1) = Some x)
            as (x0 & Hx0) by (apply lookup_lt_is_Some_2; lia).
          assert (exists x,
                    forecast_lat storm !! Z.to_nat (index - 1) = Some x)
            as (y0 & Hy0) by (apply lookup_lt_is_Some_2; fold n; lia).
          exists x0, y0. split; apply py_getitem_lookup; (lia || done). }
      rewrite (draw_forecast_point_ok storm index x0 x1 y0 y1 w t)
        by (first [done | apply py_getitem_lookup; (lia || done)]).
      destruct IH as (events' & ->). by eexists. }
    destruct (Hall (seqZ 0 (Z.of_nat n))) as (events' & Hrun').
    { apply Forall_forall. intros index Hindex.
      apply list_elem_of_lookup in Hindex as (i & Hi).
      apply lookup_seqZ in Hi. lia. }
    congruence. }
  split; [split; [exact Hruns|]|split].
  - intros (events & Hrun & _). apply Hneeds. by exists events.
  - intros Hshort. unfold draw_forecast. fold n.
    destruct (draw_forecast_points_all storm (seqZ 0 (Z.of_nat n)))
      as [(events & Hrun & _)|(events & Hrun & Hlen)].
    + exfalso. apply Hshort, Hneeds. by exists events.
    + exists events. by rewrite <- Hrange at 2.
  - intros (events & Hrun & _) Henough.
    destruct (Hruns Henough) as (events' & Hrun' & _). congruence.
Qed.

Lemma forecast_loop_outcome_witness :
  (exists events,
     draw_forecast example_forecast_track = (events, Ok tt)
     /\ length events = 6%nat)
  /\ (exists events,
        draw_forecast
          {| forecast_name := "BETA"; forecast_times := [1600236000];
             forecast_wind := [Fin 56; Fin 57];
             forecast_lat := [Fin 21; Fin 22]; forecast_lon := [Fin (-61)] |}
        = (events, Raise IndexError)
        /\ (length events < 4)%nat).
Proof.
  split.
  - apply (proj1 (proj1 (forecast_loop_outcome example_forecast_track))).
    right. simpl. lia.
  - apply (proj1 (proj2 (forecast_loop_outcome
                           {| forecast_name := "BETA";
                              forecast_times := [1600236000];
                              forecast_wind := [Fin 56; Fin 57];
                              forecast_lat := [Fin 21; Fin 22];
                              forecast_lon := [Fin (-61)] |}))).
    simpl. lia.
Defined.

(** X12.  In the forecast-point loop of [process_results], index 0 reads
    [lon[-1]] and [lat[-1]]: the first line drawn joins the last forecast
    point to the first one, closing the track into a loop.  Every later
    index [i] joins point [i - 1] to point [i], and each index is followed
    by its own KML point carrying [wind[i]], [times[i]] and
    [(lon[i], lat[i])]. *)
Theorem forecast_first_line_wraps (storm : StormForecast) (events : list DrawEvent) :
  draw_forecast storm = (events, Ok tt) ->
  (forall x0 x1 y0 y1,
     last (forecast_lon storm) = Some x0 ->
     last (forecast_lat storm) = Some y0 ->
     forecast_lon storm !! 0%nat = Some x1 ->
     forecast_lat storm !! 0%nat = Some y1 ->
     events !! 0%nat = Some (PlotLine (x0, x1) (y0, y1)))
  /\ (forall i x0 x1 y0 y1,
        forecast_lon storm !! i = Some x0 ->
        forecast_lat storm !! i = Some y0 ->
        forecast_lon storm !! S i = Some x1 ->
        forecast_lat storm !! S i = Some y1 ->
        events !! (2 * S i)%nat = Some (PlotLine (x0, x1) (y0, y1)))
  /\ (forall i x y w t,
        forecast_lon storm !! i = Some x ->
        forecast_lat storm !! i = Some y ->
        forecast_wind storm !! i = Some w ->
        forecast_times storm !! i = Some t ->
        events !! (2 * i + 1)%nat = Some (KmlPoint (Z.of_nat i) w t (x, y))).
Proof.
  intros Hrun. unfold draw_forecast in Hrun.
  destruct (draw_forecast_points_all storm
              (seqZ 0 (Z.of_nat (length (forecast_lat storm)))))
    as [(events' & Hrun' & _ & Hat)|(events' & Hrun' & _)]; [|congruence].
  assert (events' = events) as -> by congruence.
  assert (forall i y,
            forecast_lat storm !! i = Some y ->
            seqZ 0 (Z.of_nat (length (forecast_lat storm))) !! i
            = Some (Z.of_nat i)) as Hindex.
  { intros i y Hy. apply lookup_lt_Some in Hy.
    rewrite lookup_seqZ. split; lia. }
  split; [|split].
  - intros x0 x1 y0 y1 Hx0 Hy0 Hx1 Hy1.
    destruct (Hat 0%nat 0 (Hindex _ _ Hy1))
      as (line & point & Hpoint & Hline & _).
    apply draw_forecast_point_needs in Hpoint as Hneeds; [|lia].
    destruct Hneeds as (_ & Hw & Ht).
    apply lookup_lt_is_Some_2 in Hw as (w & Hw).
    apply lookup_lt_is_Some_2 in Ht as (t & Ht).
    rewrite (draw_forecast_point_ok storm 0 x0 x1 y0 y1 w t) in Hpoint.
    + rewrite Nat.mul_0_r in Hline. congruence.
    + by apply py_getitem_last.
    + by apply py_getitem_lookup.
    + by apply py_getitem_last.
    + by apply py_getitem_lookup.
    + by apply py_getitem_lookup.
    + by apply py_getitem_lookup.
  - intros i x0 x1 y0 y1 Hx0 Hy0 Hx1 Hy1.
    destruct (Hat (S i) _ (Hindex _ _ Hy1))
      as (line & point & Hpoint & Hline & _).
    apply draw_forecast_point_needs in Hpoint as Hneeds; [|lia].
    destruct Hneeds as (_ & Hw & Ht).
    apply lookup_lt_is_Some_2 in Hw as (w & Hw).
    apply lookup_lt_is_Some_2 in Ht as (t & Ht).
    rewrite (draw_forecast_point_ok storm _ x0 x1 y0 y1 w t) in Hpoint.
    + congruence.
    + apply py_getitem_lookup; [lia|].
      by replace (Z.to_nat (Z.of_nat (S i) - 1)) with i by lia.
    + apply py_getitem_lookup; [lia|]. by rewrite Nat2Z.id.
    + apply py_getitem_lookup; [lia|].
      by replace (Z.to_nat (Z.of_nat (S i) - 1)) with i by lia.
    + apply py_getitem_lookup; [lia|]. by rewrite Nat2Z.id.
    + by apply py_getitem_lookup; [lia|].
    + by apply py_getitem_lookup; [lia|].
  - intros i x y w t Hx Hy Hw Ht.
    destruct (Hat i _ (Hindex _ _ Hy))
      as (line & point & Hpoint & _ & Hkml).
    unfold draw_forecast_point in Hpoint.
    rewrite (py_getitem_lookup (forecast_lon storm) (Z.of_nat i) x) in Hpoint
      by (first [lia | by rewrite Nat2Z.id]).
    rewrite (py_getitem_lookup (forecast_lat storm) (Z.of_nat i) y) in Hpoint
      by (first [lia | by rewrite Nat2Z.id]).
    rewrite (py_getitem_lookup (forecast_wind storm) (Z.of_nat i) w) in Hpoint
      by (first [lia | by rewrite Nat2Z.id]).
    rewrite (py_getitem_lookup (forecast_times storm) (Z.of_nat i) t) in Hpoint
      by (first [lia | by rewrite Nat2Z.id]).
    destruct (py_getitem (forecast_lon storm) (Z.of_nat i - 1));
      cbn [rbind] in Hpoint; [|done].
    destruct (py_getitem (forecast_lat storm) (Z.of_nat i - 1));
      cbn [rbind] in Hpoint; [|done].
    congruence.
Qed.

Lemma forecast_first_line_wraps_witness :
  exists events,
    draw_forecast example_forecast_track = (events, Ok tt)
    /\ events !! 0%nat = Some (PlotLine (Fin (-63), Fin (-61)) (Fin 23, Fin 21))
    /\ events !! 2%nat = Some (PlotLine (Fin (-61), Fin (-62)) (Fin 21, Fin 22))
    /\ events !! 5%nat
       = Some (KmlPoint 2 (Fin 58) 1600279200 (Fin (-63), Fin 23)).
Proof.
  eexists. split; [reflexivity|].
  pose proof (forecast_first_line_wraps example_forecast_track _ eq_refl)
    as (Hfirst & Hnext & Hpoint).
  split; [|split].
  - apply Hfirst; reflexivity.
  - apply (Hnext 0%nat); reflexivity.
  - apply (Hpoint 2%nat); reflexivity.
Defined.

(** ** The trace of [run_live_inference] *)

Section Statements.

Context {A B : Type}.

Lemma only_prints_ret (a : A) : only_prints (ret a).
Proof.
  intros s. exists []. simpl. rewrite app_nil_r.
  split; [done|apply not_elem_of_nil].
Qed.

Lemma only_prints_lift (r : pyresult A) : only_prints (lift r).
Proof.
  intros s. exists []. simpl. rewrite app_nil_r.
  split; [done|apply not_elem_of_nil].
Qed.

Lemma only_prints_bind (m : M A) (k : A -> M B) :
  only_prints m -> (forall a, only_prints (k a)) -> only_prints (bind m k).
Proof.
  intros Hm Hk s. unfold bind.
  destruct (Hm s) as (lines & Htrace & Hlines).
  destruct (m s) as [s' [a|e]]; simpl in Htrace.
  - destruct (Hk a s') as (lines' & Htrace' & Hlines').
    exists (lines ++ lines'). rewrite Htrace', Htrace, fmap_app, app_assoc.
    split; [done|]. rewrite elem_of_app. tauto.
  - by exists lines.
Qed.

Lemma keeps_model_ret (a : A) : keeps_model (ret a).
Proof. done. Qed.

Lemma keeps_model_lift (r : pyresult A) : keeps_model (lift r).
Proof. done. Qed.

Lemma keeps_model_bind (m : M A) (k : A -> M B) :
  keeps_model m -> (forall a, keeps_model (k a)) -> keeps_model (bind m k).
Proof.
  intros Hm Hk s. unfold bind. specialize (Hm s).
  destruct (m s) as [s' [a|e]]; simpl in Hm; [|done].
  by rewrite Hk.
Qed.

End Statements.

Lemma only_prints_print (p : Printed) : p <> PUnknown -> only_prints (print p).
Proof.
  intros Hp s. exists [p]. split; [done|].
  intros Hin. by apply list_elem_of_singleton in Hin.
Qed.

Lemma only_prints_load_result (v : ResultVar) : only_prints (load_result v).
Proof.
  intros s. exists []. unfold load_result.
  destruct (get_result v s); simpl; rewrite app_nil_r;
    (split; [done|apply not_elem_of_nil]).
Qed.

Lemma only_prints_store_result (v : ResultVar) (l : list (list pyval)) :
  only_prints (store_result v l).
Proof.
  intros s. exists []. destruct v; simpl; rewrite app_nil_r;
    (split; [done|apply not_elem_of_nil]).
Qed.

Lemma only_prints_assign_model (m : ModelVar) : only_prints (assign_model m).
Proof.
  intros s. exists []. simpl. rewrite app_nil_r.
  split; [done|apply not_elem_of_nil].
Qed.

Lemma only_prints_for_each {A} (l : list A) (body : A -> M unit) :
  (forall x, only_prints (body x)) -> only_prints (for_each l body).
Proof.
  intros Hbody. induction l as [|x l IH]; cbn [for_each].
  - apply only_prints_ret.
  - by apply only_prints_bind.
Qed.

Lemma keeps_model_print (p : Printed) : keeps_model (print p).
Proof. done. Qed.

Lemma keeps_model_load_result (v : ResultVar) : keeps_model (load_result v).
Proof. intros s. unfold load_result. by destruct (get_result v s). Qed.

Lemma keeps_model_store_result (v : ResultVar) (l : list (list pyval)) :
  keeps_model (store_result v l).
Proof. intros s. by destruct v. Qed.

Ltac only_prints :=
  repeat first
    [ apply only_prints_bind; [|intros ?]
    | apply only_prints_ret
    | apply only_prints_lift
    | apply only_prints_load_result
    | apply only_prints_store_result
    | apply only_prints_assign_model
    | apply only_prints_print; discriminate ].

Ltac keeps_model :=
  repeat first
    [ apply keeps_model_bind; [|intros ?]
    | apply keeps_model_ret
    | apply keeps_model_lift
    | apply keeps_model_load_result
    | apply keeps_model_store_result
    | apply keeps_model_print ].

Lemma only_prints_universal_day c result day :
  only_prints (universal_day c result day).
Proof. unfold universal_day, append_sparse, print_descaled. only_prints. Qed.

Lemma only_prints_singular_day c model_type result day :
  only_prints (singular_day c model_type result day).
Proof.
  unfold singular_day, append_sparse, print_descaled.
  destruct (String.eqb model_type "wind"); [only_prints|].
  destruct (String.eqb model_type "lat"); only_prints.
Qed.

(** What the loop body adds to the trace for one storm, whatever the
    model, the scaler and the locals do. *)
Lemma storm_body_trace c model_type storm s :
  exists evs,
    trace (storm_body c model_type 5 storm s).1 = trace s ++ evs
    /\ (EPrint PUnknown ∉ evs)
    /\ predict_calls evs
       `prefix_of` (if long_enough storm then [due_call storm] else [])
    /\ ((storm_body c model_type 5 storm s).2 = Ok tt ->
        predict_calls evs
        = if long_enough storm then [due_call storm] else []).
Proof.
  set (name := folder_name (metadata storm)).
  assert (EPrint PUnknown ∉ [EPrint (PRunning name)]) as Hrunning.
  { intros Hin. by apply list_elem_of_singleton in Hin. }
  destruct (storm_body c model_type 5 storm s) as [s' out] eqn:Hbody.
  cbn [fst snd]. revert Hbody.
  unfold storm_body, long_enough. fold name.
  unfold bind at 1, print at 1, emit. unfold bind at 1, lift.
  destruct (entries storm) as [|o l] eqn:Hentries.
  { rewrite prep_hurricane_data_empty. intros [= <- <-].
    exists [EPrint (PRunning name)]. repeat split; done. }
  rewrite <- Hentries.
  rewrite prep_hurricane_data_nonempty by (by rewrite Hentries).
  destruct (length (entries storm) <=? 5)%nat; cbn [negb].
  { intros [= <- <-].
    exists [EPrint (PRunning name); EPrint (PNotEnough name)].
    cbn [log trace]. rewrite <- app_assoc.
    repeat split; try done.
    intros Hin. apply elem_of_cons in Hin as [[=]|Hin].
    by apply list_elem_of_singleton in Hin. }
  unfold bind at 1, call_predict. cbn [model log].
  destruct (model s).
  2:{ intros [= <- <-]. exists [EPrint (PRunning name)].
      repeat split; try done. apply prefix_nil. }
  fold (due_call storm).
  destruct (predict c (due_call storm).1 5) as [result|e] eqn:Hpredict;
    unfold due_call in Hpredict; cbn [fst] in Hpredict; rewrite Hpredict.
  2:{ intros [= <- <-].
      exists [EPrint (PRunning name); EPredict (due_call storm).1 5].
      cbn [log trace]. rewrite <- app_assoc.
      repeat split; try done.
      intros Hin. apply elem_of_cons in Hin as [[=]|Hin].
      by apply list_elem_of_singleton in Hin. }
  match goal with
  | |- bind ?m ?k ?s1 = _ -> _ =>
      assert (only_prints (bind m k)) as Hrest;
        [|destruct (Hrest s1) as (lines & Htrace & Hlines)]
  end.
  { apply only_prints_bind; [apply only_prints_print; discriminate|].
    intros _. destruct (String.eqb model_type "universal"); cbn [negb].
    - apply only_prints_for_each, only_prints_universal_day.
    - apply only_prints_for_each, only_prints_singular_day. }
  intros Hbody. rewrite Hbody in Htrace. cbn [fst log trace] in Htrace.
  exists ([EPrint (PRunning name); EPredict (due_call storm).1 5]
          ++ (EPrint <$> lines)).
  rewrite Htrace, <- !app_assoc.
  split; [done|]. split.
  { rewrite elem_of_app. intros [Hin|Hin].
    - apply elem_of_cons in Hin as [[=]|Hin].
      by apply list_elem_of_singleton in Hin.
    - by apply unknown_not_printed in Hin. }
  rewrite predict_calls_app, predict_calls_prints. done.
Qed.

(** X13.  Whatever the model, the scaler and the locals do, the storm
    loop of [run_live_inference] calls [model.predict] only for storms with
    more than five entries, in the order of the feed, at most once per
    storm, each time with a lag of 5 and the feature table of that storm's
    entries; a loop that ends normally has called it for every such storm.
    The [Unknown type of model] line of the last [else] is never
    printed. *)
Theorem predict_once_per_long_storm
    (c : Collaborators) (model_type : string) (storms : list Storm)
    (s : Locals) :
  let run := for_each storms (storm_body c model_type 5) s in
  let due :=
    due_call <$> filter (fun storm => long_enough storm = true) storms in
  exists evs,
    trace run.1 = trace s ++ evs
    /\ (EPrint PUnknown ∉ evs)
    /\ predict_calls evs `prefix_of` due
    /\ (run.2 = Ok tt -> predict_calls evs = due).
Proof.
  cbn zeta. revert s.
  induction storms as [|storm rest IH]; intros s.
  { exists []. cbn. rewrite app_nil_r. repeat split; try done.
    apply not_elem_of_nil. }
  cbn [for_each]. unfold bind.
  destruct (storm_body_trace c model_type storm s)
    as (evs & Htrace & Hunknown & Hprefix & Hcalls).
  assert (due_call <$> filter (fun storm => long_enough storm = true)
                              (storm :: rest)
          = (if long_enough storm then [due_call storm] else [])
            ++ (due_call
                  <$> filter (fun storm => long_enough storm = true) rest))
    as ->.
  { rewrite filter_cons. destruct (long_enough storm) eqn:Hlong.
    - by rewrite decide_True.
    - by rewrite decide_False. }
  destruct (storm_body c model_type 5 storm s) as [s' [[]|e]];
    cbn [fst snd] in *.
  - destruct (IH s') as (evs' & Htrace' & Hunknown' & Hprefix' & Hcalls').
    exists (evs ++ evs'). rewrite Htrace', Htrace, app_assoc.
    split; [done|]. split; [rewrite elem_of_app; tauto|].
    rewrite predict_calls_app, Hcalls by done.
    split; [by apply prefix_app|].
    intros Hok. by rewrite Hcalls'.
  - exists evs. repeat split; try done.
    by apply prefix_app_r.
Qed.

Lemma predict_once_per_long_storm_witness :
  let run :=
    for_each [nhc_storm short_folder; nhc_storm long_folder]
      (storm_body example_collaborators "universal" 5)
      (before_loop "universal") in
  run.2 = Ok tt
  /\ predict_calls (trace run.1) = [due_call (nhc_storm long_folder)].
Proof.
  cbn zeta.
  destruct (predict_once_per_long_storm example_collaborators "universal"
              [nhc_storm short_folder; nhc_storm long_folder]
              (before_loop "universal"))
    as (evs & Htrace & _ & _ & Hcalls).
  split; [vm_compute; reflexivity|].
  rewrite Htrace, predict_calls_app. cbn [before_loop trace].
  rewrite Hcalls by (vm_compute; reflexivity). reflexivity.
Defined.

(** ** The singular branch *)

Lemma singular_day_wind c result day x v s :
  0 <= day -> result !! Z.to_nat day = Some x -> descales c 2 x v ->
  singular_day c "wind" result day s
  = (log (EPrint (PResult (day + 1) "singular" "wind" v))
       (set_result WindResult [<[2%nat := x]> (zeros 11)] s),
     Ok tt).
Proof.
  intros Hday Hx (inv & row & Hinv & Hrow & Hv).
  unfold singular_day. change (String.eqb "wind" "wind") with true. cbv iota.
  unfold append_sparse, print_descaled.
  rewrite (py_getitem_lookup result day x) by done.
  unfold bind, store_result, load_result, lift, print, emit.
  cbn [get_result set_result log wind_result lat_result long_result app].
  rewrite (sparse_vector_11 2) by lia.
  cbn [get_result set_result log wind_result lat_result long_result app].
  change (Z.to_nat 2) with 2%nat.
  rewrite Hinv, (py_getitem_lookup inv 0 row), (py_getitem_lookup row 2 v)
    by (done || lia).
  reflexivity.
Qed.

Lemma singular_day_long c result day x v s :
  0 <= day -> result !! Z.to_nat day = Some x -> descales c 1 x v ->
  singular_day c "long" result day s
  = (log (EPrint (PResult (day + 1) "singular" "long" v))
       (set_result LongResult [<[1%nat := x]> (zeros 11)]
          (set_model (ModelStr "long") s)),
     Ok tt).
Proof.
  intros Hday Hx (inv & row & Hinv & Hrow & Hv).
  unfold singular_day. change (String.eqb "long" "wind") with false.
  change (String.eqb "long" "lat") with false. cbv iota.
  unfold append_sparse, print_descaled.
  rewrite (py_getitem_lookup result day x) by done.
  unfold bind, store_result, load_result, lift, print, emit, assign_model.
  cbn [get_result set_result set_model log wind_result lat_result long_result
       app].
  rewrite (sparse_vector_11 1) by lia.
  cbn [get_result set_result set_model log wind_result lat_result long_result
       app].
  change (Z.to_nat 1) with 1%nat.
  rewrite Hinv, (py_getitem_lookup inv 0 row), (py_getitem_lookup row 1 v)
    by (done || lia).
  reflexivity.
Qed.

(** The loop body on a storm that is not skipped, with the model object
    still in [model]. *)
Lemma storm_body_singular c model_type storm s :
  String.eqb model_type "universal" = false ->
  long_enough storm = true -> model s = ModelObject ->
  storm_body c model_type 5 storm s
  = match predict c (due_call storm).1 5 with
    | Ok result =>
        for_each (range 3) (singular_day c model_type result)
          (log (EPrint PSeparator)
             (log (EPredict (due_call storm).1 5)
                (log (EPrint (PRunning (folder_name (metadata storm)))) s)))
    | Raise e =>
        (log (EPredict (due_call storm).1 5)
           (log (EPrint (PRunning (folder_name (metadata storm)))) s),
         Raise e)
    end.
Proof.
  unfold long_enough. intros Htype Hlong Hmodel.
  unfold storm_body, bind at 1 2, print, emit, lift.
  rewrite prep_hurricane_data_nonempty
    by (intros Hnil; by rewrite Hnil in Hlong).
  destruct (length (entries storm) <=? 5)%nat; [done|].
  unfold bind at 1, call_predict. cbn [model log]. rewrite Hmodel.
  unfold due_call. cbn [fst].
  destruct (predict c _ 5); [|done].
  unfold bind at 1. by rewrite Htype.
Qed.

(** Once [model] is a string, the next storm that is not skipped ends the
    run: a string has no [predict]. *)
Lemma storm_body_model_str c model_type storm s x :
  long_enough storm = true -> model s = ModelStr x ->
  storm_body c model_type 5 storm s
  = (log (EPrint (PRunning (folder_name (metadata storm)))) s,
     Raise AttributeError).
Proof.
  unfold long_enough. intros Hlong Hmodel.
  unfold storm_body, bind at 1 2, print, emit, lift.
  rewrite prep_hurricane_data_nonempty
    by (intros Hnil; by rewrite Hnil in Hlong).
  destruct (length (entries storm) <=? 5)%nat; [done|].
  unfold bind at 1, call_predict. cbn [model log]. by rewrite Hmodel.
Qed.

Lemma singular_day_long_model c result day s :
  model (singular_day c "long" result day s).1 = ModelStr "long".
Proof.
  unfold singular_day. change (String.eqb "long" "wind") with false.
  change (String.eqb "long" "lat") with false. cbv iota.
  unfold bind at 1, assign_model.
  match goal with
  | |- model (?m ?s').1 = _ =>
      assert (keeps_model m) as Hkeeps; [|by rewrite Hkeeps]
  end.
  unfold append_sparse, print_descaled. keeps_model.
Qed.

Lemma for_each_long_model c result days s :
  model s = ModelStr "long" ->
  model (for_each days (singular_day c "long" result) s).1 = ModelStr "long".
Proof.
  revert s. induction days as [|day days IH]; intros s Hmodel; [done|].
  cbn [for_each]. unfold bind.
  pose proof (singular_day_long_model c result day s) as Hday.
  destruct (singular_day c "long" result day s) as [s' [[]|e]]; [|done].
  by apply IH.
Qed.

Lemma storm_body_long_model c storm s s' :
  long_enough storm = true -> model s = ModelObject ->
  storm_body c "long" 5 storm s = (s', Ok tt) ->
  model s' = ModelStr "long".
Proof.
  intros Hlong Hmodel. rewrite storm_body_singular by done.
  destruct (predict c _ 5) as [result|e]; [|done].
  change (range 3) with [0; 1; 2]. cbn [for_each]. unfold bind at 1.
  match goal with
  | |- context [singular_day c "long" result 0 ?s0] =>
      pose proof (singular_day_long_model c result 0 s0) as Hday;
      destruct (singular_day c "long" result 0 s0) as [s1 [[]|e]]; [|done]
  end.
  intros Hrest.
  change (model (for_each [1; 2] (singular_day c "long" result) s1).1
          = ModelStr "long") in Hrest || idtac.
  pose proof (for_each_long_model c result [1; 2] s1 Hday) as Hloop.
  cbn [for_each] in Hloop. by rewrite Hrest in Hloop.
Qed.

(** The longitude branch with [model] already a string. *)
Lemma long_loop_after c storms :
  forall s x,
    Forall (fun storm => entries storm <> []) storms ->
    model s = ModelStr x ->
    let r := for_each storms (storm_body c "long" 5) s in
    predict_calls (trace r.1) = predict_calls (trace s)
    /\ filter (fun ev => is_result_print ev = true) (trace r.1)
       = filter (fun ev => is_result_print ev = true) (trace s)
    /\ model r.1 = ModelStr x
    /\ (filter (fun storm => long_enough storm = true) storms = [] ->
        r.2 = Ok tt)
    /\ (filter (fun storm => long_enough storm = true) storms <> [] ->
        r.2 = Raise AttributeError).
Proof.
  induction storms as [|storm rest IH]; intros s x Hne Hmodel; [done|].
  apply Forall_cons in Hne as [Hne Hrest].
  cbn zeta. cbn [for_each]. unfold bind. rewrite filter_cons.
  destruct (long_enough storm) eqn:Hlong.
  - rewrite (storm_body_model_str c "long" storm s x) by done.
    rewrite decide_True by done. cbn [fst snd].
    rewrite predict_calls_log_print, result_prints_log by done. done.
  - rewrite storm_body_short by (done || by apply short_not_long_enough).
    rewrite decide_False by done.
    destruct (IH (log (EPrint (PNotEnough (folder_name (metadata storm))))
                    (log (EPrint (PRunning (folder_name (metadata storm))))
                       s)) x Hrest Hmodel)
      as (Hcalls & Hresults & Hmodel' & Hok & Hraise).
    rewrite Hcalls, Hresults, !predict_calls_log_print, !result_prints_log
      by done.
    done.
Qed.

(** The longitude branch from the start of the storm loop. *)
Lemma long_loop_before c storms :
  forall s,
    Forall (fun storm => entries storm <> []) storms ->
    model s = ModelObject ->
    let r := for_each storms (storm_body c "long" 5) s in
    (length (predict_calls (trace r.1))
     <= length (predict_calls (trace s)) + 1)%nat
    /\ (r.2 = Ok tt ->
        (length (filter (fun storm => long_enough storm = true) storms)
         <= 1)%nat).
Proof.
  induction storms as [|storm rest IH]; intros s Hne Hmodel.
  { cbn. split; lia. }
  apply Forall_cons in Hne as [Hne Hrest].
  cbn zeta. cbn [for_each]. unfold bind. rewrite filter_cons.
  destruct (long_enough storm) eqn:Hlong.
  - rewrite decide_True by done.
    destruct (storm_body_trace c "long" storm s)
      as (evs & Htrace & _ & Hprefix & _).
    rewrite Hlong in Hprefix. apply prefix_length in Hprefix.
    cbn [length] in Hprefix.
    pose proof (storm_body_long_model c storm s) as Hafter.
    destruct (storm_body c "long" 5 storm s) as [s' [[]|e]];
      cbn [fst snd] in *.
    + specialize (Hafter s' Hlong Hmodel eq_refl).
      destruct (long_loop_after c rest s' "long" Hrest Hafter)
        as (Hcalls & _ & _ & _ & Hraise).
      rewrite Hcalls, Htrace, predict_calls_app, length_app.
      split; [lia|]. intros Hok.
      destruct (filter (fun storm => long_enough storm = true) rest);
        [done|].
      rewrite Hraise in Hok; done.
    + rewrite Htrace, predict_calls_app, length_app. split; [lia|done].
  - rewrite storm_body_short by (done || by apply short_not_long_enough).
    rewrite decide_False by done.
    destruct (IH (log (EPrint (PNotEnough (folder_name (metadata storm))))
                    (log (EPrint (PRunning (folder_name (metadata storm))))
                       s)) Hrest Hmodel) as (Hcalls & Hok).
    rewrite !predict_calls_log_print in Hcalls. done.
Qed.

(** The longitude branch with a model and a scaler that always answer:
    the first storm that is not skipped is forecast, the second ends the
    run. *)
Lemma long_loop_second c storms :
  (forall df, exists result,
     predict c df 5 = Ok result /\ (3 <= length result)%nat) ->
  (forall x, exists v, descales c 1 x v) ->
  forall s,
    Forall (fun storm => entries storm <> []) storms ->
    model s = ModelObject ->
    (2 <= length (filter (fun storm => long_enough storm = true) storms))%nat ->
    let r := for_each storms (storm_body c "long" 5) s in
    r.2 = Raise AttributeError
    /\ length (predict_calls (trace r.1))
       = S (length (predict_calls (trace s)))
    /\ length (filter (fun ev => is_result_print ev = true) (trace r.1))
       = (length (filter (fun ev => is_result_print ev = true) (trace s))
          + 3)%nat
    /\ model r.1 = ModelStr "long".
Proof.
  intros Hpredict Hscaler.
  induction storms as [|storm rest IH]; intros s Hne Hmodel Htwo.
  { cbn in Htwo. lia. }
  apply Forall_cons in Hne as [Hne Hrest].
  cbn zeta. cbn [for_each]. unfold bind. rewrite filter_cons in Htwo.
  destruct (long_enough storm) eqn:Hlong.
  - rewrite decide_True in Htwo by done. cbn [length] in Htwo.
    rewrite storm_body_singular by done.
    destruct (Hpredict (due_call storm).1) as (result & -> & Hlen).
    destruct result as [|x0 [|x1 [|x2 result]]]; cbn [length] in Hlen;
      try lia.
    destruct (Hscaler x0) as (v0 & Hv0).
    destruct (Hscaler x1) as (v1 & Hv1).
    destruct (Hscaler x2) as (v2 & Hv2).
    change (range 3) with [0; 1; 2]. cbn [for_each]. unfold bind, ret.
    rewrite (singular_day_long c _ 0 x0 v0) by (done || lia).
    rewrite (singular_day_long c _ 1 x1 v1) by (done || lia).
    rewrite (singular_day_long c _ 2 x2 v2) by (done || lia).
    match goal with
    | |- context [for_each rest _ ?s'] =>
        destruct (long_loop_after c rest s' "long" Hrest eq_refl)
          as (Hcalls & Hresults & Hmodel' & _ & Hraise)
    end.
    rewrite Hcalls, Hresults, Hmodel', Hraise
      by (destruct (filter _ rest); [cbn in Htwo; lia|done]).
    repeat first
      [ rewrite result_prints_log_result
      | rewrite predict_calls_log_print
      | rewrite predict_calls_log_predict
      | rewrite trace_set_result
      | rewrite trace_set_model
      | rewrite result_prints_log by done ].
    rewrite !length_app. cbn [length]. repeat split; lia.
  - rewrite decide_False in Htwo by done.
    rewrite storm_body_short by (done || by apply short_not_long_enough).
    destruct (IH (log (EPrint (PNotEnough (folder_name (metadata storm))))
                    (log (EPrint (PRunning (folder_name (metadata storm))))
                       s)) Hrest Hmodel Htwo)
      as (Hout & Hcalls & Hresults & Hmodel').
    rewrite Hout, Hcalls, Hresults, Hmodel'.
    rewrite !predict_calls_log_print, !result_prints_log by done.
    done.
Qed.

(** X14.  A singular longitude model forecasts at most one storm per run.
    The longitude branch rebinds the local [model] to the string
    ['long'], so from a loop entered with the model object in [model],
    [model.predict] is called at most once, and a loop that ends normally
    met at most one storm with more than five entries.  With a model and a
    scaler that always answer, a list with two or more such storms ends
    the loop in an [AttributeError] at the second one, after the three
    longitude values of the first have been printed.  The storms have an
    entry each, as [nhc] builds them. *)
Theorem long_model_one_forecast
    (c : Collaborators) (root : Hyperparameters) (storms : list Storm)
    (s : Locals) :
  select_model_type root = "long" ->
  model s = ModelObject ->
  Forall (fun storm => entries storm <> []) storms ->
  let run := for_each storms (storm_body c (select_model_type root) 5) s in
  let long_storms := filter (fun storm => long_enough storm = true) storms in
  (length (predict_calls (trace run.1))
   <= length (predict_calls (trace s)) + 1)%nat
  /\ (run.2 = Ok tt -> (length long_storms <= 1)%nat)
  /\ ((forall df, exists result,
         predict c df 5 = Ok result /\ (3 <= length result)%nat) ->
      (forall x, exists v, descales c 1 x v) ->
      (2 <= length long_storms)%nat ->
      run.2 = Raise AttributeError
      /\ length (predict_calls (trace run.1))
         = S (length (predict_calls (trace s)))
      /\ length (filter (fun ev => is_result_print ev = true) (trace run.1))
         = (length (filter (fun ev => is_result_print ev = true) (trace s))
            + 3)%nat
      /\ model run.1 = ModelStr "long").
Proof.
  intros -> Hmodel Hne run long_storms. subst run long_storms.
  destruct (long_loop_before c storms s Hne Hmodel) as (Hcalls & Hok).
  split; [exact Hcalls|]. split; [exact Hok|].
  intros Hpredict Hscaler Htwo.
  exact (long_loop_second c storms Hpredict Hscaler s Hne Hmodel Htwo).
Qed.

Lemma long_model_one_forecast_witness :
  let run :=
    for_each [nhc_storm long_folder; nhc_storm short_folder;
              nhc_storm second_long_folder]
      (storm_body singular_collaborators "long" 5) (before_loop "long") in
  run.2 = Raise AttributeError
  /\ length (predict_calls (trace run.1)) = 1%nat
  /\ length (filter (fun ev => is_result_print ev = true) (trace run.1))
     = 3%nat
  /\ model run.1 = ModelStr "long".
Proof.
  apply (proj2 (proj2 (long_model_one_forecast singular_collaborators
                         long_root
                         [nhc_storm long_folder; nhc_storm short_folder;
                          nhc_storm second_long_folder]
                         (before_loop "long") eq_refl eq_refl
                         ltac:(repeat constructor; discriminate)))).
  - intros df. eexists. split; [reflexivity|]. simpl. lia.
  - intros x. exists (match x with Num y => y | Arr _ => NaN end).
    eexists _, _. split; [reflexivity|]. split; reflexivity.
  - vm_compute. lia.
Defined.

(** X15.  With a singular wind model, a storm that is not skipped is
    forecast for three days: the model is called once, and for each of the
    days 0, 1, 2 the day's output is placed at index 2 of an 11-slot zero
    vector and the entry at index 2 of the first inverse-transformed row
    is printed as day 1, 2, 3.  [wind_result] is emptied every day, so it
    ends holding the third day's vector only; no other local changes. *)
Theorem singular_wind_outputs_descaled
    (c : Collaborators) (root : Hyperparameters) (storm : Storm) (s : Locals)
    (result : list pyval) (vs : list pyfloat) :
  select_model_type root = "wind" ->
  long_enough storm = true ->
  model s = ModelObject ->
  predict c (due_call storm).1 5 = Ok result ->
  length vs = 3%nat ->
  Forall2 (descales c 2) (take 3 result) vs ->
  exists s',
    storm_body c (select_model_type root) 5 storm s = (s', Ok tt)
    /\ trace s'
       = trace s
         ++ [EPrint (PRunning (folder_name (metadata storm)));
             EPredict (due_call storm).1 5;
             EPrint PSeparator]
         ++ (EPrint
               <$> imap (fun day v =>
                           PResult (Z.of_nat day + 1) "singular" "wind" v)
                        vs)
    /\ wind_result s'
       = (fun x => [<[2%nat := x]> (zeros 11)]) <$> result !! 2%nat
    /\ lat_result s' = lat_result s
    /\ long_result s' = long_result s
    /\ model s' = ModelObject.
Proof.
  intros -> Hlong Hmodel Hpredict Hlen Hvs.
  rewrite storm_body_singular, Hpredict by done.
  destruct vs as [|v0 [|v1 [|v2 [|]]]]; try done.
  destruct result as [|x0 [|x1 [|x2 result]]];
    try (apply Forall2_length in Hvs; done).
  cbn [take] in Hvs.
  apply Forall2_cons in Hvs as [Hv0 Hvs].
  apply Forall2_cons in Hvs as [Hv1 Hvs].
  apply Forall2_cons in Hvs as [Hv2 _].
  change (range 3) with [0; 1; 2]. cbn [for_each]. unfold bind, ret.
  rewrite (singular_day_wind c _ 0 x0 v0) by (done || lia).
  rewrite (singular_day_wind c _ 1 x1 v1) by (done || lia).
  rewrite (singular_day_wind c _ 2 x2 v2) by (done || lia).
  eexists. split; [reflexivity|].
  cbn [set_result log trace wind_result lat_result long_result model].
  rewrite <- !app_assoc. done.
Qed.

Lemma singular_wind_outputs_descaled_witness :
  exists s',
    storm_body singular_collaborators "wind" 5 (nhc_storm long_folder)
               (before_loop "wind") = (s', Ok tt)
    /\ printed (trace s')
       = [PModelType "wind"; PRunning "BETA"; PSeparator;
          PResult 1 "singular" "wind" (Fin 0.42);
          PResult 2 "singular" "wind" (Fin 0.43);
          PResult 3 "singular" "wind" (Fin 0.44)]
    /\ wind_result s' = Some [<[2%nat := Num (Fin 0.44)]> (zeros 11)].
Proof.
  destruct (singular_wind_outputs_descaled singular_collaborators wind_root
              (nhc_storm long_folder) (before_loop "wind")
              [Num (Fin 0.42); Num (Fin 0.43); Num (Fin 0.44)]
              [Fin 0.42; Fin 0.43; Fin 0.44])
    as (s' & Hbody & Htrace & Hwind & _).
  - reflexivity.
  - reflexivity.
  - reflexivity.
  - reflexivity.
  - reflexivity.
  - repeat constructor; eexists _, _; (split; [reflexivity|]);
      split; reflexivity.
  - exists s'. split; [exact Hbody|]. split; [|exact Hwind].
    rewrite Htrace. reflexivity.
Defined.

(** ** The forecast days that are read *)









(** ** Runs without a forecast *)

Lemma short_storm_loop c model_type storms :
  forall s,
    Forall (fun storm => entries storm <> []) storms ->
    Forall (fun storm => long_enough storm = false) storms ->
    exists s',
      for_each storms (storm_body c model_type 5) s = (s', Ok tt)
      /\ trace s'
         = trace s
           ++ (EPrint
                 <$> concat
                       ((fun storm =>
                           [PRunning (folder_name (metadata storm));
                            PNotEnough (folder_name (metadata storm))])
                          <$> storms))
      /\ model s' = model s
      /\ wind_result s' = wind_result s
      /\ lat_result s' = lat_result s
      /\ long_result s' = long_result s.
Proof.
  induction storms as [|storm rest IH]; intros s Hne Hshort.
  { exists s. cbn. by rewrite app_nil_r. }
  apply Forall_cons in Hne as [Hne Hrest].
  apply Forall_cons in Hshort as [Hshort Hshorts].
  cbn [for_each]. unfold bind.
  rewrite storm_body_short by (done || by apply short_not_long_enough).
  destruct (IH (log (EPrint (PNotEnough (folder_name (metadata storm))))
                  (log (EPrint (PRunning (folder_name (metadata storm)))) s))
              Hrest Hshorts)
    as (s' & -> & Htrace & Hmodel & Hwind & Hlat & Hlong).
  exists s'. split; [done|]. rewrite Htrace.
  cbn [log trace]. rewrite fmap_cons. cbn [concat].
  rewrite fmap_app, <- !app_assoc. done.
Qed.

(** X17.  A storm loop with nothing to forecast.  When every storm has
    at most five entries (and an entry at all, as [nhc] builds them), the
    storm loop of [run_live_inference] ends normally from any locals: it
    prints two lines per storm, [Running inference for] and [does not
    have enough data], in the order of the storms, never calls the model,
    and leaves [model] and the three result lists as they were. *)
Theorem run_without_forecast
    (c : Collaborators) (model_type : string) (storms : list Storm)
    (s : Locals) :
  Forall (fun storm => entries storm <> []) storms ->
  Forall (fun storm => long_enough storm = false) storms ->
  let run := for_each storms (storm_body c model_type 5) s in
  run.2 = Ok tt
  /\ trace run.1
     = trace s
       ++ (EPrint
             <$> concat
                   ((fun storm =>
                       [PRunning (folder_name (metadata storm));
                        PNotEnough (folder_name (metadata storm))])
                      <$> storms))
  /\ predict_calls (trace run.1) = predict_calls (trace s)
  /\ model run.1 = model s
  /\ wind_result run.1 = wind_result s
  /\ lat_result run.1 = lat_result s
  /\ long_result run.1 = long_result s.
Proof.
  intros Hne Hshort run. subst run.
  destruct (short_storm_loop c model_type storms s Hne Hshort)
    as (s' & Hrun & Htrace & Hmodel & Hwind & Hlat & Hlong).
  rewrite Hrun. cbn [fst snd].
  rewrite Htrace, predict_calls_app, predict_calls_prints, app_nil_r.
  done.
Qed.

Lemma run_without_forecast_witness :
  let run :=
    for_each [nhc_storm short_folder]
      (storm_body example_collaborators "universal" 5)
      (before_loop "universal") in
  run.2 = Ok tt
  /\ printed (trace run.1)
     = [PModelType "universal"; PRunning "ALPHA"; PNotEnough "ALPHA"]
  /\ predict_calls (trace run.1) = [].
Proof.
  destruct (run_without_forecast example_collaborators "universal"
              [nhc_storm short_folder] (before_loop "universal"))
    as (Hok & Htrace & Hcalls & _).
  - repeat constructor; discriminate.
  - repeat constructor.
  - cbn zeta. split; [exact Hok|]. split; [|exact Hcalls].
    rewrite Htrace. reflexivity.
Defined.

(** ** The call as a whole *)


(** ** The tables of [test.py], read back *)

Section TableRows.

Import TestPy.

Lemma at_index_inv {A} (l : list A) (index : nat) (x : A) :
  at_index l index = Ok x -> l !! index = Some x.
Proof.
  unfold at_index, py_getitem.
  destruct (Z.ltb_spec (Z.of_nat index) 0); [lia|].
  destruct (_ && _); [|done]. rewrite Nat2Z.id.
  destruct (l !! index); [|done]. by intros [= ->].
Qed.

Lemma at_index_raises {A} (l : list A) (index : nat) (e : exn) :
  at_index l index = Raise e -> e = IndexError.
Proof. apply py_getitem_raises. Qed.

Lemma by_storm_inv (p q : Prediction) (storm_id : string) :
  by_storm p storm_id = Ok q -> q = p /\ storm_key p = storm_id.
Proof.
  unfold by_storm. destruct (String.eqb_spec (storm_key p) storm_id); [|done].
  by intros [= ->].
Qed.

Lemma by_storm_raises (p : Prediction) (storm_id : string) (e : exn) :
  by_storm p storm_id = Raise e -> e = KeyError.
Proof.
  unfold by_storm. destruct (String.eqb _ _); [done|]. by intros [= ->].
Qed.

Lemma dict_get_raises {K V} `{Countable K} (d : gmap K V) (k : K) (e : exn) :
  dict_get d k = Raise e -> e = KeyError.
Proof. unfold dict_get. destruct (d !! k); [done|]. by intros [= ->]. Qed.

Lemma entries_get_None (d : list (Z * TrackEntry)) (k : Z) :
  k ∉ keys d -> entries_get d k = None.
Proof.
  unfold entries_get, keys. induction d as [|[k' v] d IH]; [done|].
  rewrite fmap_cons, not_elem_of_cons. intros [Hne Hd].
  cbn [List.find fst]. destruct (Z.eqb_spec k k'); [done|]. by apply IH.
Qed.

(** What a row that was built says. *)
Lemma table_row_inv distance (u s : Prediction) (storm : Hurricane)
    (deltas : list Z) (index : nat) (t : Z) (row : TableRow) :
  table_row distance u s storm deltas index t = Ok row ->
  time row = t
  /\ deltas !! index = Some (delta row)
  /\ storm_key s = id storm
  /\ storm_key u = id storm
  /\ wind (forecast s) !! index = Some (Mpredict_Wind row)
  /\ f_lat (forecast s) !! index = Some (Mpredict_Lat row)
  /\ lon (forecast s) !! index = Some (Mpredict_Lon row)
  /\ wind (forecast u) !! index = Some (Upredict_Wind row)
  /\ f_lat (forecast u) !! index = Some (Upredict_Lat row)
  /\ lon (forecast u) !! index = Some (Upredict_Lon row)
  /\ truth_columns distance storm row.
Proof.
  unfold table_row.
  destruct (at_index deltas index) as [d|] eqn:Hd; cbn [rbind]; [|done].
  destruct (by_storm s (id storm)) as [s'|] eqn:Hs; cbn [rbind]; [|done].
  apply by_storm_inv in Hs as [-> Hs].
  destruct (at_index (wind (forecast s)) index) as [mw|] eqn:Hmw;
    cbn [rbind]; [|done].
  destruct (at_index (f_lat (forecast s)) index) as [mla|] eqn:Hmla;
    cbn [rbind]; [|done].
  destruct (at_index (lon (forecast s)) index) as [mlo|] eqn:Hmlo;
    cbn [rbind]; [|done].
  destruct (by_storm u (id storm)) as [u'|] eqn:Hu; cbn [rbind]; [|done].
  apply by_storm_inv in Hu as [-> Hu].
  destruct (at_index (wind (forecast u)) index) as [uw|] eqn:Huw;
    cbn [rbind]; [|done].
  destruct (at_index (f_lat (forecast u)) index) as [ula|] eqn:Hula;
    cbn [rbind]; [|done].
  destruct (at_index (lon (forecast u)) index) as [ulo|] eqn:Hulo;
    cbn [rbind]; [|done].
  apply at_index_inv in Hd, Hmw, Hmla, Hmlo, Huw, Hula, Hulo.
  destruct (entries_get (entries storm) t) as [truth_entry|] eqn:Htruth;
    intros [= <-]; unfold truth_columns; cbn; rewrite Htruth; done.
Qed.

Lemma table_row_raises distance (u s : Prediction) (storm : Hurricane)
    (deltas : list Z) (index : nat) (t : Z) (e : exn) :
  table_row distance u s storm deltas index t = Raise e ->
  e = KeyError \/ e = IndexError.
Proof.
  unfold table_row.
  repeat
    match goal with
    | |- context [at_index ?l ?i] =>
        let H := fresh "H" in
        destruct (at_index l i) eqn:H; cbn [rbind];
          [|apply at_index_raises in H as ->; intros [= <-]; by right]
    | |- context [by_storm ?p ?i] =>
        let H := fresh "H" in
        destruct (by_storm p i) eqn:H; cbn [rbind];
          [|apply by_storm_raises in H as ->; intros [= <-]; by left]
    end.
  by destruct (entries_get _ _).
Qed.

Lemma table_rows_inv distance (u s : Prediction) (storm : Hurricane)
    (deltas : list Z) (ts : list Z) :
  forall index rows,
    table_rows distance u s storm deltas index ts = Ok rows ->
    length rows = length ts
    /\ (forall k row,
          rows !! k = Some row ->
          ts !! k = Some (time row)
          /\ table_row distance u s storm deltas (index + k) (time row)
             = Ok row).
Proof.
  induction ts as [|t ts IH]; intros index rows; cbn [table_rows].
  { intros [= <-]. split; [done|]. intros k row Hk. done. }
  destruct (table_row distance u s storm deltas index t) as [row|] eqn:Hrow;
    cbn [rbind]; [|done].
  destruct (table_rows distance u s storm deltas (S index) ts)
    as [rows'|] eqn:Hrows; cbn [rbind]; [|done].
  intros [= <-]. destruct (IH _ _ Hrows) as [Hlen Hat].
  split; [simpl; lia|]. intros [|k] row' Hk; simpl in Hk.
  - injection Hk as <-.
    destruct (table_row_inv _ _ _ _ _ _ _ _ Hrow) as (-> & _).
    by rewrite Nat.add_0_r.
  - replace (index + S k)%nat with (S index + k)%nat by lia.
    by apply Hat.
Qed.

Lemma table_rows_raises distance (u s : Prediction) (storm : Hurricane)
    (deltas : list Z) (ts : list Z) :
  forall index e,
    table_rows distance u s storm deltas index ts = Raise e ->
    e = KeyError \/ e = IndexError.
Proof.
  induction ts as [|t ts IH]; intros index e; cbn [table_rows]; [done|].
  destruct (table_row distance u s storm deltas index t) as [row|e'] eqn:Hrow;
    cbn [rbind].
  - destruct (table_rows distance u s storm deltas (S index) ts)
      as [rows'|e'] eqn:Hrows; cbn [rbind]; [done|].
    intros [= <-]. by apply (IH (S index)).
  - intros [= <-]. by apply table_row_raises in Hrow.
Qed.

Lemma dict_comprehension_raised {V} (value : Z -> pyresult V) (l : list Z)
    (e : exn) :
  foldl (fun (acc : pyresult (gmap Z V)) k =>
           (let? d := acc in
            let? v := value k in Ok (<[k := v]> d))%res)
        (Raise e) l
  = Raise e.
Proof. induction l as [|k l IH]; [done|exact IH]. Qed.

(** The first key whose value raises ends the comprehension with that
    exception. *)
Lemma dict_comprehension_first_raise {V} (value : Z -> pyresult V)
    (k : Z) (l : list Z) (e : exn) :
  value k = Raise e -> dict_comprehension value (k :: l) = Raise e.
Proof.
  intros Hk. unfold dict_comprehension. cbn [foldl rbind]. rewrite Hk.
  apply dict_comprehension_raised.
Qed.

Lemma dict_comprehension_inv {V} (value : Z -> pyresult V) (l : list Z) :
  (forall d,
     dict_comprehension value l = Ok d ->
     forall k, k ∈ l -> exists v, value k = Ok v)
  /\ (forall e,
        dict_comprehension value l = Raise e ->
        exists k, k ∈ l /\ value k = Raise e).
Proof.
  unfold dict_comprehension. generalize (∅ : gmap Z V).
  induction l as [|k l IH]; intros d0.
  { split; [|done]. intros d _ k Hk. by apply elem_of_nil in Hk. }
  cbn [foldl rbind]. destruct (value k) as [v|e'] eqn:Hk; cbn [rbind].
  - destruct (IH (<[k := v]> d0)) as [Hok Hraise]. split.
    + intros d Hd k' Hk'. apply elem_of_cons in Hk' as [->|Hk']; [eauto|].
      by apply (Hok d).
    + intros e He. destruct (Hraise e He) as (k' & Hk' & Hvalue).
      exists k'. split; [by right|done].
  - rewrite dict_comprehension_raised. split; [done|].
    intros e [= <-]. exists k. split; [by left|done].
Qed.

Lemma prediction_at_inv (predictions : BatchResult) (storm : string)
    (timestamp : Z) (p : Prediction) :
  prediction_at predictions storm timestamp = Ok p ->
  exists per_storm,
    predictions !! storm = Some per_storm
    /\ per_storm !! timestamp = Some (forecast p)
    /\ storm_key p = storm
    /\ times p = (fun hour => timestamp + hour * 3600) <$> output_times.
Proof.
  unfold prediction_at, dict_get.
  destruct (predictions !! storm) as [per_storm|]; cbn [rbind]; [|done].
  destruct (per_storm !! timestamp) as [f|] eqn:Hf; cbn [rbind]; [|done].
  intros [= <-]. by exists per_storm.
Qed.

Lemma prediction_at_raises (predictions : BatchResult) (storm : string)
    (timestamp : Z) (e : exn) :
  prediction_at predictions storm timestamp = Raise e -> e = KeyError.
Proof.
  unfold prediction_at, dict_get.
  destruct (predictions !! storm) as [per_storm|]; cbn [rbind];
    [|by intros [= <-]].
  destruct (per_storm !! timestamp); cbn [rbind]; [done|by intros [= <-]].
Qed.

(** What a table that was built says, and what it took to build it. *)
Lemma table_at_inv distance (universal : BatchResult)
    (singular : option BatchResult) (storm : string) (hurricane : Hurricane)
    (timestamp : Z) (table : list TableRow) :
  table_at distance universal singular storm hurricane timestamp = Ok table ->
  time <$> table = (fun hour => timestamp + hour * 3600) <$> output_times
  /\ delta <$> table = output_times
  /\ Forall (truth_columns distance hurricane) table
  /\ id hurricane = storm
  /\ covers universal storm timestamp
  /\ exists batch, singular = Some batch /\ covers batch storm timestamp.
Proof.
  unfold table_at.
  destruct (prediction_at universal storm timestamp) as [u|] eqn:Hu;
    cbn [rbind]; [|done].
  destruct singular as [batch|]; [|done].
  destruct (prediction_at batch storm timestamp) as [s|] eqn:Hs;
    cbn [rbind]; [|done].
  apply prediction_at_inv in Hu as (pu & Hpu & Hfu & Hku & Htu).
  apply prediction_at_inv in Hs as (ps & Hps & Hfs & Hks & Hts).
  unfold create_table.
  destruct (by_storm u (id hurricane)) as [u'|] eqn:Hid; cbn [rbind]; [|done].
  apply by_storm_inv in Hid as [-> Hid]. rewrite Hku in Hid.
  intros Hrows. apply table_rows_inv in Hrows as [Hlen Hat].
  rewrite Htu, length_fmap in Hlen.
  assert (time <$> table = (fun hour => timestamp + hour * 3600) <$> output_times)
    as Htimes.
  { apply list_eq. intros k. rewrite list_lookup_fmap, <- Htu.
    destruct (table !! k) as [row|] eqn:Hrow; cbn [fmap option_fmap option_map].
    - by destruct (Hat k row Hrow) as [-> _].
    - symmetry. apply lookup_ge_None. apply lookup_ge_None in Hrow.
      rewrite Htu, length_fmap. lia. }
  assert (forall k row,
            table !! k = Some row ->
            table_row distance u s hurricane output_times k (time row)
            = Ok row) as Hrow.
  { intros k row Hk. by destruct (Hat k row Hk) as [_ ?]. }
  split; [exact Htimes|]. split; [|split; [|split; [done|]]].
  - apply list_eq. intros k. rewrite list_lookup_fmap.
    destruct (table !! k) as [row|] eqn:Hk; cbn [fmap option_fmap option_map].
    + apply Hrow, table_row_inv in Hk as (_ & Hdelta & _). by rewrite Hdelta.
    + symmetry. apply lookup_ge_None. apply lookup_ge_None in Hk. lia.
  - apply Forall_forall. intros row Hin.
    apply list_elem_of_lookup in Hin as (k & Hk).
    by apply Hrow, table_row_inv in Hk as (_ & _ & _ & _ & _ & _ & _ & _ & _ & _ & ?).
  - destruct (lookup_lt_is_Some_2 table 4) as [row Hk];
      [rewrite Hlen; simpl; lia|].
    apply Hrow, table_row_inv in Hk
      as (_ & _ & _ & _ & Hmw & Hmla & Hmlo & Huw & Hula & Hulo & _).
    apply lookup_lt_Some in Hmw, Hmla, Hmlo, Huw, Hula, Hulo.
    split.
    + exists pu, (forecast u). cbn [length output_times]. repeat split;
        (done || lia).
    + exists batch. split; [done|].
      exists ps, (forecast s). cbn [length output_times]. repeat split;
        (done || lia).
Qed.

Lemma table_at_raises distance (universal singular : BatchResult)
    (storm : string) (hurricane : Hurricane) (timestamp : Z) (e : exn) :
  table_at distance universal (Some singular) storm hurricane timestamp
  = Raise e ->
  e = KeyError \/ e = IndexError.
Proof.
  unfold table_at.
  destruct (prediction_at universal storm timestamp) as [u|] eqn:Hu;
    cbn [rbind]; [|apply prediction_at_raises in Hu as ->; intros [= <-];
                   by left].
  destruct (prediction_at singular storm timestamp) as [s|] eqn:Hs;
    cbn [rbind]; [|apply prediction_at_raises in Hs as ->; intros [= <-];
                   by left].
  unfold create_table.
  destruct (by_storm u (id hurricane)) as [u'|] eqn:Hid; cbn [rbind];
    [|apply by_storm_raises in Hid as ->; intros [= <-]; by left].
  apply table_rows_raises.
Qed.

(** X18.  Every table the all-timesteps comprehension of [test.py]
    produces belongs to an anchor timestamp, has one row per reported
    horizon with the horizon as [delta] and the anchor plus that many hours
    as [time], and in every row the truth and difference columns are
    consistent with the storm's entry at the row's time: differences are
    truth minus the row's own prediction, the longitude truth is [long]
    times -1 while the distance is taken from the un-negated [long], and a
    row without an entry has ['N/A'] truth and no distance keys.  The
    table of the storm's latest timestamp has no truth in any row. *)
Theorem table_rows_consistent distance (universal : BatchResult)
    (singular : option BatchResult) (storm : string) (hurricane : Hurricane)
    (d : gmap Z (list TableRow)) (t : Z) (table : list TableRow) :
  tables distance universal singular storm hurricane = Ok d ->
  d !! t = Some table ->
  t ∈ anchors hurricane
  /\ time <$> table = (fun hour => t + hour * 3600) <$> output_times
  /\ delta <$> table = output_times
  /\ Forall (truth_columns distance hurricane) table
  /\ ((forall k, k ∈ keys (entries hurricane) -> k <= t) ->
      Forall (fun row =>
                WindTruth row = NA /\ LatTruth row = NA /\ LonTruth row = NA
                /\ Mdiff_Dist row = None /\ Udiff_Dist row = None)
             table).
Proof.
  intros Htables Ht. unfold tables in Htables.
  destruct (dict_comprehension_inv
              (table_at distance universal singular storm hurricane)
              (anchors hurricane)) as [Hall _].
  specialize (Hall d Htables).
  destruct (dict_comprehension_ok _ _ Hall) as (d' & Hd' & _ & Hvalue).
  rewrite Htables in Hd'. injection Hd' as <-.
  destruct (Hvalue t table Ht) as [Hanchor Htable].
  apply table_at_inv in Htable as (Htimes & Hdeltas & Htruth & _).
  repeat (split; [done|]).
  intros Hlatest. apply Forall_forall. intros row Hrow.
  pose proof (proj1 (Forall_forall _ _) Htruth row Hrow) as Hcolumns.
  unfold truth_columns in Hcolumns.
  rewrite entries_get_None in Hcolumns; [tauto|].
  intros Hkey. apply Hlatest in Hkey.
  assert (time row ∈ time <$> table) as Htime
    by (apply list_elem_of_fmap; eauto).
  rewrite Htimes in Htime.
  apply list_elem_of_fmap in Htime as (hour & Hhour & Hin).
  assert (0 < hour); [|lia].
  unfold output_times in Hin.
  repeat (apply elem_of_cons in Hin as [->|Hin]; [lia|]).
  by apply elem_of_nil in Hin.
Qed.

Lemma table_rows_consistent_witness :
  exists d table,
    tables example_distance example_batch (Some example_batch) "AL012020"
           example_hurricane = Ok d
    /\ d !! 1600236000 = Some table
    /\ delta <$> table = [6; 12; 24; 36; 48]
    /\ Forall (fun row => WindTruth row = NA /\ LatTruth row = NA
                          /\ LonTruth row = NA /\ Mdiff_Dist row = None
                          /\ Udiff_Dist row = None) table.
Proof.
  eexists _, _. split; [vm_compute; reflexivity|].
  split; [vm_compute; reflexivity|].
  match goal with
  | |- delta <$> ?table = _ /\ _ =>
      destruct (table_rows_consistent example_distance example_batch
                  (Some example_batch) "AL012020" example_hurricane
                  _ 1600236000 table
                  ltac:(vm_compute; reflexivity)
                  ltac:(vm_compute; reflexivity))
        as (_ & _ & Hdelta & _ & Hlatest)
  end.
  split; [exact Hdelta|]. apply Hlatest.
  intros k Hk. unfold keys, example_hurricane in Hk. cbn in Hk.
  repeat (apply elem_of_cons in Hk as [->|Hk]; [lia|]).
  by apply elem_of_nil in Hk.
Defined.

(** X19.  The all-timesteps comprehension succeeds only on complete
    input: when it returns its tables, [batch_inference] had answered for
    every anchor in both variants with at least five values per list, and,
    if there is an anchor at all, the hurricane's [id] is the storm key.
    When it fails, it fails with a [KeyError] (a storm, anchor or id that
    is missing) or an [IndexError] (a forecast list shorter than the
    horizons). *)
Theorem tables_need_cover distance (universal singular : BatchResult)
    (storm : string) (hurricane : Hurricane) :
  (forall d,
     tables distance universal (Some singular) storm hurricane = Ok d ->
     (forall t, t ∈ anchors hurricane ->
                covers universal storm t /\ covers singular storm t)
     /\ (anchors hurricane <> [] -> id hurricane = storm))
  /\ (forall e,
        tables distance universal (Some singular) storm hurricane = Raise e ->
        e = KeyError \/ e = IndexError).
Proof.
  unfold tables.
  destruct (dict_comprehension_inv
              (table_at distance universal (Some singular) storm hurricane)
              (anchors hurricane)) as [Hok Hraise].
  split.
  - intros d Hd. specialize (Hok d Hd).
    assert (forall t, t ∈ anchors hurricane ->
              id hurricane = storm
              /\ covers universal storm t /\ covers singular storm t) as Hall.
    { intros t Ht. destruct (Hok t Ht) as (table & Htable).
      apply table_at_inv in Htable
        as (_ & _ & _ & Hid & Hu & batch & [= <-] & Hs).
      done. }
    split.
    + intros t Ht. by destruct (Hall t Ht) as (_ & ? & ?).
    + destruct (anchors hurricane) as [|t rest]; [done|]. intros _.
      destruct (Hall t) as (? & _); [by left|done].
  - intros e He. destruct (Hraise e He) as (t & _ & Ht).
    by apply table_at_raises in Ht.
Qed.

Lemma tables_need_cover_witness :
  covers example_batch "AL012020" 1600236000
  /\ tables example_distance example_batch (Some (∅ : BatchResult))
            "AL012020" example_hurricane = Raise KeyError.
Proof.
  split.
  - eapply (proj1 (tables_need_cover example_distance example_batch
                     example_batch "AL012020" example_hurricane)).
    + vm_compute. reflexivity.
    + apply list_elem_of_here.
  - destruct (proj2 (tables_need_cover example_distance example_batch ∅
                       "AL012020" example_hurricane) KeyError) as [?|?].
    + vm_compute. reflexivity.
    + vm_compute. reflexivity.
    + discriminate.
Defined.

(** X20.  Without a [univariate] entry in the configuration the second
    batch is [None], and the all-timesteps comprehension cannot build a
    table: for a storm with more than five entries it fails on the first
    anchor, with a [TypeError] when the universal batch has that anchor
    and a [KeyError] when it has not.  Only a storm with at most five
    entries, which has no anchor, gives the empty dictionary. *)
Theorem tables_need_univariate distance (universal : BatchResult)
    (storm : string) (hurricane : Hurricane) :
  ((length (entries hurricane) <= 5)%nat ->
   tables distance universal None storm hurricane = Ok ∅)
  /\ (forall t,
        keys (entries hurricane) !! 5%nat = Some t ->
        tables distance universal None storm hurricane
        = Raise (match universal !! storm ≫= (fun per_storm => per_storm !! t)
                 with
                 | Some _ => TypeError
                 | None => KeyError
                 end)).
Proof.
  unfold tables, anchors. cbn [output_times length]. split.
  - intros Hlen. rewrite drop_ge; [done|]. unfold keys.
    by rewrite length_fmap.
  - intros t Ht. rewrite (drop_S _ t 5 Ht).
    apply dict_comprehension_first_raise.
    unfold table_at, prediction_at, dict_get.
    destruct (universal !! storm) as [per_storm|]; cbn; [|done].
    by destruct (per_storm !! t).
Qed.

Lemma tables_need_univariate_witness :
  tables example_distance example_batch None "AL012020" example_hurricane
  = Raise TypeError.
Proof.
  apply (proj2 (tables_need_univariate example_distance example_batch
                  "AL012020" example_hurricane) 1600236000).
  reflexivity.
Defined.

End TableRows.
